(** * Crestron Home MCP server: session, dispatcher, unit conversion, resolver

    A shallow embedding of [crestron_mcp.py].  Python values are modelled as
    the interpreter has them: [str] is a sequence of Unicode code points,
    [int] is [Z], [float] is an IEEE 754 binary64 number (Rocq's primitive
    floats, so that [0.5 + 0.2 + 0.1] is computed as Python computes it),
    JSON documents are a small tree type, and the module-level [_session]
    together with the event-loop clock and the HTTP traffic is an explicit
    state threaded through a state-and-exception monad. *)

From Stdlib Require Import ZArith NArith List Bool Lia String Ascii.
From Stdlib Require Import Floats.
From Stdlib Require Import Sorting.Sorted Sorting.Permutation.
Import ListNotations.

Set Warnings "-inexact-float,-register-all".
Local Open Scope Z_scope.

(* ------------------------------------------------------------------ *)
(** ** Python strings *)

Module Py.

(** A character is a code point; [len], slicing and [+] are those of lists. *)
Definition char := N.
Definition str := list char.

(** String literals of the source (ASCII text). *)
Definition py (s : string) : str := map N_of_ascii (list_ascii_of_string s).
Arguments py s%_string.

Definition len {A : Type} (l : list A) : Z := Z.of_nat (List.length l).

Fixpoint str_eqb (a b : str) : bool :=
  match a, b with
  | [], [] => true
  | c :: a', d :: b' => (c =? d)%N && str_eqb a' b'
  | _, _ => false
  end.

(** [str.lower()] on ASCII text: the letters [A-Z] are mapped to [a-z].
    The case mapping of code points outside ASCII depends on the Unicode
    tables of the interpreter and is not modelled (such code points are
    kept); the properties that turn on the case mapping are stated for
    text that satisfies [is_ascii]. *)
Definition lower_char (c : char) : char :=
  if ((65 <=? c) && (c <=? 90))%N then (c + 32)%N else c.

Definition lower (s : str) : str := map lower_char s.

(** [s.isascii()]. *)
Definition is_ascii (s : str) : bool := forallb (fun c => (c <? 128)%N) s.

Fixpoint startswith (s p : str) {struct p} : bool :=
  match p, s with
  | [], _ => true
  | c :: p', d :: s' => (c =? d)%N && startswith s' p'
  | _ :: _, [] => false
  end.

(** [p in s] for two strings. *)
Fixpoint isin (p s : str) : bool :=
  startswith s p ||
  match s with
  | [] => false
  | _ :: s' => isin p s'
  end.

(** [str.isspace] of one character (the code points [str.split()] cuts at). *)
Definition isspace (c : char) : bool :=
  (((9 <=? c) && (c <=? 13)) || ((28 <=? c) && (c <=? 32)) ||
   (c =? 133) || (c =? 160) || (c =? 5760) ||
   ((8192 <=? c) && (c <=? 8202)) || (c =? 8232) || (c =? 8233) ||
   (c =? 8239) || (c =? 8287) || (c =? 12288))%N.

(** [s.split()]: maximal runs of non-space characters, in order. *)
Fixpoint split_from (cur : str) (s : str) : list str :=
  match s with
  | [] => match cur with [] => [] | _ => [rev cur] end
  | c :: s' =>
      if isspace c
      then match cur with [] => split_from [] s' | _ => rev cur :: split_from [] s' end
      else split_from (c :: cur) s'
  end.

Definition split (s : str) : list str := split_from [] s.

(** [set(words)]: a set of strings, kept as a list without repetition. *)
Definition mem (w : str) (l : list str) : bool := existsb (str_eqb w) l.

Fixpoint set_of (l : list str) : list str :=
  match l with
  | [] => []
  | w :: l' => if mem w l' then set_of l' else w :: set_of l'
  end.

Definition intersection (a b : list str) : list str :=
  filter (fun w => mem w b) a.

(** [str(n)] and [f"{n:,}"] for a non-negative [int]. *)
Fixpoint uint_chars (u : Decimal.uint) : str :=
  match u with
  | Decimal.Nil => []
  | Decimal.D0 u => 48%N :: uint_chars u
  | Decimal.D1 u => 49%N :: uint_chars u
  | Decimal.D2 u => 50%N :: uint_chars u
  | Decimal.D3 u => 51%N :: uint_chars u
  | Decimal.D4 u => 52%N :: uint_chars u
  | Decimal.D5 u => 53%N :: uint_chars u
  | Decimal.D6 u => 54%N :: uint_chars u
  | Decimal.D7 u => 55%N :: uint_chars u
  | Decimal.D8 u => 56%N :: uint_chars u
  | Decimal.D9 u => 57%N :: uint_chars u
  end.

Definition str_of_nonneg (n : Z) : str :=
  match uint_chars (N.to_uint (Z.to_N n)) with
  | [] => [48%N]
  | l => l
  end.

Definition str_of_int (n : Z) : str :=
  if n <? 0 then 45%N :: str_of_nonneg (- n) else str_of_nonneg n.

(** Thousands separators, on the digits read from the right. *)
Fixpoint group3 (rev_digits : str) : str :=
  match rev_digits with
  | a :: b :: c :: ((_ :: _) as rest) => a :: b :: c :: 44%N :: group3 rest
  | l => l
  end.

Definition format_thousands (n : Z) : str :=
  if n <? 0 then 45%N :: rev (group3 (rev (str_of_nonneg (- n))))
  else rev (group3 (rev (str_of_nonneg n))).

End Py.
Export Py.

(* ------------------------------------------------------------------ *)
(** ** Python numbers *)

Module PyNum.

(** [float(n)] for an [int]; exact for [|n| <= 2^53], which covers every
    integer that reaches a division in the modelled code. *)
Definition float_of_int (z : Z) : float :=
  if z <? 0 then (- of_uint63 (Uint63.of_Z (- z)))%float
  else of_uint63 (Uint63.of_Z z).

(** [a / b] on two [int]s (true division) with a non-zero divisor. *)
Definition int_truediv (a b : Z) : float :=
  (float_of_int a / float_of_int b)%float.

(** [int(x)] for a [float]: truncation toward zero; [None] where Python
    raises (infinities and NaN).  A finite [|x|] is [M * 2 ^ k] with [M] its
    53-bit integer mantissa, and is truncated by shifting. *)
Definition int_of_float (x : float) : option Z :=
  if is_nan x || is_infinity x then None
  else
    let (m, e) := frshiftexp (abs x) in
    let M := Uint63.to_Z (normfr_mantissa m) in
    let k := Uint63.to_Z e - shift - 53 in
    let v := if 0 <=? k then Z.shiftl M k else Z.shiftr M (- k) in
    Some (if get_sign x then - v else v).

(** [min(a, b)] of two floats: the first argument unless the second is
    smaller. *)
Definition py_min (a b : float) : float := if (b <? a)%float then b else a.

(** Nearest integer to [n / d], ties to even ([0 <= n], [0 < d]). *)
Definition div_half_even (n d : Z) : Z :=
  let q := n / d in
  match (2 * (n mod d)) ?= d with
  | Lt => q
  | Gt => q + 1
  | Eq => if Z.even q then q else q + 1
  end.

(** [round(x, 2)]: the exact binary value of [x] is rounded half-even to
    hundredths, and the double nearest to that decimal is returned.  Used on
    clamped scores only, [0 <= x <= 1]. *)
Definition round2 (x : float) : float :=
  match Prim2SF x with
  | S754_finite s m e =>
      let k := if 0 <=? e then Z.pos m * 100 * 2 ^ e
               else div_half_even (Z.pos m * 100) (2 ^ (- e)) in
      let r := int_truediv k 100 in
      if s then (- r)%float else r
  | _ => x
  end.

End PyNum.
Export PyNum.

(* ------------------------------------------------------------------ *)
(** ** JSON values, dictionaries and exceptions *)

(** What [response.json()] returns and what the tools hand to
    [json.dumps]: [JNull] is [None], a [JObj] is a [dict] with the entries in
    insertion order and distinct keys. *)
Inductive json : Type :=
  | JNull
  | JBool (b : bool)
  | JInt (z : Z)
  | JFloat (x : float)
  | JStr (s : str)
  | JList (l : list json)
  | JObj (o : list (str * json)).

Inductive exn : Type :=
  | ValueError (msg : str)
  | JSONDecodeError (msg : str)      (* a subclass of ValueError *)
  | RuntimeError (msg : str)
  | HTTPStatusError (status_code : Z) (msg : str)
  | RequestError (msg : str)         (* httpx transport errors and timeouts *)
  | TypeError (msg : str)
  | AttributeError (msg : str)
  | KeyError (msg : str)
  | OverflowError (msg : str).

(** [str(e)]. *)
Definition exn_str (e : exn) : str :=
  match e with
  | ValueError m | JSONDecodeError m | RuntimeError m | HTTPStatusError _ m
  | RequestError m | TypeError m | AttributeError m | KeyError m
  | OverflowError m => m
  end.

(** [isinstance(e, ValueError)]. *)
Definition is_ValueError (e : exn) : bool :=
  match e with
  | ValueError _ | JSONDecodeError _ => true
  | _ => false
  end.

Definition type_name (v : json) : str :=
  match v with
  | JNull => py "NoneType"
  | JBool _ => py "bool"
  | JInt _ => py "int"
  | JFloat _ => py "float"
  | JStr _ => py "str"
  | JList _ => py "list"
  | JObj _ => py "dict"
  end.

(** Truth value of an object ([if v], [not v]). *)
Definition truthy (v : json) : bool :=
  match v with
  | JNull => false
  | JBool b => b
  | JInt z => negb (z =? 0)
  | JFloat x => negb (x =? 0)%float
  | JStr s => match s with [] => false | _ => true end
  | JList l => match l with [] => false | _ => true end
  | JObj o => match o with [] => false | _ => true end
  end.

Fixpoint dict_get {V : Type} (o : list (str * V)) (k : str) : option V :=
  match o with
  | [] => None
  | (k', v) :: o' => if str_eqb k' k then Some v else dict_get o' k
  end.

(** [d[k] = v] on a dict: the entry is replaced in place, or appended. *)
Fixpoint dict_set {V : Type} (o : list (str * V)) (k : str) (v : V) : list (str * V) :=
  match o with
  | [] => [(k, v)]
  | (k', v') :: o' => if str_eqb k' k then (k', v) :: o' else (k', v') :: dict_set o' k v
  end.

Definition no_attribute (v : json) (name : string) : exn :=
  AttributeError (py "'" ++ type_name v ++ py "' object has no attribute '" ++ py name ++ py "'").

(** [d.get(k, default)]. *)
Definition py_get (d : json) (k : string) (default : json) : exn + json :=
  match d with
  | JObj o => inr (match dict_get o (py k) with Some v => v | None => default end)
  | _ => inl (no_attribute d "get")
  end.

(** [d[k]] with a string key. *)
Definition py_getitem (d : json) (k : string) : exn + json :=
  match d with
  | JObj o => match dict_get o (py k) with
              | Some v => inr v
              | None => inl (KeyError (py "'" ++ py k ++ py "'"))
              end
  | JStr _ => inl (TypeError (py "string indices must be integers, not 'str'"))
  | JList _ => inl (TypeError (py "list indices must be integers or slices, not str"))
  | _ => inl (TypeError (py "'" ++ type_name d ++ py "' object is not subscriptable"))
  end.

(** [v.lower()]. *)
Definition py_lower (v : json) : exn + str :=
  match v with
  | JStr s => inr (lower s)
  | _ => inl (no_attribute v "lower")
  end.

(** The elements a [for] loop visits. *)
Definition py_iter (v : json) : exn + list json :=
  match v with
  | JList l => inr l
  | JObj o => inr (map (fun kv => JStr (fst kv)) o)
  | JStr s => inr (map (fun c => JStr [c]) s)
  | _ => inl (TypeError (py "'" ++ type_name v ++ py "' object is not iterable"))
  end.

(* ------------------------------------------------------------------ *)
(** ** Constants *)

Definition CHARACTER_LIMIT : Z := 25000.
Definition SESSION_TIMEOUT : Z := 540.

(* ------------------------------------------------------------------ *)
(** ** Session management *)

(** [class CrestronSession].  [auth_key] holds [None] or whatever the login
    body carried under ["AuthKey"]; [client] tells whether the HTTP client
    has been created. *)
Record CrestronSession : Type := {
  host : option str;
  auth_key : json;
  session_start : option float;
  client : bool
}.

(** [CrestronSession.__init__]. *)
Definition CrestronSession_init : CrestronSession :=
  {| host := None; auth_key := JNull; session_start := None; client := false |}.

(** [not self.session_start]. *)
Definition not_session_start (t : option float) : bool :=
  match t with
  | None => true
  | Some x => negb (truthy (JFloat x))
  end.

(** [CrestronSession.is_valid], with the reading of the event-loop clock as
    an argument. *)
Definition is_valid (self : CrestronSession) (now : float) : bool :=
  if negb (truthy (auth_key self)) || not_session_start (session_start self)
  then false
  else
    match session_start self with
    | Some start =>
        let elapsed := (now - start)%float in
        (elapsed <? float_of_int SESSION_TIMEOUT)%float
    | None => false
    end.

(** [CrestronSession.clear]. *)
Definition clear (self : CrestronSession) : CrestronSession :=
  {| host := host self; auth_key := JNull; session_start := None;
     client := client self |}.

(* ------------------------------------------------------------------ *)
(** ** The process state and its monad *)

Record Request : Type := {
  rq_method : str;
  rq_url : str;
  rq_headers : list (str * json);
  rq_json : option json
}.

Record Response : Type := {
  status_code : Z;
  reason : str;               (* the text httpx puts in an HTTPStatusError *)
  payload : option json       (* [None]: the body is not JSON *)
}.

(** What the network does with a request: no answer (connection error,
    timeout) or a response. *)
Inductive Reply : Type :=
  | NoResponse (msg : str)
  | Answer (r : Response).

(** The remote controller and the network: from the requests sent so far and
    the next one, the reply and the loop time at which the call returns. *)
Definition Remote : Type := list Request -> Request -> Reply * float.

(** The module-level [_session], the event-loop clock, and the requests that
    have gone out. *)
Record World : Type := {
  session : CrestronSession;
  loop_time : float;
  requests : list Request
}.

(** A computation may change the world and ends in a value or a raised
    exception; what was changed before a [raise] stays changed. *)
Definition M (A : Type) : Type := World -> (exn + A) * World.

Definition ret {A : Type} (a : A) : M A := fun w => (inr a, w).

Definition raise {A : Type} (e : exn) : M A := fun w => (inl e, w).

Definition bind {A B : Type} (c : M A) (k : A -> M B) : M B :=
  fun w =>
    match c w with
    | (inr a, w') => k a w'
    | (inl e, w') => (inl e, w')
    end.

(** [try: c except ... as e: h e]. *)
Definition try_except {A : Type} (c : M A) (h : exn -> M A) : M A :=
  fun w =>
    match c w with
    | (inl e, w') => h e w'
    | r => r
    end.

Definition lift {A : Type} (r : exn + A) : M A := fun w => (r, w).

Declare Scope py_scope.
Delimit Scope py_scope with py.
Notation "x <- c ;; k" := (bind c (fun x => k))
  (at level 61, c at next level, right associativity) : py_scope.
Notation "c ;; k" := (bind c (fun _ => k))
  (at level 61, right associativity) : py_scope.
Local Open Scope py_scope.

Definition get_session : M CrestronSession := fun w => (inr (session w), w).

Definition set_session (s : CrestronSession) : M unit :=
  fun w => (inr tt, {| session := s; loop_time := loop_time w; requests := requests w |}).

(** [asyncio.get_event_loop().time()]. *)
Definition get_time : M float := fun w => (inr (loop_time w), w).

Definition set_host (h : str) : M unit :=
  s <- get_session ;;
  set_session {| host := Some h; auth_key := auth_key s;
                 session_start := session_start s; client := client s |}.

Definition set_auth_key (k : json) : M unit :=
  s <- get_session ;;
  set_session {| host := host s; auth_key := k;
                 session_start := session_start s; client := client s |}.

Definition set_session_start (t : float) : M unit :=
  s <- get_session ;;
  set_session {| host := host s; auth_key := auth_key s;
                 session_start := Some t; client := client s |}.

(** The check the HTTP client makes of header values while it builds a
    request: a value that is not a [str] raises [TypeError] (httpx,
    [Header value must be str or bytes]).  The values are visited in the
    order of the dict.  The encoding of the text of a header, which the
    client also does here, is not modelled: the properties that send a key
    or a token assume one made of visible ASCII characters. *)
Fixpoint check_headers (headers : list (str * json)) : option exn :=
  match headers with
  | [] => None
  | (_, JStr _) :: rest => check_headers rest
  | (_, v) :: _ =>
      Some (TypeError (py "Header value must be str or bytes, not <class '" ++
                       type_name v ++ py "'>"))
  end.

Section Dispatcher.

Variable remote : Remote.

(** One call of the HTTP client.  The client builds the request first and
    refuses headers it cannot encode, before anything is sent; then the
    request goes out, the clock moves to the time the call returns, and a
    transport failure is raised. *)
Definition send (rq : Request) : M Response :=
  fun w =>
    match check_headers (rq_headers rq) with
    | Some e => (inl e, w)
    | None =>
        let (reply, t) := remote (requests w) rq in
        let w' := {| session := session w; loop_time := t;
                     requests := requests w ++ [rq] |} in
        match reply with
        | NoResponse msg => (inl (RequestError msg), w')
        | Answer r => (inr r, w')
        end
    end.

(** [_session.client.get(url, headers=headers)]. *)
Definition client_get (url : str) (headers : list (str * json)) : M Response :=
  send {| rq_method := py "GET"; rq_url := url; rq_headers := headers;
          rq_json := None |}.

(** [_session.client.post(url, headers=headers, json=body)]. *)
Definition client_post (url : str) (headers : list (str * json))
    (body : option json) : M Response :=
  send {| rq_method := py "POST"; rq_url := url; rq_headers := headers;
          rq_json := body |}.

(** [response.raise_for_status()]: anything but a 2xx status raises. *)
Definition raise_for_status (r : Response) : M unit :=
  if (200 <=? status_code r) && (status_code r <? 300) then ret tt
  else raise (HTTPStatusError (status_code r) (reason r)).

(** [response.json()]. *)
Definition response_json (r : Response) : M json :=
  match payload r with
  | Some v => ret v
  | None => raise (JSONDecodeError (py "Expecting value"))
  end.

(** [authenticate(host, auth_token)]. *)
Definition authenticate (host_ auth_token : str) : M json :=
  s <- get_session ;;
  if negb (client s) then raise (RuntimeError (py "HTTP client not initialized"))
  else
    let url := py "https://" ++ host_ ++ py "/cws/api/login" in
    let headers := [(py "Crestron-RestAPI-AuthToken", JStr auth_token)] in
    response <- client_get url headers ;;
    raise_for_status response ;;
    data <- response_json response ;;
    (* Update global session *)
    set_host host_ ;;
    k <- lift (py_get data "AuthKey" JNull) ;;
    set_auth_key k ;;
    t <- get_time ;;
    set_session_start t ;;
    ret data.

Definition NOT_AUTHENTICATED : str :=
  py "Not authenticated or session expired. Please authenticate first using crestron_authenticate tool.".

(** [f"{_session.host}"]. *)
Definition format_host (h : option str) : str :=
  match h with
  | Some s => s
  | None => py "None"
  end.

(** [api_request(endpoint, method, body, require_auth)]. *)
Definition api_request (endpoint : str) (method : str) (body : option json)
    (require_auth : bool) : M json :=
  (if require_auth then
     s <- get_session ;;
     now <- get_time ;;
     if negb (is_valid s now) then raise (ValueError NOT_AUTHENTICATED)
     else ret tt
   else ret tt) ;;
  s <- get_session ;;
  if negb (client s) then raise (RuntimeError (py "HTTP client not initialized"))
  else
    let url := py "https://" ++ format_host (host s) ++ py "/cws/api" ++ endpoint in
    let headers :=
      if require_auth && truthy (auth_key s)
      then [(py "Crestron-RestAPI-AuthKey", auth_key s)] else [] in
    response <-
      (if str_eqb method (py "GET") then client_get url headers
       else if str_eqb method (py "POST") then
         client_post url
           (dict_set headers (py "Content-Type") (JStr (py "application/json")))
           body
       else raise (ValueError (py "Unsupported HTTP method: " ++ method))) ;;
    raise_for_status response ;;
    response_json response.

End Dispatcher.

(* ------------------------------------------------------------------ *)
(** ** Response size governance *)

(** The first part of the notice, up to and including ["characters. "]. *)
Definition truncation_head (original : Z) : str :=
  [10%N; 10%N; 9888%N; 65039%N] ++ py " **Response Truncated**" ++ [10%N] ++
  py "The response was truncated from " ++ format_thousands original ++
  py " to " ++ format_thousands CHARACTER_LIMIT ++ py " characters. ".

(** [truncate_response(response, items_count)]. *)
Definition truncate_response (response : str) (items_count : Z) : str :=
  if len response <=? CHARACTER_LIMIT then response
  else
    let truncated := firstn (Z.to_nat CHARACTER_LIMIT) response in
    let truncation_msg := truncation_head (len response) in
    let truncation_msg :=
      if 0 <? items_count then
        truncation_msg ++
        py "Try using filters, reducing the limit parameter, or requesting specific items to see more details."
      else
        truncation_msg ++
        py "Try requesting specific items or using filters to reduce the response size." in
    truncated ++ truncation_msg.

(* ------------------------------------------------------------------ *)
(** ** Pure computations that may raise *)

Definition bind_r {A B : Type} (r : exn + A) (k : A -> exn + B) : exn + B :=
  match r with
  | inl e => inl e
  | inr a => k a
  end.

Notation "x <~ c ;; k" := (bind_r c (fun x => k))
  (at level 61, c at next level, right associativity) : py_scope.

(** A [for] loop that builds a list and stops at the first exception. *)
Fixpoint for_each {A B : Type} (f : A -> exn + B) (l : list A) : exn + list B :=
  match l with
  | [] => inr []
  | a :: l' => b <~ f a ;; bs <~ for_each f l' ;; inr (b :: bs)
  end.

Definition int_ (x : float) : exn + Z :=
  match int_of_float x with
  | Some z => inr z
  | None => inl (OverflowError (py "cannot convert float infinity or NaN to integer"))
  end.

(* ------------------------------------------------------------------ *)
(** ** Authentication tool *)

Record AuthenticateInput : Type := {
  ai_host : str;
  ai_auth_token : str
}.

Section Tools.

Variable remote : Remote.

(** [crestron_authenticate(params)]; the result is the object given to
    [json.dumps]. *)
Definition crestron_authenticate (params : AuthenticateInput) : M json :=
  try_except
    (result <- authenticate remote (ai_host params) (ai_auth_token params) ;;
     version <- lift (py_get result "version" (JStr (py "unknown"))) ;;
     ret (JObj
       [ (py "status", JStr (py "success"));
         (py "host", JStr (ai_host params));
         (py "authenticated", JBool true);
         (py "session_valid_for", JStr (py "10 minutes"));
         (py "api_version", version);
         (py "message",
          JStr (py "Successfully authenticated with Crestron Home. You can now use other tools.")) ]))
    (fun e =>
       match e with
       | HTTPStatusError _ _ =>
           ret (JObj
             [ (py "status", JStr (py "error"));
               (py "error", JStr (py "Authentication failed"));
               (py "details", JStr (exn_str e));
               (py "help",
                JStr (py "Verify that: (1) The host is correct and reachable, (2) The auth token is valid and not expired, (3) Web API is enabled in Crestron Home settings")) ])
       | _ =>
           ret (JObj
             [ (py "status", JStr (py "error"));
               (py "error", JStr (exn_str e));
               (py "help",
                JStr (py "Check network connectivity and Crestron Home system status")) ])
       end).

(* ------------------------------------------------------------------ *)
(** ** Shades: unit conversion and the batch command *)

(** Read path, [int(shade.get('position', 0) * 100 / 65535)] in
    [crestron_get_shades]. *)
Definition shade_position_percent (shade : json) : exn + Z :=
  raw <~ py_get shade "position" (JInt 0) ;;
  match raw with
  | JInt z => int_ (int_truediv (z * 100) 65535)
  | JBool b => int_ (int_truediv (Z.b2z b * 100) 65535)
  | JFloat x => int_ (x * 100 / 65535)%float
  | JNull | JObj _ =>
      inl (TypeError (py "unsupported operand type(s) for *: '" ++ type_name raw ++ py "' and 'int'"))
  | JStr _ | JList _ =>
      inl (TypeError (py "unsupported operand type(s) for /: '" ++ type_name raw ++ py "' and 'int'"))
  end.

(** [class ShadePosition]: [id >= 1], [0 <= position <= 100]. *)
Record ShadePosition : Type := {
  shade_id : Z;
  position : Z
}.

(** [class SetShadeStateInput]: between 1 and 50 commands. *)
Record SetShadeStateInput : Type := {
  shades : list ShadePosition
}.

(** What the input model accepts. *)
Definition accepted_ShadePosition (c : ShadePosition) : Prop :=
  1 <= shade_id c /\ 0 <= position c <= 100.

Definition accepted_SetShadeStateInput (params : SetShadeStateInput) : Prop :=
  1 <= len (shades params) <= 50 /\ Forall accepted_ShadePosition (shades params).

(** Write path, [int(shade.position * 65535 / 100)]. *)
Definition crestron_position (position_ : Z) : exn + Z :=
  int_ (int_truediv (position_ * 65535) 100).

(** [v == s] for a string literal [s]. *)
Definition eq_str (v : json) (s : string) : bool :=
  match v with
  | JStr t => str_eqb t (py s)
  | _ => false
  end.

(** [crestron_set_shade_position(params)]. *)
Definition crestron_set_shade_position (params : SetShadeStateInput) : M json :=
  try_except
    (shades_data <-
       lift (for_each
               (fun shade =>
                  p <~ crestron_position (position shade) ;;
                  inr (JObj [ (py "id", JInt (shade_id shade));
                              (py "position", JInt p) ]))
               (shades params)) ;;
     let body := JObj [ (py "shades", JList shades_data) ] in
     result <- api_request remote (py "/shades/SetState") (py "POST") (Some body) true ;;
     status <- lift (py_get result "status" (JStr (py "unknown"))) ;;
     let response :=
       [ (py "status", status);
         (py "shades_updated", JInt (len (shades params)));
         (py "details", result) ] in
     let response :=
       if eq_str status "partial" then
         dict_set response (py "message")
           (JStr (py "Some shades failed to update. Check 'errorDevices' in details. Verify shade IDs are correct and devices are online."))
       else if eq_str status "success" then
         dict_set response (py "message")
           (JStr (py "Successfully updated " ++ str_of_int (len (shades params)) ++ py " shade(s)"))
       else response in
     ret (JObj response))
    (fun e =>
       if is_ValueError e then ret (JObj [ (py "error", JStr (exn_str e)) ])
       else
         match e with
         | HTTPStatusError code _ =>
             ret (JObj [ (py "error", JStr (py "Failed to set shade positions"));
                         (py "status_code", JInt code);
                         (py "details", JStr (exn_str e)) ])
         | _ =>
             ret (JObj [ (py "error", JStr (py "Failed to set shade positions"));
                         (py "details", JStr (exn_str e)) ])
         end).

End Tools.

(* ------------------------------------------------------------------ *)
(** ** Device resolution *)

(** [x == z] for a float and an int (exact). *)
Definition float_eq_int (x : float) (z : Z) : bool :=
  match Prim2SF x with
  | S754_zero _ => z =? 0
  | S754_finite s m e =>
      let v := if s then - Z.pos m else Z.pos m in
      if 0 <=? e then z =? v * 2 ^ e
      else (Z.pos m mod 2 ^ (- e) =? 0) && (z =? v / 2 ^ (- e))
  | _ => false
  end.

Definition int_like (v : json) : option Z :=
  match v with
  | JBool b => Some (Z.b2z b)
  | JInt z => Some z
  | _ => None
  end.

(** [a == b] where one side is [None], a number or a string (the room ids
    of a listing, the room hint); a list or a dict equals none of these. *)
Definition py_eq (a b : json) : bool :=
  match a, b with
  | JNull, JNull => true
  | JStr s, JStr t => str_eqb s t
  | JFloat x, JFloat y => (x =? y)%float
  | JFloat x, _ => match int_like b with Some z => float_eq_int x z | None => false end
  | _, JFloat y => match int_like a with Some z => float_eq_int y z | None => false end
  | _, _ => match int_like a, int_like b with
            | Some z, Some t => z =? t
            | _, _ => false
            end
  end.

(** [hash(v)] raises for lists and dicts. *)
Definition hashable (v : json) : exn + unit :=
  match v with
  | JList _ | JObj _ => inl (TypeError (py "unhashable type: '" ++ type_name v ++ py "'"))
  | _ => inr tt
  end.

(** [room_map]: a dict from room id to lower-cased room name. *)
Definition room_dict : Type := list (json * str).

Fixpoint room_get (m : room_dict) (k : json) : option str :=
  match m with
  | [] => None
  | (k', v) :: m' => if py_eq k' k then Some v else room_get m' k
  end.

Fixpoint room_set (m : room_dict) (k : json) (v : str) : room_dict :=
  match m with
  | [] => [(k, v)]
  | (k', v') :: m' => if py_eq k' k then (k', v) :: m' else (k', v') :: room_set m' k v
  end.

(** [{r["id"]: r["name"].lower() for r in rooms}]. *)
Fixpoint build_room_map (rooms : list json) (m : room_dict) : exn + room_dict :=
  match rooms with
  | [] => inr m
  | r :: rest =>
      k <~ py_getitem r "id" ;;
      n <~ py_getitem r "name" ;;
      name <~ py_lower n ;;
      _ <~ hashable k ;;
      build_room_map rest (room_set m k name)
  end.

Record ResolveDeviceInput : Type := {
  utterance : str;
  preferred_room_id : option Z
}.

(** [params.preferred_room_id and device_room_id == params.preferred_room_id]. *)
Definition preferred_room_matches (preferred : option Z) (device_room_id : json) : bool :=
  match preferred with
  | None => false
  | Some p => negb (p =? 0) && py_eq device_room_id (JInt p)
  end.

(** The four signals of one device, as the loop body tests them. *)
Record Signals : Type := {
  name_match : bool;
  type_match : bool;
  room_match : bool;
  overlap : Z
}.

(** The arithmetic of the loop body: [score = 0.0], then the four
    [score += ...], in the source's order. *)
Definition score_of (g : Signals) : float :=
  let score := 0.0%float in
  let score := if name_match g then (score + 0.5)%float else score in
  let score := if type_match g then (score + 0.3)%float else score in
  let score := if room_match g then (score + 0.2)%float else score in
  let score := if negb (overlap g =? 0)
               then (score + 0.1 * float_of_int (overlap g))%float else score in
  score.

(** The room test of the loop body: the caller's hint first, the room name
    only when the hint did not match. *)
Definition room_signal (utterance_lower : str) (preferred : option Z)
    (room_map : room_dict) (device_room_id : json) : exn + bool :=
  if preferred_room_matches preferred device_room_id then inr true
  else
    _ <~ hashable device_room_id ;;
    match room_get room_map device_room_id with
    | Some room_name => inr (isin room_name utterance_lower)
    | None => inr false
    end.

(** The tests of the loop body for one device. *)
Definition signals_of (utterance_lower : str) (preferred : option Z)
    (room_map : room_dict) (device : json) : exn + Signals :=
  n <~ py_get device "name" (JStr []) ;;
  device_name <~ py_lower n ;;
  t <~ py_get device "type" (JStr []) ;;
  device_type <~ py_lower t ;;
  device_room_id <~ py_get device "roomId" JNull ;;
  let by_name := isin device_name utterance_lower || isin utterance_lower device_name in
  let by_type := isin device_type utterance_lower in
  by_room <~ room_signal utterance_lower preferred room_map device_room_id ;;
  let utterance_words := set_of (split utterance_lower) in
  let device_words := set_of (split device_name) in
  let overlap_ := intersection utterance_words device_words in
  inr {| name_match := by_name; type_match := by_type; room_match := by_room;
         overlap := len overlap_ |}.

(** An entry of [matches]: [{"device": device, "score": ...}]. *)
Record Match : Type := {
  m_device : json;
  m_score : float
}.

(** The scoring loop. *)
Fixpoint score_devices (utterance_lower : str) (preferred : option Z)
    (room_map : room_dict) (devices : list json) : exn + list Match :=
  match devices with
  | [] => inr []
  | device :: rest =>
      g <~ signals_of utterance_lower preferred room_map device ;;
      let score := score_of g in
      later <~ score_devices utterance_lower preferred room_map rest ;;
      if (0 <? score)%float
      then inr ({| m_device := device; m_score := py_min score 1.0 |} :: later)
      else inr later
  end.

(** [matches.sort(key=lambda x: x["score"], reverse=True)]: a stable sort,
    larger scores first, equal scores in their original order. *)
Fixpoint insert_match (x : Match) (l : list Match) : list Match :=
  match l with
  | [] => [x]
  | y :: l' =>
      if (m_score x <? m_score y)%float then y :: insert_match x l'
      else x :: y :: l'
  end.

Fixpoint sort_matches (l : list Match) : list Match :=
  match l with
  | [] => []
  | x :: l' => insert_match x (sort_matches l')
  end.

(** One entry of ["candidates"]. *)
Definition candidate_of (m : Match) : exn + json :=
  let device := m_device m in
  i <~ py_getitem device "id" ;;
  n <~ py_getitem device "name" ;;
  t <~ py_getitem device "type" ;;
  st <~ py_get device "subType" JNull ;;
  r <~ py_get device "roomId" JNull ;;
  inr (JObj [ (py "device_id", i); (py "name", n); (py "type", t);
              (py "subType", st); (py "room_id", r);
              (py "confidence", JFloat (round2 (m_score m))) ]).

(** The decision on the sorted matches. *)
Definition decide_response (params : ResolveDeviceInput) (matches : list Match)
    : exn + json :=
  match matches with
  | [] =>
      inr (JObj
        [ (py "resolved", JBool false);
          (py "confidence", JFloat 0.0);
          (py "original_utterance", JStr (utterance params));
          (py "message", JStr (py "No devices matched the description"));
          (py "help", JStr (py "Try using crestron_list_devices to see available devices")) ])
  | top :: _ =>
      if (0.8 <=? m_score top)%float then
        let device := m_device top in
        i <~ py_getitem device "id" ;;
        n <~ py_getitem device "name" ;;
        t <~ py_getitem device "type" ;;
        r <~ py_get device "roomId" JNull ;;
        inr (JObj
          [ (py "resolved", JBool true);
            (py "confidence", JFloat (m_score top));
            (py "device_id", i);
            (py "device_name", n);
            (py "device_type", t);
            (py "room_id", r);
            (py "original_utterance", JStr (utterance params));
            (py "message", JStr (py "Device successfully resolved")) ])
      else
        candidates <~ for_each candidate_of (firstn 5 matches) ;;
        inr (JObj
          [ (py "resolved", JBool false);
            (py "confidence", JFloat (m_score top));
            (py "original_utterance", JStr (utterance params));
            (py "clarification_needed", JBool true);
            (py "candidates", JList candidates);
            (py "message",
             JStr (py "Found " ++ str_of_int (len candidates) ++
                   py " possible matches. Please clarify which device you mean by providing more specific information (room name, device type, etc.)")) ])
  end.

(** The body of [crestron_resolve_device] once both listings are in hand. *)
Definition resolve_in_listings (params : ResolveDeviceInput)
    (devices rooms : json) : exn + json :=
  room_list <~ py_iter rooms ;;
  room_map <~ build_room_map room_list [] ;;
  let utterance_lower := lower (utterance params) in
  device_list <~ py_iter devices ;;
  matches <~ score_devices utterance_lower (preferred_room_id params) room_map device_list ;;
  decide_response params (sort_matches matches).

Section Resolver.

Variable remote : Remote.

(** [crestron_resolve_device(params)]. *)
Definition crestron_resolve_device (params : ResolveDeviceInput) : M json :=
  try_except
    (data <- api_request remote (py "/devices") (py "GET") None true ;;
     devices <- lift (py_get data "devices" (JList [])) ;;
     rooms_data <- api_request remote (py "/rooms") (py "GET") None true ;;
     rooms <- lift (py_get rooms_data "rooms" (JList [])) ;;
     lift (resolve_in_listings params devices rooms))
    (fun e =>
       if is_ValueError e then ret (JObj [ (py "error", JStr (exn_str e)) ])
       else ret (JObj [ (py "error", JStr (py "Failed to resolve device"));
                        (py "details", JStr (exn_str e)) ])).

End Resolver.

(* ------------------------------------------------------------------ *)
(** ** Scene and thermostat commands *)

(** The string-valued enums of the input models, with their [.value]. *)
Module ThermostatMode.
Inductive t : Type := HEAT | COOL | AUTO | OFF.
Definition value (m : t) : str :=
  match m with
  | HEAT => py "HEAT"
  | COOL => py "COOL"
  | AUTO => py "AUTO"
  | OFF => py "OFF"
  end.
End ThermostatMode.

Module FanMode.
Inductive t : Type := AUTO | ON.
Definition value (m : t) : str :=
  match m with
  | AUTO => py "AUTO"
  | ON => py "ON"
  end.
End FanMode.

Module SetPointType.
Inductive t : Type := HEAT | COOL | AUTO.
Definition value (m : t) : str :=
  match m with
  | HEAT => py "Heat"
  | COOL => py "Cool"
  | AUTO => py "Auto"
  end.
End SetPointType.

(** [class RecallSceneInput]: [scene_id >= 1]. *)
Record RecallSceneInput : Type := {
  scene_id : Z
}.

(** [class ThermostatSetpoint]: [0 <= temperature <= 1000]. *)
Record ThermostatSetpoint : Type := {
  sp_type : SetPointType.t;
  sp_temperature : Z
}.

(** [class SetThermostatSetpointInput]: one to three setpoints. *)
Record SetThermostatSetpointInput : Type := {
  thermostat_id : Z;
  setpoints : list ThermostatSetpoint
}.

(** [class ThermostatModeCommand]. *)
Record ThermostatModeCommand : Type := {
  tm_id : Z;
  tm_mode : ThermostatMode.t
}.

(** [class SetThermostatModeInput]: between 1 and 50 commands. *)
Record SetThermostatModeInput : Type := {
  tm_thermostats : list ThermostatModeCommand
}.

(** [class ThermostatFanCommand]. *)
Record ThermostatFanCommand : Type := {
  tf_id : Z;
  tf_mode : FanMode.t
}.

(** [class SetThermostatFanInput]: between 1 and 50 commands. *)
Record SetThermostatFanInput : Type := {
  tf_thermostats : list ThermostatFanCommand
}.

Section Commands.

Variable remote : Remote.

(** [except ValueError as e: return json.dumps({"error": str(e)})]. *)
Definition error_object (e : exn) : json :=
  JObj [ (py "error", JStr (exn_str e)) ].

(** [except Exception as e] of the tools: a fixed text and [str(e)]. *)
Definition failure_object (text : string) (e : exn) : json :=
  JObj [ (py "error", JStr (py text)); (py "details", JStr (exn_str e)) ].

(** [crestron_activate_scene(params)]. *)
Definition crestron_activate_scene (params : RecallSceneInput) : M json :=
  try_except
    (result <- api_request remote
                 (py "/scenes/recall/" ++ str_of_int (scene_id params))
                 (py "POST") None true ;;
     ret (JObj [ (py "status", JStr (py "success"));
                 (py "scene_id", JInt (scene_id params));
                 (py "message", JStr (py "Scene activated successfully"));
                 (py "details", result) ]))
    (fun e =>
       if is_ValueError e then ret (error_object e)
       else
         match e with
         | HTTPStatusError code _ =>
             if code =? 404 then
               ret (JObj [ (py "error",
                            JStr (py "Scene with ID " ++ str_of_int (scene_id params) ++
                                  py " not found"));
                           (py "help",
                            JStr (py "Use crestron_list_scenes to see available scenes")) ])
             else
               ret (JObj [ (py "error", JStr (py "Failed to activate scene"));
                           (py "status_code", JInt code);
                           (py "details", JStr (exn_str e)) ])
         | _ => ret (failure_object "Failed to activate scene" e)
         end).

(** [crestron_set_thermostat_setpoint(params)]. *)
Definition crestron_set_thermostat_setpoint (params : SetThermostatSetpointInput)
    : M json :=
  try_except
    (let setpoints_data :=
       map (fun sp => JObj [ (py "type", JStr (SetPointType.value (sp_type sp)));
                             (py "temperature", JInt (sp_temperature sp)) ])
           (setpoints params) in
     let body := JObj [ (py "id", JInt (thermostat_id params));
                        (py "setpoints", JList setpoints_data) ] in
     result <- api_request remote (py "/thermostats/SetPoint") (py "POST")
                 (Some body) true ;;
     ret (JObj [ (py "status", JStr (py "success"));
                 (py "thermostat_id", JInt (thermostat_id params));
                 (py "setpoints_updated", JInt (len (setpoints params)));
                 (py "message",
                  JStr (py "Successfully updated " ++
                        str_of_int (len (setpoints params)) ++ py " setpoint(s)"));
                 (py "details", result) ]))
    (fun e =>
       if is_ValueError e then ret (error_object e)
       else
         match e with
         | HTTPStatusError code _ =>
             ret (JObj [ (py "error", JStr (py "Failed to set thermostat setpoint"));
                         (py "status_code", JInt code);
                         (py "details", JStr (exn_str e));
                         (py "help",
                          JStr (py "Verify temperature is within valid range for this thermostat")) ])
         | _ => ret (failure_object "Failed to set thermostat setpoint" e)
         end).

(** [crestron_set_thermostat_mode(params)]. *)
Definition crestron_set_thermostat_mode (params : SetThermostatModeInput) : M json :=
  try_except
    (let thermostats_data :=
       map (fun t => JObj [ (py "id", JInt (tm_id t));
                            (py "mode", JStr (ThermostatMode.value (tm_mode t))) ])
           (tm_thermostats params) in
     let body := JObj [ (py "thermostats", JList thermostats_data) ] in
     result <- api_request remote (py "/thermostats/mode") (py "POST")
                 (Some body) true ;;
     status <- lift (py_get result "status" (JStr (py "success"))) ;;
     ret (JObj [ (py "status", status);
                 (py "thermostats_updated", JInt (len (tm_thermostats params)));
                 (py "message",
                  JStr (py "Successfully updated " ++
                        str_of_int (len (tm_thermostats params)) ++
                        py " thermostat(s)"));
                 (py "details", result) ]))
    (fun e =>
       if is_ValueError e then ret (error_object e)
       else ret (failure_object "Failed to set thermostat mode" e)).

(** [crestron_set_thermostat_fan(params)]. *)
Definition crestron_set_thermostat_fan (params : SetThermostatFanInput) : M json :=
  try_except
    (let thermostats_data :=
       map (fun t => JObj [ (py "id", JInt (tf_id t));
                            (py "mode", JStr (FanMode.value (tf_mode t))) ])
           (tf_thermostats params) in
     let body := JObj [ (py "thermostats", JList thermostats_data) ] in
     result <- api_request remote (py "/thermostats/fanmode") (py "POST")
                 (Some body) true ;;
     ret (JObj [ (py "status", JStr (py "success"));
                 (py "thermostats_updated", JInt (len (tf_thermostats params)));
                 (py "message",
                  JStr (py "Successfully updated fan mode for " ++
                        str_of_int (len (tf_thermostats params)) ++
                        py " thermostat(s)"));
                 (py "details", result) ]))
    (fun e =>
       if is_ValueError e then ret (error_object e)
       else ret (failure_object "Failed to set thermostat fan mode" e)).

End Commands.

(* ------------------------------------------------------------------ *)
(** ** Vocabulary of the session properties *)

(** The credential is set: [auth_key] is neither [None] nor empty. *)
Definition credential_set (s : CrestronSession) : Prop :=
  truthy (auth_key s) = true.

(** A session was issued at [start]: [session_start] holds that clock
    reading.  [is_valid] tests the reading for truth, so a reading of
    exactly [0.0] counts as none. *)
Definition issued_at (s : CrestronSession) (start : float) : Prop :=
  session_start s = Some start /\ (start =? 0)%float = false.

(** No session was ever established: the fields are as [__init__] left
    them. *)
Definition never_established (s : CrestronSession) : Prop :=
  auth_key s = JNull /\ session_start s = None.

(** No valid session exists at clock reading [now]. *)
Definition no_valid_session (s : CrestronSession) (now : float) : Prop :=
  never_established s \/
  truthy (auth_key s) = false \/
  exists start, session_start s = Some start /\
                (float_of_int SESSION_TIMEOUT <=? now - start)%float = true.

(** A session in use: the client exists, a key was issued at [start]. *)
Definition live_session (h key : string) (start : float) : CrestronSession :=
  {| host := Some (py h); auth_key := JStr (py key);
     session_start := Some start; client := true |}.

(** A remote that gives the same answer to every request, each call
    returning at loop time [arrival]. *)
Definition constant_remote (reply : Reply) (arrival : float) : Remote :=
  fun _ _ => (reply, arrival).

Definition ok_response (v : json) : Reply :=
  Answer {| status_code := 200; reason := py "OK"; payload := Some v |}.


(* ------------------------------------------------------------------ *)
(** ** Vocabulary of the login properties *)

(** The request [authenticate] sends. *)
Definition login_request (host_ auth_token : str) : Request :=
  {| rq_method := py "GET";
     rq_url := py "https://" ++ host_ ++ py "/cws/api/login";
     rq_headers := [(py "Crestron-RestAPI-AuthToken", JStr auth_token)];
     rq_json := None |}.

(** The world after one request has gone out and its call returned at
    loop time [t]. *)
Definition after_request (w : World) (rq : Request) (t : float) : World :=
  {| session := session w; loop_time := t; requests := requests w ++ [rq] |}.

(** The world [w] with the stored host replaced by [h]. *)
Definition with_host (w : World) (h : str) : World :=
  {| session := {| host := Some h; auth_key := auth_key (session w);
                   session_start := session_start (session w);
                   client := client (session w) |};
     loop_time := loop_time w; requests := requests w |}.

Definition unauthorized : Reply :=
  Answer {| status_code := 401; reason := py "Client error '401 Unauthorized'";
            payload := Some (JObj [(py "error", JStr (py "Unauthorized"))]) |}.


(* ------------------------------------------------------------------ *)
(** ** Vocabulary of the conversion and batch properties *)

(** [range(start, start + n)]. *)
Fixpoint range (start : Z) (n : nat) : list Z :=
  match n with
  | O => []
  | S n' => start :: range (start + 1) n'
  end.

(** The integer percentages and the raw 16-bit values. *)
Definition percentages : list Z := range 0 101.
Definition raw_values : list Z := range 0 (Z.to_nat 65536).

(** [round(x)] for a float: the nearest integer, ties to even. *)
Definition round_ (x : float) : option Z :=
  match Prim2SF x with
  | S754_zero _ => Some 0
  | S754_finite s m e =>
      let v := if 0 <=? e then Z.pos m * 2 ^ e
               else div_half_even (Z.pos m) (2 ^ (- e)) in
      Some (if s then - v else v)
  | _ => None
  end.

(** The rule the specification words for the write path,
    [raw = round(pct * 65535 / 100)]; not taken from the source. *)
Definition spec_round_to_raw (pct : Z) : option Z :=
  round_ (int_truediv (pct * 65535) 100).

(** A shade object of a listing whose raw position is [raw]. *)
Definition shade_with_position (raw : Z) : json :=
  JObj [(py "position", JInt raw)].

(** The JSON body [crestron_set_shade_position] posts for accepted
    commands. *)
Definition shades_body (params : SetShadeStateInput) : json :=
  JObj [(py "shades",
         JList (map (fun c => JObj [(py "id", JInt (shade_id c));
                                    (py "position", JInt (position c * 65535 / 100))])
                    (shades params)))].

(** [int(a / b)] is the floor of the exact quotient. *)
Definition floor_check (a b : Z) : bool :=
  match int_of_float (int_truediv a b) with
  | Some q => q =? a / b
  | None => false
  end.

Definition write_check (p : Z) : bool := floor_check (p * 65535) 100.

Definition read_check (raw : Z) : bool := floor_check (raw * 100) 65535.


(** The specification's [BatchResult] (section 3), with the id sets as
    lists; not a structure of the source. *)
Inductive Outcome : Type := success | partial | failure.

Record BatchResult : Type := {
  outcome : Outcome;
  succeededIds : list Z;
  failedIds : list Z
}.

(** The outcome as the specification's invariant fixes it from the two
    sets. *)
Definition outcome_of (succeeded failed : list Z) : Outcome :=
  match succeeded, failed with
  | [], _ => failure
  | _ :: _, [] => success
  | _ :: _, _ :: _ => partial
  end.

(** The [BatchResult] the specification derives from the targets of a
    batch and the ids the remote reports as failed. *)
Definition spec_batch_result (targets errorDevices : list Z) : BatchResult :=
  let failed := filter (fun i => existsb (Z.eqb i) errorDevices) targets in
  let succeeded := filter (fun i => negb (existsb (Z.eqb i) errorDevices)) targets in
  {| outcome := outcome_of succeeded failed;
     succeededIds := succeeded;
     failedIds := failed |}.

(** The keys of a response object, in order. *)
Definition keys (v : json) : list str :=
  match v with
  | JObj o => map fst o
  | _ => []
  end.

(** Scenario C: shades 1, 2 and 3 are set to 50%, and the remote answers
    200 with status ["partial"] and shade 2 reported as failed. *)
Definition scenario_C_params : SetShadeStateInput :=
  {| shades := [ {| shade_id := 1; position := 50 |};
                 {| shade_id := 2; position := 50 |};
                 {| shade_id := 3; position := 50 |} ] |}.

Definition scenario_C_result : json :=
  JObj [ (py "status", JStr (py "partial"));
         (py "errorMessage", JStr (py "Shade(s) with ID(s) [2] failed to update."));
         (py "errorDevices", JList [JInt 2]);
         (py "version", JStr (py "1.000.0001")) ].

Definition scenario_C_world : World :=
  {| session := live_session "192.168.1.100" "key" 100;
     loop_time := 200; requests := [] |}.

Definition scenario_C_remote : Remote :=
  constant_remote (ok_response scenario_C_result) 201.


(* ------------------------------------------------------------------ *)
(** ** Vocabulary of the resolver properties *)

(** A device object of a listing, through the entries the resolver reads;
    the object may hold any other entries. *)
Definition device_fields (o : list (str * json)) (i : json) (name type_ : str)
    (room_id : json) : Prop :=
  dict_get o (py "id") = Some i /\
  dict_get o (py "name") = Some (JStr name) /\
  dict_get o (py "type") = Some (JStr type_) /\
  dict_get o (py "roomId") = Some room_id.

(** The name of a device shares no substring relation and no token with
    the (lower-cased) utterance. *)
Definition no_name_overlap (utterance_lower name : str) : Prop :=
  isin (lower name) utterance_lower = false /\
  isin utterance_lower (lower name) = false /\
  intersection (set_of (split utterance_lower)) (set_of (split (lower name))) = [].

(** Every string inside a JSON value, keys included, is ASCII text. *)
Fixpoint ascii_json (v : json) : bool :=
  match v with
  | JStr s => is_ascii s
  | JList l => forallb ascii_json l
  | JObj o => forallb (fun kv => is_ascii (fst kv) && ascii_json (snd kv)) o
  | _ => true
  end.

(** ["subType"] of a device object, [None] when absent. *)
Definition subType_of (o : list (str * json)) : json :=
  match dict_get o (py "subType") with
  | Some v => v
  | None => JNull
  end.

(** Both listings arrive: the two reads of [crestron_resolve_device]
    succeed and carry [devices] and [rooms]. *)
Definition listings_arrive (remote : Remote) (w w' : World)
    (devices rooms : json) : Prop :=
  exists data rooms_data w1,
    api_request remote (py "/devices") (py "GET") None true w = (inr data, w1) /\
    py_get data "devices" (JList []) = inr devices /\
    api_request remote (py "/rooms") (py "GET") None true w1 = (inr rooms_data, w') /\
    py_get rooms_data "rooms" (JList []) = inr rooms.

(** A remote that serves a device listing and a room listing. *)
Definition listing_remote (devices rooms : json) (arrival : float) : Remote :=
  fun _ rq =>
    if isin (py "/cws/api/devices") (rq_url rq)
    then (ok_response (JObj [(py "devices", devices)]), arrival)
    else (ok_response (JObj [(py "rooms", rooms)]), arrival).

Definition device_entries (i : Z) (name type_ subtype : string) (room_id : Z)
    : list (str * json) :=
  [ (py "id", JInt i); (py "name", JStr (py name));
    (py "type", JStr (py type_)); (py "subType", JStr (py subtype));
    (py "roomId", JInt room_id) ].

Definition device_object (i : Z) (name type_ subtype : string) (room_id : Z) : json :=
  JObj (device_entries i name type_ subtype room_id).

Definition room_object (i : Z) (name : string) : json :=
  JObj [ (py "id", JInt i); (py "name", JStr (py name)) ].


(** Scenario B: the utterance "luce" and two lights whose names share
    nothing with it, in rooms whose names do not occur in it. *)
Definition scenario_B_devices : json :=
  JList [ device_object 1 "Lampadario" "light" "Dimmer" 1;
          device_object 2 "Faretti" "light" "Dimmer" 2 ].

Definition scenario_B_rooms : json :=
  JList [ room_object 1 "Soggiorno"; room_object 2 "Cucina" ].

Definition scenario_B_params : ResolveDeviceInput :=
  {| utterance := py "luce"; preferred_room_id := None |}.

Definition scenario_B_remote : Remote :=
  listing_remote scenario_B_devices scenario_B_rooms 201.

(** The authenticated GET that [api_request] sends for [endpoint] in the
    scenarios' session. *)
Definition scenario_get (endpoint : string) : Request :=
  {| rq_method := py "GET";
     rq_url := py "https://192.168.1.100/cws/api" ++ py endpoint;
     rq_headers := [(py "Crestron-RestAPI-AuthKey", JStr (py "key"))];
     rq_json := None |}.

Definition scenario_world : World :=
  {| session := live_session "192.168.1.100" "key" 100;
     loop_time := 200; requests := [] |}.

(** The world after the two reads of a resolution, each returning at loop
    time 201. *)
Definition scenario_world_after : World :=
  after_request (after_request scenario_world (scenario_get "/devices") 201)
    (scenario_get "/rooms") 201.


(** Scenario A: the utterance "soggiorno lampadario" and the device
    "Lampadario Soggiorno" of room 1, "Soggiorno". *)
Definition scenario_A_devices : json :=
  JList [ device_object 1 "Lampadario Soggiorno" "light" "Dimmer" 1 ].

Definition scenario_A_rooms : json :=
  JList [ room_object 1 "Soggiorno" ].

Definition scenario_A_params : ResolveDeviceInput :=
  {| utterance := py "soggiorno lampadario"; preferred_room_id := None |}.

Definition scenario_A_remote : Remote :=
  listing_remote scenario_A_devices scenario_A_rooms 201.


(* ------------------------------------------------------------------ *)
(** ** Vocabulary of the dispatcher properties *)

Definition AUTH_KEY_HEADER : str := py "Crestron-RestAPI-AuthKey".
Definition CONTENT_TYPE_HEADER : str := py "Content-Type".

Definition api_url (s : CrestronSession) (endpoint : str) : str :=
  py "https://" ++ format_host (host s) ++ py "/cws/api" ++ endpoint.

(** What a caller of [api_request] gets for a reply of the network. *)
Definition reply_result (reply : Reply) : exn + json :=
  match reply with
  | NoResponse msg => inl (RequestError msg)
  | Answer r =>
      if (200 <=? status_code r) && (status_code r <? 300) then
        match payload r with
        | Some v => inr v
        | None => inl (JSONDecodeError (py "Expecting value"))
        end
      else inl (HTTPStatusError (status_code r) (reason r))
  end.

(** One call of the HTTP client, seen from [api_request]: refused while the
    request is built, or sent and answered. *)
Definition client_call (remote : Remote) (w : World) (rq : Request)
    : (exn + json) * World :=
  match check_headers (rq_headers rq) with
  | Some e => (inl e, w)
  | None =>
      (reply_result (fst (remote (requests w) rq)),
       after_request w rq (snd (remote (requests w) rq)))
  end.

(** Text that travels as a header value as it is: at least one character,
    visible ASCII characters only (the keys and tokens the controller
    issues are of this kind). *)
Definition header_token (s : str) : bool :=
  match s with
  | [] => false
  | _ => forallb (fun c => (33 <=? c) && (c <=? 126))%N s
  end.

(** The stored key is such a text. *)
Definition key_is_token (s : CrestronSession) : bool :=
  match auth_key s with
  | JStr k => header_token k
  | _ => false
  end.

(** A world with the session of [w] at a later moment. *)
Definition same_session_at (w : World) (now : float) (sent : list Request) : World :=
  {| session := session w; loop_time := now; requests := sent |}.


(** The session of a freshly started server: nothing stored, the HTTP
    client created by the lifespan hook. *)
Definition CrestronSession_init_with_client : CrestronSession :=
  {| host := None; auth_key := JNull; session_start := None; client := true |}.


(** The authenticated requests of a session that holds a key. *)
Definition get_request (s : CrestronSession) (endpoint : str) : Request :=
  {| rq_method := py "GET"; rq_url := api_url s endpoint;
     rq_headers := [(AUTH_KEY_HEADER, auth_key s)]; rq_json := None |}.

Definition post_request (s : CrestronSession) (endpoint : str)
    (body : option json) : Request :=
  {| rq_method := py "POST"; rq_url := api_url s endpoint;
     rq_headers := [ (AUTH_KEY_HEADER, auth_key s);
                     (CONTENT_TYPE_HEADER, JStr (py "application/json")) ];
     rq_json := body |}.


Definition not_found : Reply :=
  Answer {| status_code := 404; reason := py "Client error '404 Not Found'";
            payload := Some (JObj [(py "error", JStr (py "Scene not found"))]) |}.


(* ------------------------------------------------------------------ *)
(** ** Vocabulary of the scoring properties *)

(** The score of a device in tenths, in exact arithmetic: 5 for the name,
    3 for the type, 2 for the room, 1 for each shared token. *)
Definition tenths (g : Signals) : Z :=
  (if name_match g then 5 else 0) + (if type_match g then 3 else 0) +
  (if room_match g then 2 else 0) + overlap g.

(** The one combination of signals on which binary64 and exact arithmetic
    part at the threshold: name and room matched, type not, one shared
    token. *)
Definition name_room_one_token (g : Signals) : bool :=
  name_match g && negb (type_match g) && room_match g && (overlap g =? 1).

(** Binary64 and exact arithmetic agree on the three tests the code makes
    of a score, but for [name_room_one_token] at the threshold. *)
Definition score_tests_agree (g : Signals) : bool :=
  Bool.eqb (0 <? score_of g)%float (0 <? tenths g) &&
  Bool.eqb (1 <? score_of g)%float (10 <? tenths g) &&
  Bool.eqb (0.8 <=? score_of g)%float
           ((8 <=? tenths g) && negb (name_room_one_token g)).

Definition signals_with_overlap (k : Z) : list Signals :=
  flat_map (fun a =>
    flat_map (fun b =>
      map (fun c => {| name_match := a; type_match := b; room_match := c;
                       overlap := k |})
          [false; true])
      [false; true])
    [false; true].

(** Scores in non-increasing order, read on neighbours. *)
Definition not_below (a b : Match) : Prop :=
  (m_score a <? m_score b)%float = false.


(** The notice of a truncated response: a function of the original length
    and of the item count alone. *)
Definition truncation_notice (original items_count : Z) : str :=
  truncation_head original ++
  (if 0 <? items_count
   then py "Try using filters, reducing the limit parameter, or requesting specific items to see more details."
   else py "Try requesting specific items or using filters to reduce the response size.").


(** The entries whose score equals [s], in the order of the list. *)
Definition with_score (s : float) (l : list Match) : list Match :=
  filter (fun m => (m_score m =? s)%float) l.

(** The score of [m] is strictly below, and not above, that of [top]. *)
Definition scores_below (top m : Match) : Prop :=
  (m_score m <? m_score top)%float = true.

Definition scores_not_above (top m : Match) : Prop :=
  (m_score top <? m_score m)%float = false.


(** What every tool returns when [api_request] refuses the session. *)
Definition not_authenticated_object : json :=
  JObj [ (py "error", JStr NOT_AUTHENTICATED) ].


(* ================================================================== *)
(** * Properties *)

(** ** Floating-point comparison *)

Lemma SFcompare_antisym (a b : spec_float) :
  SFcompare b a = option_map CompOpp (SFcompare a b).
Proof.
  destruct a as [sa|sa| |sa ma ea], b as [sb|sb| |sb mb eb]; simpl;
    try reflexivity;
    try (destruct sa; reflexivity);
    try (destruct sb; reflexivity);
    try (destruct sa, sb; reflexivity).
  pose proof (Pos.compare_cont_antisym ma mb Eq) as Hm. simpl in Hm.
  destruct sa, sb; simpl; try reflexivity;
    rewrite (Z.compare_antisym ea eb);
    destruct (ea ?= eb)%Z; simpl; try reflexivity;
    rewrite <- Hm; destruct (Pos.compare_cont Eq ma mb); reflexivity.
Qed.

(** [a <= b] excludes [b < a], for all floats (NaN included). *)
Lemma leb_not_ltb (a b : float) :
  (a <=? b)%float = true -> (b <? a)%float = false.
Proof.
  rewrite leb_spec, ltb_spec. unfold SFleb, SFltb.
  rewrite (SFcompare_antisym (Prim2SF a) (Prim2SF b)).
  destruct (SFcompare (Prim2SF a) (Prim2SF b)) as [[ | | ]|]; simpl; congruence.
Qed.

(* ------------------------------------------------------------------ *)
(** ** Session validity and the authentication guard *)

Lemma SESSION_TIMEOUT_seconds :
  float_of_int SESSION_TIMEOUT = 540%float /\ SESSION_TIMEOUT = 9 * 60.
Proof. split; reflexivity. Qed.

Lemma is_valid_iff (s : CrestronSession) (now : float) :
  is_valid s now = true <->
  credential_set s /\
  exists start, issued_at s start /\ (now - start <? 540)%float = true.
Proof.
  unfold is_valid, credential_set, issued_at, not_session_start.
  destruct SESSION_TIMEOUT_seconds as [-> _].
  destruct (session_start s) as [start|]; simpl.
  - destruct (truthy (auth_key s)); simpl.
    + destruct (start =? 0)%float eqn:Hz; simpl.
      * split; [discriminate|].
        intros [_ [x [[Hx Hnz] _]]]. inversion Hx; subst. congruence.
      * split.
        -- intros H. split; [reflexivity|]. exists start. auto.
        -- intros [_ [x [[Hx _] Hlt]]]. inversion Hx; subst. exact Hlt.
    + split; [discriminate|]. intros [H _]. discriminate.
  - rewrite orb_true_r. split; [discriminate|].
    intros [_ [x [[Hx _] _]]]. discriminate.
Qed.

Lemma no_valid_session_invalid (s : CrestronSession) (now : float) :
  no_valid_session s now -> is_valid s now = false.
Proof.
  unfold no_valid_session, never_established, is_valid.
  intros [[Hk _]|[Hk|[start [Hs Hle]]]].
  - rewrite Hk. reflexivity.
  - rewrite Hk. reflexivity.
  - rewrite Hs.
    destruct (negb (truthy (auth_key s)) || not_session_start (Some start));
      [reflexivity|].
    apply leb_not_ltb. exact Hle.
Qed.

Lemma api_request_invalid (remote : Remote) (w : World)
    (endpoint method : str) (body : option json) :
  is_valid (session w) (loop_time w) = false ->
  api_request remote endpoint method body true w =
  (inl (ValueError NOT_AUTHENTICATED), w).
Proof.
  intros H. unfold api_request, bind, get_session, get_time, raise.
  rewrite H. reflexivity.
Qed.

(** C3.  With [require_auth] true and no valid session (none ever
    established, credential unset, or at least 540 seconds elapsed since
    issuance) [api_request] raises the not-authenticated [ValueError] and
    leaves the world as it was: no request is sent.  The validity check is
    true exactly when the credential is set, a session was issued, and the
    elapsed time is strictly below 540 seconds (nine minutes). *)
Theorem api_request_requires_valid_session :
  forall (remote : Remote) (w : World) (endpoint method : str)
         (body : option json),
    let s := session w in
    let now := loop_time w in
    (is_valid s now = true <->
       credential_set s /\
       exists start, issued_at s start /\ (now - start <? 540)%float = true)
    /\ (no_valid_session s now -> is_valid s now = false)
    /\ (is_valid s now = false ->
          api_request remote endpoint method body true w =
          (inl (ValueError NOT_AUTHENTICATED), w)).
Proof.
  intros remote w endpoint method body s now. split; [|split].
  - apply is_valid_iff.
  - apply no_valid_session_invalid.
  - apply api_request_invalid.
Qed.

(** A session issued at loop time 100 and used at loop time 640: exactly
    540 seconds old, hence expired; the call is refused and nothing is sent. *)
Lemma api_request_requires_valid_session_witness :
  let w := {| session := live_session "192.168.1.100" "key" 100;
              loop_time := 640; requests := [] |} in
  no_valid_session (session w) (loop_time w) /\
  api_request (constant_remote (ok_response (JObj [])) 641)
    (py "/rooms") (py "GET") None true w =
  (inl (ValueError NOT_AUTHENTICATED), w).
Proof.
  intros w.
  assert (Hn : no_valid_session (session w) (loop_time w)).
  { right. right. exists 100%float. split; reflexivity. }
  split; [exact Hn|].
  destruct (api_request_requires_valid_session
              (constant_remote (ok_response (JObj [])) 641) w
              (py "/rooms") (py "GET") None) as [_ [Hinv Hreq]].
  apply Hreq. apply Hinv. exact Hn.
Defined.

(* ------------------------------------------------------------------ *)
(** ** [authenticate] *)

Ltac run_authenticate :=
  unfold authenticate, bind, get_session, client_get, send, raise_for_status,
    response_json, set_host, set_auth_key, set_session_start, set_session,
    get_time, lift, raise, ret, bind;
  cbn [rq_headers check_headers].

(** C5.  A session is in use (host 192.168.1.100, key issued at loop time
    100).  At loop time 200 a login at [other.local] is answered 200 with
    the JSON list [[]].  [authenticate] fails, it raises [AttributeError]
    from [data.get], but only after [_session.host = host] has run: the
    stored host is now [other.local], while the key and the issuance time
    are the old ones.  The session is still valid, and the next
    authenticated request carries the old key to the new host.  So a failed
    [authenticate] does not always leave the stored session as it was. *)
Theorem login_answered_with_a_list_overwrites_the_host :
  let s := live_session "192.168.1.100" "key" 100 in
  let w := {| session := s; loop_time := 200; requests := [] |} in
  let remote := constant_remote (ok_response (JList [])) 201 in
  exists w',
    authenticate remote (py "other.local") (py "token") w =
      (inl (AttributeError (py "'list' object has no attribute 'get'")), w') /\
    host s = Some (py "192.168.1.100") /\
    host (session w') = Some (py "other.local") /\
    auth_key (session w') = auth_key s /\
    session_start (session w') = session_start s /\
    session w' <> s /\
    is_valid (session w') (loop_time w') = true /\
    api_request remote (py "/rooms") (py "GET") None true w' =
      (inr (JList []),
       after_request w'
         {| rq_method := py "GET";
            rq_url := py "https://other.local/cws/api/rooms";
            rq_headers := [(AUTH_KEY_HEADER, JStr (py "key"))];
            rq_json := None |} 201).
Proof.
  intros s w remote. eexists. split; [vm_compute; reflexivity|].
  repeat split; try reflexivity.
  intros H. apply (f_equal host) in H. vm_compute in H. discriminate H.
Qed.

Lemma authenticate_succeeds (remote : Remote) (w : World) (host_ tok : str)
    (r : Response) (t : float) (o : list (str * json)) :
  client (session w) = true ->
  remote (requests w) (login_request host_ tok) = (Answer r, t) ->
  (200 <=? status_code r) && (status_code r <? 300) = true ->
  payload r = Some (JObj o) ->
  authenticate remote host_ tok w =
  (inr (JObj o),
   {| session :=
        {| host := Some host_;
           auth_key := match dict_get o (py "AuthKey") with
                       | Some v => v
                       | None => JNull
                       end;
           session_start := Some t;
           client := true |};
      loop_time := t;
      requests := requests w ++ [login_request host_ tok] |}).
Proof.
  intros Hc Hr H2 Hp. run_authenticate. rewrite Hc. cbn [negb].
  unfold login_request in Hr. rewrite Hr. cbn beta iota.
  rewrite H2. cbn beta iota. rewrite Hp. simpl. rewrite Hc. reflexivity.
Qed.



(* ------------------------------------------------------------------ *)
(** ** [truncate_response] *)

Lemma startswith_app (p s : str) : startswith (p ++ s) p = true.
Proof.
  induction p as [|c p IH]; simpl; [reflexivity|].
  rewrite N.eqb_refl. exact IH.
Qed.

Lemma isin_app_r (p a s : str) : isin p s = true -> isin p (a ++ s) = true.
Proof.
  intros H. induction a as [|c a IH]; simpl; [exact H|].
  rewrite IH. apply orb_true_r.
Qed.

Lemma isin_startswith (p s : str) : startswith s p = true -> isin p s = true.
Proof. destruct s; simpl; intros ->; reflexivity. Qed.

Lemma isin_middle (p a b : str) : isin p (a ++ p ++ b) = true.
Proof. apply isin_app_r, isin_startswith, startswith_app. Qed.

Lemma len_firstn_limit (response : str) :
  CHARACTER_LIMIT < len response ->
  len (firstn (Z.to_nat CHARACTER_LIMIT) response) = CHARACTER_LIMIT.
Proof.
  unfold len. intros H. rewrite length_firstn.
  rewrite Nat.min_l by lia. rewrite Z2Nat.id; [reflexivity|].
  unfold CHARACTER_LIMIT. lia.
Qed.

Lemma length_firstn_limit (response : str) :
  CHARACTER_LIMIT < len response ->
  List.length (firstn (Z.to_nat CHARACTER_LIMIT) response) = Z.to_nat CHARACTER_LIMIT.
Proof.
  unfold len. intros H. rewrite length_firstn. apply Nat.min_l. lia.
Qed.

Lemma truncate_response_long (response : str) (items_count : Z) :
  CHARACTER_LIMIT < len response ->
  truncate_response response items_count =
  firstn (Z.to_nat CHARACTER_LIMIT) response ++
  truncation_notice (len response) items_count.
Proof.
  intros H. unfold truncate_response, truncation_notice.
  apply Z.leb_gt in H. rewrite H.
  destruct (0 <? items_count); reflexivity.
Qed.

Lemma truncation_notice_sizes (original items_count : Z) :
  isin (py "truncated from " ++ format_thousands original ++
        py " to 25,000 characters") (truncation_notice original items_count) = true.
Proof.
  set (F := format_thousands original).
  set (p := py "truncated from " ++ F ++ py " to 25,000 characters").
  unfold truncation_notice.
  destruct (0 <? items_count).
  - replace (truncation_head original ++ _) with
      (([10%N; 10%N; 9888%N; 65039%N] ++ py " **Response Truncated**" ++
        [10%N] ++ py "The response was ") ++ p ++
       py ". Try using filters, reducing the limit parameter, or requesting specific items to see more details.").
    { apply isin_middle. }
    unfold p, truncation_head. fold F.
    repeat rewrite <- app_assoc. reflexivity.
  - replace (truncation_head original ++ _) with
      (([10%N; 10%N; 9888%N; 65039%N] ++ py " **Response Truncated**" ++
        [10%N] ++ py "The response was ") ++ p ++
       py ". Try requesting specific items or using filters to reduce the response size.").
    { apply isin_middle. }
    unfold p, truncation_head. fold F.
    repeat rewrite <- app_assoc. reflexivity.
Qed.

(** C8.  A response of at most 25,000 characters is returned unchanged.  A
    longer one is cut: the result is the first 25,000 characters of the
    response followed by the notice and by nothing else, so that what
    stands after position 25,000 is the notice alone, a text fixed by the
    original length and the item count and holding no character of the
    response.  The notice reads "truncated from <original length> to 25,000
    characters" (both lengths with thousands separators) and advises the
    use of filters. *)
Theorem truncate_response_caps_at_limit :
  forall (response : str) (items_count : Z),
    (len response <= CHARACTER_LIMIT ->
       truncate_response response items_count = response)
    /\ (CHARACTER_LIMIT < len response ->
          let limit := Z.to_nat CHARACTER_LIMIT in
          let result := truncate_response response items_count in
          let notice := truncation_notice (len response) items_count in
          result = firstn limit response ++ notice /\
          firstn limit result = firstn limit response /\
          len (firstn limit result) = CHARACTER_LIMIT /\
          skipn limit result = notice /\
          isin (py "truncated from " ++ format_thousands (len response) ++
                py " to 25,000 characters") notice = true /\
          isin (py "filters") notice = true).
Proof.
  intros response items_count. split.
  - intros H. unfold truncate_response. apply Z.leb_le in H. rewrite H.
    reflexivity.
  - intros H limit result notice.
    assert (Hres : result = firstn limit response ++ notice).
    { apply truncate_response_long. exact H. }
    assert (Hlen : List.length (firstn limit response) = limit).
    { apply length_firstn_limit. exact H. }
    assert (Hkept : firstn limit result = firstn limit response).
    { rewrite Hres, firstn_app, Hlen, Nat.sub_diag.
      rewrite firstn_all2 by (rewrite Hlen; apply Nat.le_refl).
      cbn [firstn]. apply app_nil_r. }
    split; [exact Hres|]. split; [exact Hkept|].
    split; [rewrite Hkept; apply len_firstn_limit; exact H|].
    split.
    { rewrite Hres, skipn_app, Hlen, Nat.sub_diag.
      rewrite skipn_all2 by (rewrite Hlen; apply Nat.le_refl).
      reflexivity. }
    split; [apply truncation_notice_sizes|].
    unfold notice, truncation_notice.
    destruct (0 <? items_count); apply isin_app_r; reflexivity.
Qed.

(** A short answer is kept; 25,001 characters are cut to 25,000 plus the
    notice. *)
Lemma truncate_response_caps_at_limit_witness :
  truncate_response (py "No shades found.") 0 = py "No shades found." /\
  skipn (Z.to_nat CHARACTER_LIMIT)
    (truncate_response (repeat 120%N (Z.to_nat 25001)) 3) =
    truncation_notice 25001 3 /\
  isin (py "truncated from 25,001 to 25,000 characters")
    (truncation_notice 25001 3) = true.
Proof.
  split.
  - destruct (truncate_response_caps_at_limit (py "No shades found.") 0)
      as [Hshort _].
    apply Hshort. vm_compute. discriminate.
  - destruct (truncate_response_caps_at_limit (repeat 120%N (Z.to_nat 25001)) 3)
      as [_ Hlong].
    destruct Hlong as (_ & _ & _ & Hskip & Hsizes & _); [vm_compute; reflexivity|].
    replace (len (repeat 120%N (Z.to_nat 25001))) with 25001 in Hskip, Hsizes
      by (vm_compute; reflexivity).
    split; [exact Hskip|exact Hsizes].
Defined.

(* ------------------------------------------------------------------ *)
(** ** Percentage and raw scale *)

Lemma in_range (p start : Z) (n : nat) :
  start <= p < start + Z.of_nat n -> In p (range start n).
Proof.
  revert start. induction n as [|n IH]; intros start H; [lia|].
  simpl. destruct (Z.eq_dec start p) as [->|Hne]; [left; reflexivity|].
  right. apply IH. lia.
Qed.

Lemma in_percentages (p : Z) : 0 <= p <= 100 -> In p percentages.
Proof. intros H. apply in_range. simpl. lia. Qed.

Lemma in_raw_values (raw : Z) : 0 <= raw <= 65535 -> In raw raw_values.
Proof. intros H. apply in_range. rewrite Z2Nat.id; lia. Qed.

Lemma write_check_all : forallb write_check percentages = true.
Proof. vm_compute. reflexivity. Qed.

Lemma read_check_all : forallb read_check raw_values = true.
Proof. vm_compute. reflexivity. Qed.

Lemma floor_check_int (a b : Z) :
  floor_check a b = true -> int_ (int_truediv a b) = inr (a / b).
Proof.
  unfold floor_check, int_.
  destruct (int_of_float (int_truediv a b)) as [q|]; [|discriminate].
  intros H. apply Z.eqb_eq in H. rewrite H. reflexivity.
Qed.

Lemma crestron_position_floor (p : Z) :
  0 <= p <= 100 -> crestron_position p = inr (p * 65535 / 100).
Proof.
  intros H. pose proof write_check_all as Hall.
  rewrite forallb_forall in Hall.
  exact (floor_check_int _ _ (Hall p (in_percentages p H))).
Qed.

Lemma shade_position_percent_floor (raw : Z) :
  0 <= raw <= 65535 ->
  shade_position_percent (shade_with_position raw) = inr (raw * 100 / 65535).
Proof.
  intros H. pose proof read_check_all as Hall.
  rewrite forallb_forall in Hall.
  exact (floor_check_int _ _ (Hall raw (in_raw_values raw H))).
Qed.

(** C4.  For every integer percentage [p] in [0,100], the write path gives
    a raw value and the read path brings it back to within 1 of [p]; 0 is
    written as 0 and 100 as 65535. *)
Theorem percent_raw_round_trip :
  (forall p : Z,
      0 <= p <= 100 ->
      exists raw q,
        crestron_position p = inr raw /\
        shade_position_percent (shade_with_position raw) = inr q /\
        Z.abs (q - p) <= 1)
  /\ crestron_position 0 = inr 0
  /\ crestron_position 100 = inr 65535.
Proof.
  split; [|split; reflexivity].
  intros p H. exists (p * 65535 / 100), (p * 65535 / 100 * 100 / 65535).
  split; [apply crestron_position_floor; exact H|].
  assert (Hraw : 0 <= p * 65535 / 100 <= 65535).
  { split; [apply Z.div_pos; lia|]. apply Z.div_le_upper_bound; lia. }
  split; [apply shade_position_percent_floor; exact Hraw|].
  assert (H1 : p * 65535 / 100 * 100 <= p * 65535)
    by (pose proof (Z.mul_div_le (p * 65535) 100); lia).
  assert (H2 : p * 65535 < (p * 65535 / 100 + 1) * 100)
    by (pose proof (Z.mul_succ_div_gt (p * 65535) 100); lia).
  assert (H3 : p * 65535 / 100 * 100 / 65535 <= p)
    by (apply Z.div_le_upper_bound; lia).
  assert (H4 : p - 1 <= p * 65535 / 100 * 100 / 65535)
    by (apply Z.div_le_lower_bound; lia).
  lia.
Qed.

(** Half open: 50% is written as 32767 and read back as 49%. *)
Lemma percent_raw_round_trip_witness :
  exists raw q,
    crestron_position 50 = inr raw /\
    shade_position_percent (shade_with_position raw) = inr q /\
    Z.abs (q - 50) <= 1.
Proof.
  destruct percent_raw_round_trip as [Hall _].
  apply (Hall 50). lia.
Defined.

(** C6, counterexample.  The write path at 2% gives 1310, where rounding
    1310.7 to the nearest integer gives 1311: the write path does not round
    to nearest. *)
Lemma write_path_is_not_round_to_nearest :
  crestron_position 2 = inr 1310 /\
  spec_round_to_raw 2 = Some 1311 /\
  ~ (forall p : Z, 0 <= p <= 100 ->
       exists raw, crestron_position p = inr raw /\ spec_round_to_raw p = Some raw).
Proof.
  split; [reflexivity|]. split; [reflexivity|].
  intros H. destruct (H 2) as (raw & Hw & Hr); [lia|].
  vm_compute in Hw, Hr. congruence.
Qed.

(** C6 (amended).  For every percentage [p] in [0,100] the write path gives
    [floor(p * 65535 / 100)]: the quotient is truncated, which is the rule of
    the read path too ([floor(raw * 100 / 65535)] for every raw value of the
    16-bit scale). *)
Theorem write_path_truncates :
  (forall p : Z, 0 <= p <= 100 -> crestron_position p = inr (p * 65535 / 100))
  /\ (forall raw : Z,
         0 <= raw <= 65535 ->
         shade_position_percent (shade_with_position raw) = inr (raw * 100 / 65535)).
Proof.
  split; [exact crestron_position_floor | exact shade_position_percent_floor].
Qed.

Lemma write_path_truncates_witness :
  crestron_position 50 = inr 32767 /\
  shade_position_percent (shade_with_position 32767) = inr 49.
Proof.
  destruct write_path_truncates as [Hw Hr]. split.
  - apply (Hw 50). lia.
  - apply (Hr 32767). lia.
Defined.

(* ------------------------------------------------------------------ *)
(** ** The shade batch command *)

Lemma shades_data_accepted (l : list ShadePosition) :
  Forall accepted_ShadePosition l ->
  for_each
    (fun shade =>
       p <~ crestron_position (position shade) ;;
       inr (JObj [ (py "id", JInt (shade_id shade)); (py "position", JInt p) ]))
    l
  = inr (map (fun c => JObj [ (py "id", JInt (shade_id c));
                              (py "position", JInt (position c * 65535 / 100)) ]) l).
Proof.
  induction 1 as [|c l [_ Hp] _ IH]; [reflexivity|].
  cbn [for_each map]. rewrite (crestron_position_floor _ Hp), IH. reflexivity.
Qed.

(** C9.  For an accepted batch whose remote call returns a JSON object, the
    result carries [shades_updated] equal to the number of commands in the
    request, whatever status the remote reports (the status and the
    remote's object are passed on as they came). *)
Theorem shades_updated_counts_the_request :
  forall (remote : Remote) (w w' : World) (params : SetShadeStateInput)
         (o : list (str * json)),
    accepted_SetShadeStateInput params ->
    api_request remote (py "/shades/SetState") (py "POST")
      (Some (shades_body params)) true w = (inr (JObj o), w') ->
    exists resp,
      crestron_set_shade_position remote params w = (inr (JObj resp), w') /\
      dict_get resp (py "shades_updated") = Some (JInt (len (shades params))) /\
      dict_get resp (py "status") =
        Some (match dict_get o (py "status") with
              | Some v => v
              | None => JStr (py "unknown")
              end) /\
      dict_get resp (py "details") = Some (JObj o).
Proof.
  intros remote w w' params o [_ Hall] Hcall.
  unfold crestron_set_shade_position, try_except, bind at 1.
  rewrite (shades_data_accepted _ Hall). unfold lift at 1.
  fold (shades_body params). unfold bind. rewrite Hcall.
  unfold lift, py_get, ret.
  set (status := match dict_get o (py "status") with
                 | Some v => v
                 | None => JStr (py "unknown")
                 end).
  destruct (eq_str status "partial");
    [|destruct (eq_str status "success")];
    eexists; (split; [reflexivity|]); repeat split; reflexivity.
Qed.

Lemma shades_updated_counts_the_request_witness :
  exists resp w',
    crestron_set_shade_position scenario_C_remote scenario_C_params
      scenario_C_world = (inr (JObj resp), w') /\
    dict_get resp (py "shades_updated") = Some (JInt 3) /\
    dict_get resp (py "status") = Some (JStr (py "partial")).
Proof.
  destruct (shades_updated_counts_the_request scenario_C_remote
              scenario_C_world
              (after_request scenario_C_world
                 {| rq_method := py "POST";
                    rq_url := py "https://192.168.1.100/cws/api/shades/SetState";
                    rq_headers :=
                      [ (py "Crestron-RestAPI-AuthKey", JStr (py "key"));
                        (py "Content-Type", JStr (py "application/json")) ];
                    rq_json := Some (shades_body scenario_C_params) |}
                 201)
              scenario_C_params
              [ (py "status", JStr (py "partial"));
                (py "errorMessage",
                 JStr (py "Shade(s) with ID(s) [2] failed to update."));
                (py "errorDevices", JList [JInt 2]);
                (py "version", JStr (py "1.000.0001")) ])
    as (resp & Hrun & Hn & Hst & _).
  - split; [vm_compute; split; discriminate|].
    repeat constructor; vm_compute; discriminate.
  - vm_compute. reflexivity.
  - exists resp. eexists. split; [exact Hrun|]. split; [exact Hn|exact Hst].
Defined.

(** C1 (what the code does in scenario C).  Three shades, the remote
    reports status ["partial"] with shade 2 failed.  The specification's
    [BatchResult] would be partial with succeeded ids 1 and 3 and failed id
    2.  The tool's result passes the remote's status on, counts all three
    shades as updated, nests the remote's object under ["details"], and has
    no entry that lists the succeeded or the failed ids. *)
Theorem set_shade_partial_has_no_id_sets :
  spec_batch_result [1; 2; 3] [2] =
    {| outcome := partial; succeededIds := [1; 3]; failedIds := [2] |} /\
  exists resp w',
    crestron_set_shade_position scenario_C_remote scenario_C_params
      scenario_C_world = (inr resp, w') /\
    keys resp = [py "status"; py "shades_updated"; py "details"; py "message"] /\
    py_get resp "status" JNull = inr (JStr (py "partial")) /\
    py_get resp "shades_updated" JNull = inr (JInt 3) /\
    py_get resp "details" JNull = inr scenario_C_result /\
    py_get resp "success" JNull = inr JNull /\
    py_get resp "failed" JNull = inr JNull.
Proof.
  split; [reflexivity|].
  eexists. eexists. split; [vm_compute; reflexivity|].
  repeat split; vm_compute; reflexivity.
Qed.

(* ------------------------------------------------------------------ *)
(** ** Device resolution *)

Lemma signals_of_fields (u : str) (hint : option Z) (rm : room_dict)
    (o : list (str * json)) (i : json) (n t : str) (r : json) :
  device_fields o i n t r ->
  signals_of u hint rm (JObj o) =
  (by_room <~ room_signal u hint rm r ;;
   inr {| name_match := isin (lower n) u || isin u (lower n);
          type_match := isin (lower t) u;
          room_match := by_room;
          overlap := len (intersection (set_of (split u))
                                       (set_of (split (lower n)))) |}).
Proof.
  intros (_ & Hn & Ht & Hr). unfold signals_of, py_get.
  rewrite Hn, Ht, Hr. reflexivity.
Qed.

Lemma candidate_of_fields (o : list (str * json)) (i : json) (n t : str)
    (r : json) (score : float) :
  device_fields o i n t r ->
  candidate_of {| m_device := JObj o; m_score := score |} =
  inr (JObj [ (py "device_id", i); (py "name", JStr n); (py "type", JStr t);
              (py "subType", subType_of o); (py "room_id", r);
              (py "confidence", JFloat (round2 score)) ]).
Proof.
  intros (Hi & Hn & Ht & Hr). unfold candidate_of, py_getitem, py_get, subType_of.
  cbn [m_device m_score]. rewrite Hi, Hn, Ht, Hr. reflexivity.
Qed.

(** The tool is its pure body once the two listings have arrived. *)
Lemma crestron_resolve_device_listings (remote : Remote) (w w' : World)
    (params : ResolveDeviceInput) (devices rooms resp : json) :
  listings_arrive remote w w' devices rooms ->
  resolve_in_listings params devices rooms = inr resp ->
  crestron_resolve_device remote params w = (inr resp, w').
Proof.
  intros (data & rooms_data & w1 & Hd & Hdl & Hr & Hrl) Hres.
  unfold crestron_resolve_device, try_except, bind.
  rewrite Hd. unfold lift. rewrite Hdl, Hr, Hrl, Hres. reflexivity.
Qed.

Lemma signals_without_name_or_room (u : str) (hint : option Z) (rm : room_dict)
    (o : list (str * json)) (i : json) (n t : str) (r : json) :
  device_fields o i n t r ->
  no_name_overlap u n ->
  room_signal u hint rm r = inr false ->
  signals_of u hint rm (JObj o) =
  inr {| name_match := false; type_match := isin (lower t) u;
         room_match := false; overlap := 0 |}.
Proof.
  intros Hf (H1 & H2 & H3) Hr.
  rewrite (signals_of_fields u hint rm o i n t r Hf), Hr, H1, H2, H3.
  reflexivity.
Qed.

Lemma score_type_only :
  score_of {| name_match := false; type_match := true;
              room_match := false; overlap := 0 |} = 0.3%float.
Proof. reflexivity. Qed.

Lemma score_type_none :
  score_of {| name_match := false; type_match := false;
              room_match := false; overlap := 0 |} = 0%float.
Proof. reflexivity. Qed.

Lemma type_only_listing (u : str) (hint : option Z) (rooms : json)
    (room_list : list json) (rm : room_dict)
    (o1 o2 : list (str * json)) (i1 i2 : json) (n1 n2 : str) (r1 r2 : json) :
  device_fields o1 i1 n1 (py "light") r1 ->
  device_fields o2 i2 n2 (py "light") r2 ->
  py_iter rooms = inr room_list ->
  build_room_map room_list [] = inr rm ->
  no_name_overlap (lower u) n1 ->
  no_name_overlap (lower u) n2 ->
  room_signal (lower u) hint rm r1 = inr false ->
  room_signal (lower u) hint rm r2 = inr false ->
  resolve_in_listings {| utterance := u; preferred_room_id := hint |}
    (JList [JObj o1; JObj o2]) rooms =
  if isin (py "light") (lower u) then
    inr (JObj
      [ (py "resolved", JBool false);
        (py "confidence", JFloat 0.3);
        (py "original_utterance", JStr u);
        (py "clarification_needed", JBool true);
        (py "candidates",
         JList [ JObj [ (py "device_id", i1); (py "name", JStr n1);
                        (py "type", JStr (py "light"));
                        (py "subType", subType_of o1); (py "room_id", r1);
                        (py "confidence", JFloat 0.3) ];
                 JObj [ (py "device_id", i2); (py "name", JStr n2);
                        (py "type", JStr (py "light"));
                        (py "subType", subType_of o2); (py "room_id", r2);
                        (py "confidence", JFloat 0.3) ] ]);
        (py "message",
         JStr (py "Found 2 possible matches. Please clarify which device you mean by providing more specific information (room name, device type, etc.)")) ])
  else
    inr (JObj
      [ (py "resolved", JBool false);
        (py "confidence", JFloat 0.0);
        (py "original_utterance", JStr u);
        (py "message", JStr (py "No devices matched the description"));
        (py "help", JStr (py "Try using crestron_list_devices to see available devices")) ]).
Proof.
  intros Hf1 Hf2 Hit Hmap Hn1 Hn2 Hr1 Hr2.
  unfold resolve_in_listings. rewrite Hit. cbn [bind_r]. rewrite Hmap.
  cbn [bind_r py_iter utterance preferred_room_id score_devices].
  rewrite (signals_without_name_or_room _ _ _ _ _ _ _ _ Hf1 Hn1 Hr1).
  rewrite (signals_without_name_or_room _ _ _ _ _ _ _ _ Hf2 Hn2 Hr2).
  change (lower (py "light")) with (py "light").
  destruct (isin (py "light") (lower u)).
  - cbn [bind_r]. rewrite score_type_only.
    change (0 <? 0.3)%float with true. change (py_min 0.3 1) with 0.3%float.
    cbn [bind_r sort_matches insert_match m_score].
    change (0.3 <? 0.3)%float with false. cbn iota.
    unfold decide_response. cbn [m_score firstn for_each].
    change (0.8 <=? 0.3)%float with false. cbn iota.
    rewrite (candidate_of_fields _ _ _ _ _ _ Hf1).
    rewrite (candidate_of_fields _ _ _ _ _ _ Hf2).
    change (round2 0.3) with 0.3%float.
    reflexivity.
  - cbn [bind_r]. rewrite score_type_none. change (0 <? 0)%float with false.
    reflexivity.
Qed.

(** C7, counterexample.  Scenario B as the code runs it: for "luce" both
    lights score 0, both are discarded, and the answer is "no devices
    matched", not a list of two candidates at 0.3. *)
Lemma scenario_B_has_no_matches :
  score_devices (py "luce") None
    [(JInt 1, py "soggiorno"); (JInt 2, py "cucina")]
    [ device_object 1 "Lampadario" "light" "Dimmer" 1;
      device_object 2 "Faretti" "light" "Dimmer" 2 ] = inr [] /\
  exists resp w',
    crestron_resolve_device scenario_B_remote scenario_B_params scenario_world
      = (inr resp, w') /\
    py_get resp "resolved" JNull = inr (JBool false) /\
    py_get resp "confidence" JNull = inr (JFloat 0) /\
    py_get resp "message" JNull =
      inr (JStr (py "No devices matched the description")) /\
    py_get resp "clarification_needed" JNull = inr JNull /\
    py_get resp "candidates" JNull = inr JNull.
Proof.
  split; [vm_compute; reflexivity|].
  eexists. eexists. split; [vm_compute; reflexivity|].
  repeat split; vm_compute; reflexivity.
Qed.

(** C7 (amended).  Two devices of type "light", no name token or substring
    shared with the utterance, no room signal; the utterance, the device
    names and the room listing are ASCII text.  What the resolver answers
    turns on whether the type token "light" occurs in the lower-cased
    utterance.  It does not occur in "luce": both devices score 0, are
    discarded, and the answer is unresolved with no matches and confidence
    0.  When it occurs, both devices score exactly 0.3, which is below 0.8,
    and the answer is unresolved, clarification needed, with both devices as
    candidates in their listing order. *)
Theorem type_only_matches_need_the_type_token :
  forall (remote : Remote) (w w' : World) (u : str) (hint : option Z)
         (rooms : json) (room_list : list json) (rm : room_dict)
         (o1 o2 : list (str * json)) (i1 i2 : json) (n1 n2 : str)
         (r1 r2 : json),
    listings_arrive remote w w' (JList [JObj o1; JObj o2]) rooms ->
    device_fields o1 i1 n1 (py "light") r1 ->
    device_fields o2 i2 n2 (py "light") r2 ->
    is_ascii u = true ->
    is_ascii n1 = true ->
    is_ascii n2 = true ->
    ascii_json rooms = true ->
    py_iter rooms = inr room_list ->
    build_room_map room_list [] = inr rm ->
    no_name_overlap (lower u) n1 ->
    no_name_overlap (lower u) n2 ->
    room_signal (lower u) hint rm r1 = inr false ->
    room_signal (lower u) hint rm r2 = inr false ->
    exists g1 g2 resp,
      signals_of (lower u) hint rm (JObj o1) = inr g1 /\
      signals_of (lower u) hint rm (JObj o2) = inr g2 /\
      crestron_resolve_device remote
        {| utterance := u; preferred_room_id := hint |} w = (inr resp, w') /\
      py_get resp "resolved" JNull = inr (JBool false) /\
      (isin (py "light") (lower u) = false ->
         score_of g1 = 0%float /\ score_of g2 = 0%float /\
         py_get resp "confidence" JNull = inr (JFloat 0) /\
         py_get resp "message" JNull =
           inr (JStr (py "No devices matched the description")) /\
         py_get resp "candidates" JNull = inr JNull) /\
      (isin (py "light") (lower u) = true ->
         score_of g1 = 0.3%float /\ score_of g2 = 0.3%float /\
         (0.3 <? 0.8)%float = true /\
         py_get resp "confidence" JNull = inr (JFloat 0.3) /\
         py_get resp "clarification_needed" JNull = inr (JBool true) /\
         exists c1 c2,
           py_get resp "candidates" JNull = inr (JList [c1; c2]) /\
           py_get c1 "device_id" JNull = inr i1 /\
           py_get c1 "confidence" JNull = inr (JFloat 0.3) /\
           py_get c2 "device_id" JNull = inr i2 /\
           py_get c2 "confidence" JNull = inr (JFloat 0.3)) /\
      isin (py "light") (lower (py "luce")) = false.
Proof.
  intros remote w w' u hint rooms room_list rm o1 o2 i1 i2 n1 n2 r1 r2
    Harr Hf1 Hf2 _ _ _ _ Hit Hmap Hn1 Hn2 Hr1 Hr2.
  pose proof (type_only_listing u hint rooms room_list rm o1 o2 i1 i2 n1 n2
                r1 r2 Hf1 Hf2 Hit Hmap Hn1 Hn2 Hr1 Hr2) as Hres.
  pose proof (signals_without_name_or_room _ _ _ _ _ _ _ _ Hf1 Hn1 Hr1) as Hg1.
  pose proof (signals_without_name_or_room _ _ _ _ _ _ _ _ Hf2 Hn2 Hr2) as Hg2.
  change (lower (py "light")) with (py "light") in Hg1, Hg2.
  destruct (isin (py "light") (lower u)).
  - do 2 eexists. eexists. split; [exact Hg1|]. split; [exact Hg2|].
    split; [exact (crestron_resolve_device_listings _ _ _ _ _ _ _ Harr Hres)|].
    split; [reflexivity|]. split; [discriminate|]. split; [|reflexivity].
    intros _. repeat split; try reflexivity.
    do 2 eexists. repeat split; reflexivity.
  - do 2 eexists. eexists. split; [exact Hg1|]. split; [exact Hg2|].
    split; [exact (crestron_resolve_device_listings _ _ _ _ _ _ _ Harr Hres)|].
    split; [reflexivity|]. split; [|split; [discriminate|reflexivity]].
    intros _. repeat split; reflexivity.
Qed.

(** Scenario B, and the same listing asked for with "light". *)
Lemma type_only_matches_need_the_type_token_witness :
  (exists resp w',
     crestron_resolve_device scenario_B_remote scenario_B_params scenario_world
       = (inr resp, w') /\
     py_get resp "candidates" JNull = inr JNull) /\
  (exists resp w' c1 c2,
     crestron_resolve_device scenario_B_remote
       {| utterance := py "Light"; preferred_room_id := None |} scenario_world
       = (inr resp, w') /\
     py_get resp "candidates" JNull = inr (JList [c1; c2]) /\
     py_get c1 "device_id" JNull = inr (JInt 1) /\
     py_get c2 "device_id" JNull = inr (JInt 2)).
Proof.
  split.
  - destruct (type_only_matches_need_the_type_token scenario_B_remote
                 scenario_world scenario_world_after (py "luce") None
                 scenario_B_rooms
                 [room_object 1 "Soggiorno"; room_object 2 "Cucina"]
                 [(JInt 1, py "soggiorno"); (JInt 2, py "cucina")]
                 (device_entries 1 "Lampadario" "light" "Dimmer" 1)
                 (device_entries 2 "Faretti" "light" "Dimmer" 2)
                 (JInt 1) (JInt 2) (py "Lampadario") (py "Faretti")
                 (JInt 1) (JInt 2))
      as (g1 & g2 & resp & _ & _ & Hrun & _ & Hnone & _ & Hluce).
    + do 3 eexists. repeat split; vm_compute; reflexivity.
    + repeat split; reflexivity.
    + repeat split; reflexivity.
    + reflexivity.
    + reflexivity.
    + reflexivity.
    + reflexivity.
    + reflexivity.
    + reflexivity.
    + repeat split; reflexivity.
    + repeat split; reflexivity.
    + reflexivity.
    + reflexivity.
    + exists resp. eexists. split; [exact Hrun|]. apply Hnone. exact Hluce.
  - destruct (type_only_matches_need_the_type_token scenario_B_remote
                 scenario_world scenario_world_after (py "Light") None
                 scenario_B_rooms
                 [room_object 1 "Soggiorno"; room_object 2 "Cucina"]
                 [(JInt 1, py "soggiorno"); (JInt 2, py "cucina")]
                 (device_entries 1 "Lampadario" "light" "Dimmer" 1)
                 (device_entries 2 "Faretti" "light" "Dimmer" 2)
                 (JInt 1) (JInt 2) (py "Lampadario") (py "Faretti")
                 (JInt 1) (JInt 2))
      as (g1 & g2 & resp & _ & _ & Hrun & _ & _ & Hsome & _).
    + do 3 eexists. repeat split; vm_compute; reflexivity.
    + repeat split; reflexivity.
    + repeat split; reflexivity.
    + reflexivity.
    + reflexivity.
    + reflexivity.
    + reflexivity.
    + reflexivity.
    + reflexivity.
    + repeat split; reflexivity.
    + repeat split; reflexivity.
    + reflexivity.
    + reflexivity.
    + destruct Hsome as (_ & _ & _ & _ & _ & c1 & c2 & Hc & H1 & _ & H2 & _);
        [reflexivity|].
      exists resp. eexists. exists c1, c2. repeat split; eassumption.
Defined.

Lemma single_device_below_threshold (u : str) (hint : option Z) (rooms : json)
    (room_list : list json) (rm : room_dict) (o : list (str * json))
    (i : json) (n t : str) (r : json) (g : Signals) :
  device_fields o i n t r ->
  py_iter rooms = inr room_list ->
  build_room_map room_list [] = inr rm ->
  signals_of (lower u) hint rm (JObj o) = inr g ->
  (0 <? score_of g)%float = true ->
  (1 <? score_of g)%float = false ->
  (0.8 <=? score_of g)%float = false ->
  resolve_in_listings {| utterance := u; preferred_room_id := hint |}
    (JList [JObj o]) rooms =
  inr (JObj
    [ (py "resolved", JBool false);
      (py "confidence", JFloat (score_of g));
      (py "original_utterance", JStr u);
      (py "clarification_needed", JBool true);
      (py "candidates",
       JList [ JObj [ (py "device_id", i); (py "name", JStr n);
                      (py "type", JStr t);
                      (py "subType", subType_of o); (py "room_id", r);
                      (py "confidence", JFloat (round2 (score_of g))) ] ]);
      (py "message",
       JStr (py "Found 1 possible matches. Please clarify which device you mean by providing more specific information (room name, device type, etc.)")) ]).
Proof.
  intros Hf Hit Hmap Hg Hpos Hmax Hlow.
  unfold resolve_in_listings. rewrite Hit. cbn [bind_r]. rewrite Hmap.
  cbn [bind_r py_iter utterance preferred_room_id score_devices].
  rewrite Hg. cbn [bind_r]. rewrite Hpos. unfold py_min. rewrite Hmax.
  cbn [bind_r sort_matches insert_match]. unfold decide_response.
  cbn [m_score firstn for_each utterance]. rewrite Hlow.
  rewrite (candidate_of_fields _ _ _ _ _ _ Hf). reflexivity.
Qed.

Lemma room_signal_soggiorno (hint : option Z) (rm : room_dict) :
  room_get rm (JInt 1) = Some (py "soggiorno") ->
  room_signal (lower (py "soggiorno lampadario")) hint rm (JInt 1) = inr true.
Proof.
  intros H. unfold room_signal.
  destruct (preferred_room_matches hint (JInt 1)); [reflexivity|].
  cbn [hashable bind_r]. rewrite H. reflexivity.
Qed.

(** C2, counterexample.  Scenario A as the code runs it: neither
    lower-cased string contains the other, so there is no name bonus; the
    score is 0.4 and the device is offered for clarification, not
    resolved. *)
Lemma scenario_A_is_not_resolved :
  isin (py "lampadario soggiorno") (py "soggiorno lampadario") = false /\
  isin (py "soggiorno lampadario") (py "lampadario soggiorno") = false /\
  (exists g,
     signals_of (py "soggiorno lampadario") None [(JInt 1, py "soggiorno")]
       (device_object 1 "Lampadario Soggiorno" "light" "Dimmer" 1) = inr g /\
     name_match g = false /\
     score_of g = 0.4%float /\
     (0.8 <=? score_of g)%float = false) /\
  exists resp w',
    crestron_resolve_device scenario_A_remote scenario_A_params scenario_world
      = (inr resp, w') /\
    py_get resp "resolved" JNull = inr (JBool false) /\
    py_get resp "clarification_needed" JNull = inr (JBool true) /\
    py_get resp "confidence" JNull = inr (JFloat 0.4) /\
    py_get resp "device_id" JNull = inr JNull.
Proof.
  split; [reflexivity|]. split; [reflexivity|]. split.
  - eexists. split; [vm_compute; reflexivity|]. repeat split; reflexivity.
  - eexists. eexists. split; [vm_compute; reflexivity|].
    repeat split; vm_compute; reflexivity.
Qed.

(** C2 (amended).  For the utterance "soggiorno lampadario" and the device
    "Lampadario Soggiorno" with roomId 1, room 1 being "Soggiorno": the name
    bonus is not given, since neither lower-cased string is a substring of
    the other.  The score is made of the +0.2 room bonus and +0.1 for each
    of the 2 shared tokens, 0.4 in all, or 0.7 should the device's type
    token occur in the utterance; either is below 0.8.  With that device
    alone in the listing the resolver answers unresolved, clarification
    needed, with the device as the only candidate and its score as
    confidence. *)
Theorem scenario_A_scores_below_threshold :
  forall (remote : Remote) (w w' : World) (hint : option Z) (rooms : json)
         (room_list : list json) (rm : room_dict) (o : list (str * json))
         (i : json) (t : str),
    listings_arrive remote w w' (JList [JObj o]) rooms ->
    device_fields o i (py "Lampadario Soggiorno") t (JInt 1) ->
    py_iter rooms = inr room_list ->
    build_room_map room_list [] = inr rm ->
    room_get rm (JInt 1) = Some (py "soggiorno") ->
    exists g resp,
      signals_of (lower (py "soggiorno lampadario")) hint rm (JObj o) = inr g /\
      name_match g = false /\ room_match g = true /\ overlap g = 2 /\
      score_of g = (if type_match g then 0.7 else 0.4)%float /\
      (score_of g <? 0.8)%float = true /\
      crestron_resolve_device remote
        {| utterance := py "soggiorno lampadario"; preferred_room_id := hint |} w
        = (inr resp, w') /\
      py_get resp "resolved" JNull = inr (JBool false) /\
      py_get resp "clarification_needed" JNull = inr (JBool true) /\
      py_get resp "confidence" JNull = inr (JFloat (score_of g)) /\
      exists c,
        py_get resp "candidates" JNull = inr (JList [c]) /\
        py_get c "device_id" JNull = inr i /\
        py_get c "confidence" JNull = inr (JFloat (score_of g)).
Proof.
  intros remote w w' hint rooms room_list rm o i t Harr Hf Hit Hmap Hroom.
  pose proof (signals_of_fields (lower (py "soggiorno lampadario")) hint rm
                o i _ t _ Hf) as Hg.
  rewrite (room_signal_soggiorno hint rm Hroom) in Hg. cbn [bind_r] in Hg.
  set (g := {| name_match := _; type_match := _; room_match := true;
               overlap := _ |}) in Hg.
  assert (Hscore : score_of g = (if type_match g then 0.7 else 0.4)%float).
  { unfold g. cbn [type_match].
    destruct (isin (lower t) (lower (py "soggiorno lampadario"))); reflexivity. }
  assert (Hfacts : (0 <? score_of g)%float = true /\
                   (1 <? score_of g)%float = false /\
                   (0.8 <=? score_of g)%float = false /\
                   (score_of g <? 0.8)%float = true /\
                   round2 (score_of g) = score_of g).
  { rewrite Hscore. destruct (type_match g); repeat split; reflexivity. }
  destruct Hfacts as (Hpos & Hmax & Hlow & Hlt & Hround).
  pose proof (single_device_below_threshold _ hint rooms room_list rm o i _ t
                _ g Hf Hit Hmap Hg Hpos Hmax Hlow) as Hres.
  rewrite Hround in Hres.
  exists g. eexists.
  split; [exact Hg|]. split; [reflexivity|]. split; [reflexivity|].
  split; [reflexivity|]. split; [exact Hscore|]. split; [exact Hlt|].
  split; [exact (crestron_resolve_device_listings _ _ _ _ _ _ _ Harr Hres)|].
  split; [reflexivity|]. split; [reflexivity|]. split; [reflexivity|].
  eexists. split; [reflexivity|]. split; reflexivity.
Qed.

(** Scenario A itself: the only candidate is device 1, confidence 0.4. *)
Lemma scenario_A_scores_below_threshold_witness :
  exists resp w' c,
    crestron_resolve_device scenario_A_remote scenario_A_params scenario_world
      = (inr resp, w') /\
    py_get resp "resolved" JNull = inr (JBool false) /\
    py_get resp "candidates" JNull = inr (JList [c]) /\
    py_get c "device_id" JNull = inr (JInt 1) /\
    py_get c "confidence" JNull = inr (JFloat 0.4).
Proof.
  destruct (scenario_A_scores_below_threshold scenario_A_remote
              scenario_world scenario_world_after None scenario_A_rooms
              [room_object 1 "Soggiorno"] [(JInt 1, py "soggiorno")]
              (device_entries 1 "Lampadario Soggiorno" "light" "Dimmer" 1)
              (JInt 1) (py "light"))
    as (g & resp & Hg & _ & _ & _ & Hscore & _ & Hrun & Hres & _ & _ & c & Hc & Hid & Hconf).
  - do 3 eexists. repeat split; vm_compute; reflexivity.
  - repeat split; reflexivity.
  - reflexivity.
  - reflexivity.
  - reflexivity.
  - exists resp, scenario_world_after, c.
    split; [exact Hrun|]. split; [exact Hres|]. split; [exact Hc|].
    split; [exact Hid|]. rewrite Hconf, Hscore.
    vm_compute in Hg. inversion Hg. reflexivity.
Defined.

(* ================================================================== *)
(** * Further properties of the code *)

(** ** [api_request] *)

Ltac run_api_request :=
  unfold api_request, bind, get_session, get_time, client_get, client_post,
    send, raise_for_status, response_json, raise, ret.

(** The closed form of an [api_request] that passes its guards. *)
Lemma api_request_passes (remote : Remote) (w : World) (endpoint method : str)
    (body : option json) (require_auth : bool) :
  (require_auth = true -> is_valid (session w) (loop_time w) = true) ->
  client (session w) = true ->
  api_request remote endpoint method body require_auth w =
  let headers :=
    if require_auth && truthy (auth_key (session w))
    then [(AUTH_KEY_HEADER, auth_key (session w))] else [] in
  if str_eqb method (py "GET") then
    client_call remote w
      {| rq_method := py "GET"; rq_url := api_url (session w) endpoint;
         rq_headers := headers; rq_json := None |}
  else if str_eqb method (py "POST") then
    client_call remote w
      {| rq_method := py "POST"; rq_url := api_url (session w) endpoint;
         rq_headers :=
           dict_set headers CONTENT_TYPE_HEADER (JStr (py "application/json"));
         rq_json := body |}
  else (inl (ValueError (py "Unsupported HTTP method: " ++ method)), w).
Proof.
  intros Hv Hc. run_api_request.
  destruct require_auth; [rewrite (Hv eq_refl)|]; cbn [negb]; rewrite Hc;
    cbn [negb andb];
    unfold client_call, api_url, AUTH_KEY_HEADER, CONTENT_TYPE_HEADER,
      after_request, reply_result;
    cbv zeta; cbn [rq_headers];
    (destruct (str_eqb method (py "GET"));
       [|destruct (str_eqb method (py "POST")); [|reflexivity]]);
    (destruct (check_headers _); [reflexivity|]);
    (destruct (remote (requests w) _) as [[msg|r] t]; cbn [fst snd];
       [reflexivity|]);
    (destruct ((200 <=? status_code r) && (status_code r <? 300));
       [|reflexivity]);
    destruct (payload r); reflexivity.
Qed.

Lemma key_is_token_str (s : CrestronSession) :
  key_is_token s = true ->
  exists k, auth_key s = JStr k /\ header_token k = true /\
            truthy (JStr k) = true.
Proof.
  unfold key_is_token. destruct (auth_key s) as [| | | |k| |]; try discriminate.
  intros H. exists k. repeat split; [exact H|].
  destruct k; [discriminate|reflexivity].
Qed.

Lemma str_eqb_eq (a b : str) : str_eqb a b = true <-> a = b.
Proof.
  revert b. induction a as [|c a IH]; destruct b as [|d b]; simpl;
    try (split; [discriminate|discriminate]); [tauto|].
  rewrite andb_true_iff, N.eqb_eq, IH. split.
  - intros [-> ->]. reflexivity.
  - intros H. inversion H. auto.
Qed.

Lemma api_request_no_client (remote : Remote) (w : World) (endpoint method : str)
    (body : option json) (require_auth : bool) :
  (require_auth = true -> is_valid (session w) (loop_time w) = true) ->
  client (session w) = false ->
  api_request remote endpoint method body require_auth w =
  (inl (RuntimeError (py "HTTP client not initialized")), w).
Proof.
  intros Hv Hc. run_api_request.
  destruct require_auth; [rewrite (Hv eq_refl)|]; cbn [negb]; rewrite Hc;
    reflexivity.
Qed.

(** X1.  Whatever its arguments and whatever the remote does, one
    [api_request] leaves the stored session as it was and sends at most one
    request: either the world is untouched, or exactly one request to the
    session's host and the given endpoint has been appended to the log and
    the clock stands at the time its call returned.  Nothing is retried. *)
Theorem api_request_sends_at_most_once :
  forall (remote : Remote) (w : World) (endpoint method : str)
         (body : option json) (require_auth : bool),
    let out := api_request remote endpoint method body require_auth w in
    session (snd out) = session w /\
    (snd out = w \/
     exists rq t,
       snd out = after_request w rq t /\
       rq_url rq = api_url (session w) endpoint).
Proof.
  intros remote w endpoint method body require_auth out. subst out.
  assert (Hpass : forall ra,
            (ra = true -> is_valid (session w) (loop_time w) = true) ->
            client (session w) = true ->
            let out := api_request remote endpoint method body ra w in
            session (snd out) = session w /\
            (snd out = w \/
             exists rq t,
               snd out = after_request w rq t /\
               rq_url rq = api_url (session w) endpoint)).
  { intros ra Hv Hc.
    rewrite (api_request_passes remote w endpoint method body ra Hv Hc).
    cbv zeta.
    destruct (str_eqb method (py "GET")); [|destruct (str_eqb method (py "POST"))];
      unfold client_call; try destruct (check_headers _);
      cbn [snd]; (split; [reflexivity|]);
      first [left; reflexivity | right; eexists; eexists; split; reflexivity]. }
  destruct (is_valid (session w) (loop_time w)) eqn:Hv.
  - destruct (client (session w)) eqn:Hc.
    + apply Hpass; [intros _; reflexivity|reflexivity].
    + rewrite (api_request_no_client remote w endpoint method body require_auth
                 (fun _ => Hv) Hc). split; [reflexivity|left; reflexivity].
  - destruct require_auth.
    + rewrite (api_request_invalid remote w endpoint method body Hv).
      split; [reflexivity|left; reflexivity].
    + destruct (client (session w)) eqn:Hc.
      * apply Hpass; [discriminate|reflexivity].
      * rewrite (api_request_no_client remote w endpoint method body false
                   (fun H => False_ind _ (Bool.diff_false_true H)) Hc).
        split; [reflexivity|left; reflexivity].
Qed.

Lemma api_request_post (remote : Remote) (w : World) (endpoint : str)
    (body : option json) :
  is_valid (session w) (loop_time w) = true ->
  client (session w) = true ->
  key_is_token (session w) = true ->
  api_request remote endpoint (py "POST") body true w =
  (reply_result (fst (remote (requests w) (post_request (session w) endpoint body))),
   after_request w (post_request (session w) endpoint body)
     (snd (remote (requests w) (post_request (session w) endpoint body)))).
Proof.
  intros Hv Hc Hk.
  rewrite (api_request_passes remote w endpoint (py "POST") body true
             (fun _ => Hv) Hc).
  destruct (key_is_token_str _ Hk) as (k & Hkey & _ & Ht).
  unfold client_call, post_request. rewrite Hkey, Ht. reflexivity.
Qed.

Lemma api_request_get (remote : Remote) (w : World) (endpoint : str)
    (body : option json) :
  is_valid (session w) (loop_time w) = true ->
  client (session w) = true ->
  key_is_token (session w) = true ->
  api_request remote endpoint (py "GET") body true w =
  (reply_result (fst (remote (requests w) (get_request (session w) endpoint))),
   after_request w (get_request (session w) endpoint)
     (snd (remote (requests w) (get_request (session w) endpoint)))).
Proof.
  intros Hv Hc Hk.
  rewrite (api_request_passes remote w endpoint (py "GET") body true
             (fun _ => Hv) Hc).
  destruct (key_is_token_str _ Hk) as (k & Hkey & _ & Ht).
  unfold client_call, get_request. rewrite Hkey, Ht. reflexivity.
Qed.

(** X2.  In a valid session with a client, whose key is a text of visible
    ASCII characters, a GET or POST goes out once, to
    [https://<host>/cws/api<endpoint>], with the session's key in the
    [Crestron-RestAPI-AuthKey] header.  A GET carries no body and no
    content type even if the caller passed a body; a POST carries the body
    and [Content-Type: application/json].  The caller gets the JSON payload
    of a 2xx answer; a status outside 2xx, a missing answer and a body that
    is not JSON are raised. *)
Theorem authenticated_request_carries_the_key :
  forall (remote : Remote) (w : World) (endpoint method : str)
         (body : option json),
    is_valid (session w) (loop_time w) = true ->
    client (session w) = true ->
    key_is_token (session w) = true ->
    method = py "GET" \/ method = py "POST" ->
    exists rq,
      api_request remote endpoint method body true w =
        (reply_result (fst (remote (requests w) rq)),
         after_request w rq (snd (remote (requests w) rq))) /\
      rq_method rq = method /\
      rq_url rq = api_url (session w) endpoint /\
      rq_headers rq =
        (AUTH_KEY_HEADER, auth_key (session w)) ::
        (if str_eqb method (py "POST")
         then [(CONTENT_TYPE_HEADER, JStr (py "application/json"))] else []) /\
      (method = py "GET" -> rq_json rq = None) /\
      (method = py "POST" -> rq_json rq = body).
Proof.
  intros remote w endpoint method body Hv Hc Hk Hm.
  destruct Hm as [-> | ->].
  - exists (get_request (session w) endpoint).
    split; [exact (api_request_get remote w endpoint body Hv Hc Hk)|].
    repeat split; try reflexivity; discriminate.
  - exists (post_request (session w) endpoint body).
    split; [exact (api_request_post remote w endpoint body Hv Hc Hk)|].
    repeat split; try reflexivity; discriminate.
Qed.

Lemma authenticated_request_carries_the_key_witness :
  exists rq,
    api_request (constant_remote (ok_response (JObj [(py "rooms", JList [])])) 201)
      (py "/rooms") (py "GET") (Some (JObj [])) true scenario_world =
      (inr (JObj [(py "rooms", JList [])]), after_request scenario_world rq 201) /\
    rq_json rq = None /\
    dict_get (rq_headers rq) AUTH_KEY_HEADER = Some (JStr (py "key")).
Proof.
  destruct (authenticated_request_carries_the_key
              (constant_remote (ok_response (JObj [(py "rooms", JList [])])) 201)
              scenario_world (py "/rooms") (py "GET") (Some (JObj [])))
    as (rq & Hrun & _ & _ & Hkey & Hget & _);
    [reflexivity | reflexivity | reflexivity | left; reflexivity |].
  exists rq. split; [exact Hrun|]. split; [apply Hget; reflexivity|].
  rewrite Hkey. reflexivity.
Defined.

(** X3.  The guards of [api_request] are tried in a fixed order and each
    refuses without touching the world: with [require_auth], an invalid
    session raises the not-authenticated [ValueError] even when the client
    is missing; otherwise a missing client raises [RuntimeError]; otherwise
    a method other than GET and POST raises [ValueError] naming the method.
    In none of these cases is a request sent. *)
Theorem api_request_guards :
  forall (remote : Remote) (w : World) (endpoint method : str)
         (body : option json) (require_auth : bool),
    (require_auth = true -> is_valid (session w) (loop_time w) = false ->
       api_request remote endpoint method body require_auth w =
       (inl (ValueError NOT_AUTHENTICATED), w))
    /\ ((require_auth = true -> is_valid (session w) (loop_time w) = true) ->
        client (session w) = false ->
        api_request remote endpoint method body require_auth w =
        (inl (RuntimeError (py "HTTP client not initialized")), w))
    /\ ((require_auth = true -> is_valid (session w) (loop_time w) = true) ->
        client (session w) = true ->
        method <> py "GET" -> method <> py "POST" ->
        api_request remote endpoint method body require_auth w =
        (inl (ValueError (py "Unsupported HTTP method: " ++ method)), w)).
Proof.
  intros remote w endpoint method body require_auth. split; [|split].
  - intros -> Hv. apply api_request_invalid. exact Hv.
  - apply api_request_no_client.
  - intros Hv Hc Hg Hp.
    rewrite (api_request_passes remote w endpoint method body require_auth Hv Hc).
    cbv zeta.
    destruct (str_eqb method (py "GET")) eqn:E1;
      [apply str_eqb_eq in E1; contradiction|].
    destruct (str_eqb method (py "POST")) eqn:E2;
      [apply str_eqb_eq in E2; contradiction|].
    reflexivity.
Qed.

Lemma api_request_guards_witness :
  api_request (constant_remote unauthorized 201) (py "/rooms") (py "PUT") None
    true scenario_world =
  (inl (ValueError (py "Unsupported HTTP method: PUT")), scenario_world) /\
  api_request (constant_remote unauthorized 201) (py "/rooms") (py "PUT") None
    true {| session := CrestronSession_init; loop_time := 5; requests := [] |} =
  (inl (ValueError NOT_AUTHENTICATED),
   {| session := CrestronSession_init; loop_time := 5; requests := [] |}).
Proof.
  split.
  - destruct (api_request_guards (constant_remote unauthorized 201)
                scenario_world (py "/rooms") (py "PUT") None true)
      as (_ & _ & H).
    apply H; [reflexivity | reflexivity | discriminate | discriminate].
  - destruct (api_request_guards (constant_remote unauthorized 201)
                {| session := CrestronSession_init; loop_time := 5; requests := [] |}
                (py "/rooms") (py "PUT") None true) as (H & _).
    apply H; reflexivity.
Defined.

(** X4.  Without [require_auth] the validity of the session is not looked
    at and the key is never attached, even when the session holds one: the
    GET goes out with no header at all.  With no host stored the URL is
    built from the text "None". *)
Theorem unauthenticated_request_omits_the_key :
  forall (remote : Remote) (w : World) (endpoint : str) (body : option json),
    client (session w) = true ->
    let rq := {| rq_method := py "GET"; rq_url := api_url (session w) endpoint;
                 rq_headers := []; rq_json := None |} in
    api_request remote endpoint (py "GET") body false w =
      (reply_result (fst (remote (requests w) rq)),
       after_request w rq (snd (remote (requests w) rq))) /\
    (host (session w) = None ->
       rq_url rq = py "https://None/cws/api" ++ endpoint).
Proof.
  intros remote w endpoint body Hc rq. split.
  - rewrite (api_request_passes remote w endpoint (py "GET") body false
               (fun H => False_ind _ (Bool.diff_false_true H)) Hc).
    reflexivity.
  - intros Hh. unfold rq, api_url. cbn [rq_url]. rewrite Hh. reflexivity.
Qed.

Lemma unauthenticated_request_omits_the_key_witness :
  let w := {| session := {| host := None; auth_key := JStr (py "key");
                            session_start := Some 100%float; client := true |};
              loop_time := 200; requests := [] |} in
  api_request (constant_remote unauthorized 201) (py "/login") (py "GET") None
    false w =
  (inl (HTTPStatusError 401 (py "Client error '401 Unauthorized'")),
   after_request w
     {| rq_method := py "GET"; rq_url := py "https://None/cws/api/login";
        rq_headers := []; rq_json := None |} 201).
Proof.
  intros w.
  destruct (unauthenticated_request_omits_the_key
              (constant_remote unauthorized 201) w (py "/login") None)
    as [Hrun _]; [reflexivity|].
  exact Hrun.
Defined.

(* ------------------------------------------------------------------ *)
(** ** [authenticate], [crestron_authenticate] and [clear] *)

(** X5.  A successful login, with a token and a key made of visible ASCII
    characters, replaces the stored session by the new host, the key of the
    answer and the loop time at which the call returned; the login request
    carries the token only.  Every later authenticated request made while
    fewer than 540 seconds have elapsed goes to that host and carries that
    key. *)
Theorem login_key_is_used_by_later_requests :
  forall (remote : Remote) (w : World) (host_ tok : str) (r : Response)
         (t : float) (o : list (str * json)) (k : str),
    client (session w) = true ->
    header_token tok = true ->
    remote (requests w) (login_request host_ tok) = (Answer r, t) ->
    (200 <=? status_code r) && (status_code r <? 300) = true ->
    payload r = Some (JObj o) ->
    dict_get o (py "AuthKey") = Some (JStr k) ->
    header_token k = true ->
    (t =? 0)%float = false ->
    exists w',
      authenticate remote host_ tok w = (inr (JObj o), w') /\
      session w' = {| host := Some host_; auth_key := JStr k;
                      session_start := Some t; client := true |} /\
      requests w' = requests w ++ [login_request host_ tok] /\
      rq_headers (login_request host_ tok) =
        [(py "Crestron-RestAPI-AuthToken", JStr tok)] /\
      forall (remote' : Remote) (now : float) (sent : list Request)
             (endpoint : str),
        (now - t <? 540)%float = true ->
        exists rq,
          api_request remote' endpoint (py "GET") None true
            (same_session_at w' now sent) =
            (reply_result (fst (remote' sent rq)),
             after_request (same_session_at w' now sent) rq
               (snd (remote' sent rq))) /\
          rq_url rq = py "https://" ++ host_ ++ py "/cws/api" ++ endpoint /\
          rq_headers rq = [(AUTH_KEY_HEADER, JStr k)].
Proof.
  intros remote w host_ tok r t o k Hc _ Hr H2 Hp Hk Htok Hnz.
  eexists. split.
  { rewrite (authenticate_succeeds remote w host_ tok r t o Hc Hr H2 Hp).
    rewrite Hk. reflexivity. }
  split; [reflexivity|]. split; [reflexivity|]. split; [reflexivity|].
  intros remote' now sent endpoint Hlt.
  assert (Hv : is_valid
                 {| host := Some host_; auth_key := JStr k;
                    session_start := Some t; client := true |} now = true).
  { apply is_valid_iff. split.
    - unfold credential_set. cbn [auth_key]. destruct k; [discriminate|reflexivity].
    - exists t. repeat split; assumption. }
  eexists. split.
  { apply api_request_get; [exact Hv | reflexivity | exact Htok]. }
  split; reflexivity.
Qed.

Lemma login_key_is_used_by_later_requests_witness :
  let w := {| session := CrestronSession_init_with_client;
              loop_time := 50; requests := [] |} in
  let remote :=
    constant_remote (ok_response (JObj [ (py "AuthKey", JStr (py "abc"));
                                         (py "version", JStr (py "2.0")) ])) 51 in
  exists w' rq,
    authenticate remote (py "crestron.local") (py "token") w =
      (inr (JObj [ (py "AuthKey", JStr (py "abc"));
                   (py "version", JStr (py "2.0")) ]), w') /\
    api_request remote (py "/rooms") (py "GET") None true w' =
      (inr (JObj [ (py "AuthKey", JStr (py "abc"));
                   (py "version", JStr (py "2.0")) ]),
       after_request w' rq 51) /\
    rq_url rq = py "https://crestron.local/cws/api/rooms" /\
    rq_headers rq = [(AUTH_KEY_HEADER, JStr (py "abc"))].
Proof.
  intros w remote.
  destruct (login_key_is_used_by_later_requests remote w
              (py "crestron.local") (py "token")
              {| status_code := 200; reason := py "OK";
                 payload := Some (JObj [ (py "AuthKey", JStr (py "abc"));
                                         (py "version", JStr (py "2.0")) ]) |}
              51%float
              [ (py "AuthKey", JStr (py "abc")); (py "version", JStr (py "2.0")) ]
              (py "abc"))
    as (w' & Hlogin & Hs & Hsent & _ & Hlater);
    [reflexivity | reflexivity | reflexivity | reflexivity | reflexivity
    | reflexivity | reflexivity | reflexivity |].
  destruct (Hlater remote 51%float (requests w') (py "/rooms"))
    as (rq & Hrun & Hurl & Hhdr); [reflexivity|].
  exists w', rq. split; [exact Hlogin|]. split; [|split; assumption].
  assert (Hw : same_session_at w' 51 (requests w') = w').
  { inversion Hlogin. reflexivity. }
  rewrite Hw in Hrun. exact Hrun.
Defined.

(** X6.  [crestron_authenticate] reports every failure of the login as an
    object with status ["error"] and no ["authenticated"] entry: a missing HTTP client and no answer from the network under
    ["error"] with their own text, a rejected token (status outside 2xx) as
    "Authentication failed" with the HTTP error text as details, a 2xx body
    that is not JSON, and a 2xx JSON body that is not an object (the
    [AttributeError] of [data.get]).  The stored session is left as it was
    in all these cases but the last one, where the host has already been
    replaced by the new one while the key and the issuance time are kept.
    (The token is a text of visible ASCII characters.) *)
Theorem crestron_authenticate_reports_failures :
  forall (remote : Remote) (w : World) (params : AuthenticateInput),
    let rq := login_request (ai_host params) (ai_auth_token params) in
    let help :=
      (py "help",
       JStr (py "Check network connectivity and Crestron Home system status")) in
    (client (session w) = false ->
       crestron_authenticate remote params w =
       (inr (JObj [ (py "status", JStr (py "error"));
                    (py "error", JStr (py "HTTP client not initialized"));
                    help ]),
        w))
    /\ (forall reply t,
          client (session w) = true ->
          header_token (ai_auth_token params) = true ->
          remote (requests w) rq = (reply, t) ->
          match reply with
          | NoResponse msg =>
              crestron_authenticate remote params w =
              (inr (JObj [ (py "status", JStr (py "error"));
                           (py "error", JStr msg); help ]),
               after_request w rq t)
          | Answer r =>
              if (200 <=? status_code r) && (status_code r <? 300) then
                match payload r with
                | None =>
                    exists resp,
                      crestron_authenticate remote params w =
                        (inr resp, after_request w rq t) /\
                      py_get resp "status" JNull = inr (JStr (py "error")) /\
                      py_get resp "authenticated" JNull = inr JNull
                | Some (JObj _) => True
                | Some v =>
                    crestron_authenticate remote params w =
                    (inr (JObj [ (py "status", JStr (py "error"));
                                 (py "error",
                                  JStr (py "'" ++ type_name v ++
                                        py "' object has no attribute 'get'"));
                                 help ]),
                     with_host (after_request w rq t) (ai_host params))
                end
              else
                exists resp,
                  crestron_authenticate remote params w =
                    (inr resp, after_request w rq t) /\
                  py_get resp "status" JNull = inr (JStr (py "error")) /\
                  py_get resp "authenticated" JNull = inr JNull /\
                  py_get resp "error" JNull =
                    inr (JStr (py "Authentication failed")) /\
                  py_get resp "details" JNull = inr (JStr (reason r))
          end).
Proof.
  intros remote w params rq help. split.
  - intros Hc. unfold crestron_authenticate, try_except, bind at 1.
    run_authenticate. rewrite Hc. reflexivity.
  - intros reply t Hc _ Hr.
    unfold crestron_authenticate, try_except, bind at 1.
    run_authenticate. rewrite Hc. cbn [negb].
    unfold rq, login_request in Hr. rewrite Hr.
    unfold with_host, after_request, rq, login_request.
    destruct reply as [msg|r]; [reflexivity|].
    cbn beta iota.
    destruct ((200 <=? status_code r) && (status_code r <? 300)).
    + cbn beta iota. destruct (payload r) as [v|].
      * destruct v; try exact I; cbn; rewrite Hc; reflexivity.
      * eexists. split; [reflexivity|]. split; reflexivity.
    + eexists. split; [reflexivity|]. repeat split; reflexivity.
Qed.

Lemma crestron_authenticate_reports_failures_witness :
  (exists resp w',
     crestron_authenticate (constant_remote unauthorized 201)
       {| ai_host := py "192.168.1.100"; ai_auth_token := py "bad-token" |}
       scenario_world = (inr resp, w') /\
     session w' = session scenario_world /\
     py_get resp "error" JNull = inr (JStr (py "Authentication failed"))) /\
  (exists resp w',
     crestron_authenticate (constant_remote (ok_response (JList [])) 201)
       {| ai_host := py "other.local"; ai_auth_token := py "token" |}
       scenario_world = (inr resp, w') /\
     host (session w') = Some (py "other.local") /\
     auth_key (session w') = auth_key (session scenario_world) /\
     py_get resp "status" JNull = inr (JStr (py "error"))).
Proof.
  split.
  - destruct (crestron_authenticate_reports_failures
                (constant_remote unauthorized 201) scenario_world
                {| ai_host := py "192.168.1.100"; ai_auth_token := py "bad-token" |})
      as [_ Hfail].
    destruct (Hfail unauthorized 201%float) as (resp & Hrun & _ & _ & Herr & _);
      [reflexivity | reflexivity | reflexivity |].
    exists resp. eexists. split; [exact Hrun|]. split; [reflexivity|exact Herr].
  - destruct (crestron_authenticate_reports_failures
                (constant_remote (ok_response (JList [])) 201) scenario_world
                {| ai_host := py "other.local"; ai_auth_token := py "token" |})
      as [_ Hfail].
    pose proof (Hfail (ok_response (JList [])) 201%float eq_refl eq_refl eq_refl)
      as Hrun.
    cbn in Hrun. eexists. eexists. split; [exact Hrun|].
    repeat split; reflexivity.
Defined.

(** X7.  After [clear] the session is refused by every authenticated
    [api_request], at every clock reading and without a request being sent,
    until a new login; the host and the client are kept, and clearing a
    cleared session changes nothing. *)
Theorem cleared_session_is_refused :
  forall (remote : Remote) (s : CrestronSession) (now : float)
         (sent : list Request) (endpoint method : str) (body : option json),
    let w := {| session := clear s; loop_time := now; requests := sent |} in
    api_request remote endpoint method body true w =
      (inl (ValueError NOT_AUTHENTICATED), w) /\
    host (clear s) = host s /\
    client (clear s) = client s /\
    clear (clear s) = clear s.
Proof.
  intros remote s now sent endpoint method body w. split.
  - apply api_request_invalid. reflexivity.
  - repeat split.
Qed.

(* ------------------------------------------------------------------ *)
(** ** Shade commands and the two scales *)

(** X8.  For accepted commands in a valid session whose key is a text of
    visible ASCII characters, [crestron_set_shade_position] sends one POST to [/shades/SetState] whose body lists the shades in the
    order given, each with its id and the raw position
    [floor(position * 65535 / 100)].  When the call fails the result has no
    [shades_updated] entry: a status outside 2xx is reported with its
    [status_code]; no answer is reported without one; a 2xx body that is not
    JSON is reported as a bare ["error"]. *)
Theorem set_shade_position_request_and_errors :
  forall (remote : Remote) (w : World) (params : SetShadeStateInput)
         (reply : Reply) (t : float),
    accepted_SetShadeStateInput params ->
    is_valid (session w) (loop_time w) = true ->
    client (session w) = true ->
    key_is_token (session w) = true ->
    let rq := post_request (session w) (py "/shades/SetState")
                (Some (shades_body params)) in
    remote (requests w) rq = (reply, t) ->
    exists resp,
      crestron_set_shade_position remote params w =
        (inr resp, after_request w rq t) /\
      match reply with
      | NoResponse msg =>
          py_get resp "error" JNull = inr (JStr (py "Failed to set shade positions")) /\
          py_get resp "details" JNull = inr (JStr msg) /\
          py_get resp "status_code" JNull = inr JNull /\
          py_get resp "shades_updated" JNull = inr JNull
      | Answer r =>
          if (200 <=? status_code r) && (status_code r <? 300) then
            match payload r with
            | Some _ => True
            | None =>
                keys resp = [py "error"] /\
                py_get resp "shades_updated" JNull = inr JNull
            end
          else
            py_get resp "error" JNull = inr (JStr (py "Failed to set shade positions")) /\
            py_get resp "status_code" JNull = inr (JInt (status_code r)) /\
            py_get resp "details" JNull = inr (JStr (reason r)) /\
            py_get resp "shades_updated" JNull = inr JNull
      end.
Proof.
  intros remote w params reply t [_ Hall] Hv Hc Hk rq Hr.
  unfold crestron_set_shade_position, try_except, bind at 1.
  rewrite (shades_data_accepted _ Hall). unfold lift at 1.
  fold (shades_body params). unfold bind at 1.
  rewrite (api_request_post remote w _ _ Hv Hc Hk). fold rq. rewrite Hr.
  cbn [fst snd]. unfold reply_result.
  destruct reply as [msg|r].
  - eexists. split; [reflexivity|]. repeat split; reflexivity.
  - destruct ((200 <=? status_code r) && (status_code r <? 300)).
    + destruct (payload r) as [v|].
      * unfold bind, lift.
        destruct (py_get v "status" (JStr (py "unknown"))) as [e|status].
        -- destruct (is_ValueError e); [|destruct e]; eexists;
             (split; [reflexivity|exact I]).
        -- eexists. split; [reflexivity|exact I].
      * eexists. split; [reflexivity|]. split; reflexivity.
    + eexists. split; [reflexivity|]. repeat split; reflexivity.
Qed.

Lemma set_shade_position_request_and_errors_witness :
  exists resp w',
    crestron_set_shade_position (constant_remote unauthorized 201)
      scenario_C_params scenario_C_world = (inr resp, w') /\
    requests w' =
      [ post_request (session scenario_C_world) (py "/shades/SetState")
          (Some (JObj [(py "shades",
                        JList [ JObj [(py "id", JInt 1); (py "position", JInt 32767)];
                                JObj [(py "id", JInt 2); (py "position", JInt 32767)];
                                JObj [(py "id", JInt 3); (py "position", JInt 32767)] ])])) ] /\
    py_get resp "status_code" JNull = inr (JInt 401).
Proof.
  destruct (set_shade_position_request_and_errors
              (constant_remote unauthorized 201) scenario_C_world
              scenario_C_params unauthorized 201%float)
    as (resp & Hrun & Herr).
  - split; [vm_compute; split; discriminate|].
    repeat constructor; vm_compute; discriminate.
  - reflexivity.
  - reflexivity.
  - reflexivity.
  - reflexivity.
  - exists resp. eexists. split; [exact Hrun|]. split; [reflexivity|].
    exact (proj1 (proj2 Herr)).
Defined.

(** X9.  On accepted percentages the write path is strictly increasing in
    steps of at least 655 raw units, and stays within the 16-bit scale:
    two different percentages never give the same raw position. *)
Theorem write_path_is_strictly_increasing :
  forall p q : Z,
    0 <= p <= 100 -> 0 <= q <= 100 ->
    exists rp rq,
      crestron_position p = inr rp /\
      crestron_position q = inr rq /\
      0 <= rp <= 65535 /\
      (p < q -> rp + 655 <= rq) /\
      (rp = rq -> p = q).
Proof.
  intros p q Hp Hq.
  exists (p * 65535 / 100), (q * 65535 / 100).
  split; [apply crestron_position_floor; exact Hp|].
  split; [apply crestron_position_floor; exact Hq|].
  assert (Hstep : forall a b, 0 <= a -> a < b -> a * 65535 / 100 + 655 <= b * 65535 / 100).
  { intros a b Ha Hab.
    pose proof (Z.mul_div_le (a * 65535) 100).
    pose proof (Z.mul_succ_div_gt (b * 65535) 100).
    nia. }
  split.
  { split; [apply Z.div_pos; lia|]. apply Z.div_le_upper_bound; lia. }
  split; [intros Hlt; apply Hstep; lia|].
  intros Heq. destruct (Z.lt_trichotomy p q) as [Hlt | [-> | Hgt]];
    [|reflexivity|].
  - pose proof (Hstep p q (proj1 Hp) Hlt). lia.
  - pose proof (Hstep q p (proj1 Hq) Hgt). lia.
Qed.

Lemma write_path_is_strictly_increasing_witness :
  exists rp rq,
    crestron_position 49 = inr rp /\ crestron_position 50 = inr rq /\
    rp + 655 <= rq.
Proof.
  destruct (write_path_is_strictly_increasing 49 50) as (rp & rq & H1 & H2 & _ & H & _);
    [lia | lia |].
  exists rp, rq. split; [exact H1|]. split; [exact H2|]. apply H. lia.
Defined.

(** X10.  The read path maps every raw position of the 16-bit scale to a
    percentage between 0 and 100; it shows 100 only for the raw value
    65535 and 0 for every raw value up to 655.  A shade object without a
    ["position"] entry reads as 0 percent, and one whose position is
    [null] raises a [TypeError]. *)
Theorem read_path_bounds :
  (forall raw : Z,
      0 <= raw <= 65535 ->
      exists q,
        shade_position_percent (shade_with_position raw) = inr q /\
        0 <= q <= 100 /\
        (q = 100 <-> raw = 65535) /\
        (q = 0 <-> raw <= 655))
  /\ (forall o, dict_get o (py "position") = None ->
        shade_position_percent (JObj o) = inr 0)
  /\ (forall o, dict_get o (py "position") = Some JNull ->
        exists msg, shade_position_percent (JObj o) = inl (TypeError msg)).
Proof.
  split; [|split].
  - intros raw H. exists (raw * 100 / 65535).
    split; [apply shade_position_percent_floor; exact H|].
    pose proof (Z.mul_div_le (raw * 100) 65535).
    pose proof (Z.mul_succ_div_gt (raw * 100) 65535).
    split.
    { split; [apply Z.div_pos; lia|apply Z.div_le_upper_bound; lia]. }
    split.
    { split; [intros E; lia|intros ->; reflexivity]. }
    split; [intros E; lia|intros E; apply Z.div_small; lia].
  - intros o Ho. unfold shade_position_percent, py_get. rewrite Ho. reflexivity.
  - intros o Ho. unfold shade_position_percent, py_get. rewrite Ho.
    eexists. reflexivity.
Qed.

Lemma read_path_bounds_witness :
  exists q,
    shade_position_percent (shade_with_position 65534) = inr q /\ q <> 100.
Proof.
  destruct read_path_bounds as [Hall _].
  destruct (Hall 65534) as (q & Hq & _ & H100 & _); [lia|].
  exists q. split; [exact Hq|]. intros E. apply H100 in E. discriminate E.
Defined.

(** X11.  The ["message"] of a shade result follows the status the remote
    reports and nothing else: "Some shades failed to update..." for
    ["partial"], "Successfully updated n shade(s)" for ["success"], and no
    message at all for any other status, an absent status (reported as
    ["unknown"]) included. *)
Theorem shade_message_follows_remote_status :
  forall (remote : Remote) (w w' : World) (params : SetShadeStateInput)
         (o : list (str * json)),
    accepted_SetShadeStateInput params ->
    api_request remote (py "/shades/SetState") (py "POST")
      (Some (shades_body params)) true w = (inr (JObj o), w') ->
    exists resp,
      crestron_set_shade_position remote params w = (inr resp, w') /\
      (dict_get o (py "status") = Some (JStr (py "partial")) ->
         py_get resp "message" JNull =
         inr (JStr (py "Some shades failed to update. Check 'errorDevices' in details. Verify shade IDs are correct and devices are online."))) /\
      (dict_get o (py "status") = Some (JStr (py "success")) ->
         py_get resp "message" JNull =
         inr (JStr (py "Successfully updated " ++ str_of_int (len (shades params)) ++
                    py " shade(s)"))) /\
      (dict_get o (py "status") = None ->
         py_get resp "status" JNull = inr (JStr (py "unknown")) /\
         py_get resp "message" JNull = inr JNull) /\
      (forall v, dict_get o (py "status") = Some v ->
         eq_str v "partial" = false -> eq_str v "success" = false ->
         py_get resp "status" JNull = inr v /\
         py_get resp "message" JNull = inr JNull).
Proof.
  intros remote w w' params o [_ Hall] Hcall.
  unfold crestron_set_shade_position, try_except, bind at 1.
  rewrite (shades_data_accepted _ Hall). unfold lift at 1.
  fold (shades_body params). unfold bind. rewrite Hcall.
  unfold lift, py_get, ret.
  destruct (dict_get o (py "status")) as [v|].
  - destruct (eq_str v "partial") eqn:Ep.
    + destruct v as [ | | | |s| | ]; try discriminate Ep.
      apply str_eqb_eq in Ep. subst s.
      eexists. split; [reflexivity|].
      split; [intros _; reflexivity|].
      split; [intros H; discriminate H|].
      split; [intros H; discriminate H|].
      intros v Hv H1. inversion Hv; subst. discriminate H1.
    + destruct (eq_str v "success") eqn:Es.
      * destruct v as [ | | | |s| | ]; try discriminate Es.
        apply str_eqb_eq in Es. subst s.
        eexists. split; [reflexivity|].
        split; [intros H; discriminate H|].
        split; [intros _; reflexivity|].
        split; [intros H; discriminate H|].
        intros v Hv _ H2. inversion Hv; subst. discriminate H2.
      * eexists. split; [reflexivity|].
        split; [intros H; inversion H; subst; discriminate Ep|].
        split; [intros H; inversion H; subst; discriminate Es|].
        split; [intros H; discriminate H|].
        intros v' Hv _ _. inversion Hv; subst. split; reflexivity.
  - eexists. split; [reflexivity|].
    split; [intros H; discriminate H|].
    split; [intros H; discriminate H|].
    split; [intros _; split; reflexivity|].
    intros v H. discriminate H.
Qed.

(** The mock controller's answer when no shade of a batch is known. *)
Lemma shade_message_follows_remote_status_witness :
  let result := [ (py "status", JStr (py "failure"));
                  (py "errorDevices", JList [JInt 1; JInt 2; JInt 3]) ] in
  exists resp w',
    crestron_set_shade_position (constant_remote (ok_response (JObj result)) 201)
      scenario_C_params scenario_C_world = (inr resp, w') /\
    py_get resp "status" JNull = inr (JStr (py "failure")) /\
    py_get resp "message" JNull = inr JNull.
Proof.
  intros result.
  destruct (shade_message_follows_remote_status
              (constant_remote (ok_response (JObj result)) 201)
              scenario_C_world
              (after_request scenario_C_world
                 (post_request (session scenario_C_world) (py "/shades/SetState")
                    (Some (shades_body scenario_C_params))) 201)
              scenario_C_params result)
    as (resp & Hrun & _ & _ & _ & Hother).
  - split; [vm_compute; split; discriminate|].
    repeat constructor; vm_compute; discriminate.
  - vm_compute. reflexivity.
  - exists resp. eexists. split; [exact Hrun|].
    apply (Hother (JStr (py "failure"))); reflexivity.
Defined.

(* ------------------------------------------------------------------ *)
(** ** Scene and thermostat commands *)

(** X12.  [crestron_activate_scene] in a valid session (the key a text of
    visible ASCII characters) sends one POST without a body to [/scenes/recall/<scene_id>].  Any 2xx JSON answer is
    reported with status ["success"], whatever it says.  A 404 is reported
    as "Scene with ID <scene_id> not found" without a status code; every
    other status outside 2xx is reported with its [status_code]. *)
Theorem activate_scene_outcomes :
  forall (remote : Remote) (w : World) (params : RecallSceneInput)
         (reply : Reply) (t : float),
    is_valid (session w) (loop_time w) = true ->
    client (session w) = true ->
    key_is_token (session w) = true ->
    let rq := post_request (session w)
                (py "/scenes/recall/" ++ str_of_int (scene_id params)) None in
    remote (requests w) rq = (reply, t) ->
    exists resp,
      crestron_activate_scene remote params w = (inr resp, after_request w rq t) /\
      match reply with
      | NoResponse msg =>
          py_get resp "error" JNull = inr (JStr (py "Failed to activate scene")) /\
          py_get resp "details" JNull = inr (JStr msg)
      | Answer r =>
          if (200 <=? status_code r) && (status_code r <? 300) then
            match payload r with
            | Some v =>
                py_get resp "status" JNull = inr (JStr (py "success")) /\
                py_get resp "scene_id" JNull = inr (JInt (scene_id params)) /\
                py_get resp "details" JNull = inr v
            | None => keys resp = [py "error"]
            end
          else if status_code r =? 404 then
            py_get resp "error" JNull =
              inr (JStr (py "Scene with ID " ++ str_of_int (scene_id params) ++
                         py " not found")) /\
            py_get resp "status_code" JNull = inr JNull /\
            py_get resp "help" JNull =
              inr (JStr (py "Use crestron_list_scenes to see available scenes"))
          else
            py_get resp "error" JNull = inr (JStr (py "Failed to activate scene")) /\
            py_get resp "status_code" JNull = inr (JInt (status_code r)) /\
            py_get resp "details" JNull = inr (JStr (reason r))
      end.
Proof.
  intros remote w params reply t Hv Hc Hk rq Hr.
  unfold crestron_activate_scene, try_except, bind at 1.
  rewrite (api_request_post remote w _ _ Hv Hc Hk). fold rq. rewrite Hr.
  cbn [fst snd]. unfold reply_result.
  destruct reply as [msg|r].
  - eexists. split; [reflexivity|]. split; reflexivity.
  - destruct ((200 <=? status_code r) && (status_code r <? 300)).
    + destruct (payload r) as [v|].
      * eexists. split; [reflexivity|]. repeat split; reflexivity.
      * eexists. split; [reflexivity|]. reflexivity.
    + cbn [is_ValueError]. destruct (status_code r =? 404).
      * eexists. split; [reflexivity|]. repeat split; reflexivity.
      * eexists. split; [reflexivity|]. repeat split; reflexivity.
Qed.

Lemma activate_scene_outcomes_witness :
  exists resp w',
    crestron_activate_scene (constant_remote not_found 201)
      {| scene_id := 99 |} scenario_world = (inr resp, w') /\
    py_get resp "error" JNull = inr (JStr (py "Scene with ID 99 not found")) /\
    requests w' =
      [ post_request (session scenario_world) (py "/scenes/recall/99") None ].
Proof.
  destruct (activate_scene_outcomes (constant_remote not_found 201)
              scenario_world {| scene_id := 99 |} not_found 201%float)
    as (resp & Hrun & Herr & _);
    [reflexivity | reflexivity | reflexivity | reflexivity |].
  exists resp. eexists. split; [exact Hrun|]. split; [exact Herr|reflexivity].
Defined.

(** X13.  In a valid session (the key a text of visible ASCII characters)
    [crestron_set_thermostat_mode] posts the commands in order, each with
    its id and the mode's value.  The status of the result is the one
    the remote reports, ["success"] when it reports none; the message says
    "Successfully updated n thermostat(s)" whatever that status is, a
    ["partial"] one included.  A status outside 2xx is reported without a
    [status_code] entry. *)
Theorem thermostat_mode_outcomes :
  forall (remote : Remote) (w : World) (params : SetThermostatModeInput)
         (reply : Reply) (t : float),
    is_valid (session w) (loop_time w) = true ->
    client (session w) = true ->
    key_is_token (session w) = true ->
    let body :=
      JObj [(py "thermostats",
             JList (map (fun c => JObj [ (py "id", JInt (tm_id c));
                                         (py "mode",
                                          JStr (ThermostatMode.value (tm_mode c))) ])
                        (tm_thermostats params)))] in
    let rq := post_request (session w) (py "/thermostats/mode") (Some body) in
    remote (requests w) rq = (reply, t) ->
    exists resp,
      crestron_set_thermostat_mode remote params w =
        (inr resp, after_request w rq t) /\
      match reply_result reply with
      | inr (JObj o) =>
          py_get resp "status" JNull =
            inr (match dict_get o (py "status") with
                 | Some v => v
                 | None => JStr (py "success")
                 end) /\
          py_get resp "thermostats_updated" JNull =
            inr (JInt (len (tm_thermostats params))) /\
          py_get resp "message" JNull =
            inr (JStr (py "Successfully updated " ++
                       str_of_int (len (tm_thermostats params)) ++
                       py " thermostat(s)")) /\
          py_get resp "details" JNull = inr (JObj o)
      | inr _ =>
          py_get resp "error" JNull = inr (JStr (py "Failed to set thermostat mode"))
      | inl (HTTPStatusError code msg) =>
          py_get resp "error" JNull = inr (JStr (py "Failed to set thermostat mode")) /\
          py_get resp "details" JNull = inr (JStr msg) /\
          py_get resp "status_code" JNull = inr JNull
      | inl e =>
          if is_ValueError e then keys resp = [py "error"]
          else py_get resp "error" JNull =
                 inr (JStr (py "Failed to set thermostat mode"))
      end.
Proof.
  intros remote w params reply t Hv Hc Hk body rq Hr.
  unfold crestron_set_thermostat_mode, try_except, bind at 1.
  fold body. rewrite (api_request_post remote w _ _ Hv Hc Hk). fold rq. rewrite Hr.
  cbn [fst snd].
  destruct (reply_result reply) as [e|v].
  - destruct e; eexists; (split; [reflexivity|]); repeat split; reflexivity.
  - destruct v; eexists; (split; [reflexivity|]); repeat split; reflexivity.
Qed.

Lemma thermostat_mode_outcomes_witness :
  let params := {| tm_thermostats :=
                     [ {| tm_id := 15; tm_mode := ThermostatMode.HEAT |};
                       {| tm_id := 13; tm_mode := ThermostatMode.OFF |} ] |} in
  let answer := JObj [ (py "status", JStr (py "partial"));
                       (py "errorDevices", JList [JInt 13]) ] in
  exists resp w',
    crestron_set_thermostat_mode (constant_remote (ok_response answer) 201)
      params scenario_world = (inr resp, w') /\
    py_get resp "status" JNull = inr (JStr (py "partial")) /\
    py_get resp "message" JNull =
      inr (JStr (py "Successfully updated 2 thermostat(s)")).
Proof.
  intros params answer.
  destruct (thermostat_mode_outcomes (constant_remote (ok_response answer) 201)
              scenario_world params (ok_response answer) 201%float)
    as (resp & Hrun & Hst & _ & Hmsg & _);
    [reflexivity | reflexivity | reflexivity | reflexivity |].
  exists resp. eexists. split; [exact Hrun|]. split; [exact Hst|exact Hmsg].
Defined.

(** X14.  [crestron_set_thermostat_setpoint] and [crestron_set_thermostat_fan]
    do not look into the remote's answer: once the call returns a JSON
    value, the status is ["success"], the count is the number of items of
    the request, and the answer is passed on under ["details"], even when
    it reports a failure.  The setpoint body names the thermostat once and
    lists each setpoint with its type value and temperature. *)
Theorem setpoint_and_fan_report_success :
  forall (remote : Remote) (w w' : World) (result : json),
    (forall params : SetThermostatSetpointInput,
        api_request remote (py "/thermostats/SetPoint") (py "POST")
          (Some (JObj [ (py "id", JInt (thermostat_id params));
                        (py "setpoints",
                         JList (map (fun sp =>
                                       JObj [ (py "type",
                                               JStr (SetPointType.value (sp_type sp)));
                                              (py "temperature",
                                               JInt (sp_temperature sp)) ])
                                    (setpoints params))) ]))
          true w = (inr result, w') ->
        exists resp,
          crestron_set_thermostat_setpoint remote params w = (inr resp, w') /\
          py_get resp "status" JNull = inr (JStr (py "success")) /\
          py_get resp "thermostat_id" JNull = inr (JInt (thermostat_id params)) /\
          py_get resp "setpoints_updated" JNull = inr (JInt (len (setpoints params))) /\
          py_get resp "details" JNull = inr result)
    /\ (forall params : SetThermostatFanInput,
          api_request remote (py "/thermostats/fanmode") (py "POST")
            (Some (JObj [ (py "thermostats",
                           JList (map (fun c =>
                                         JObj [ (py "id", JInt (tf_id c));
                                                (py "mode",
                                                 JStr (FanMode.value (tf_mode c))) ])
                                      (tf_thermostats params))) ]))
            true w = (inr result, w') ->
          exists resp,
            crestron_set_thermostat_fan remote params w = (inr resp, w') /\
            py_get resp "status" JNull = inr (JStr (py "success")) /\
            py_get resp "thermostats_updated" JNull =
              inr (JInt (len (tf_thermostats params))) /\
            py_get resp "details" JNull = inr result).
Proof.
  intros remote w w' result. split.
  - intros params Hcall.
    unfold crestron_set_thermostat_setpoint, try_except, bind.
    rewrite Hcall. eexists. split; [reflexivity|]. repeat split; reflexivity.
  - intros params Hcall.
    unfold crestron_set_thermostat_fan, try_except, bind.
    rewrite Hcall. eexists. split; [reflexivity|]. repeat split; reflexivity.
Qed.

Lemma setpoint_and_fan_report_success_witness :
  let params := {| thermostat_id := 15;
                   setpoints := [ {| sp_type := SetPointType.HEAT;
                                     sp_temperature := 72 |} ] |} in
  let answer := JObj [ (py "status", JStr (py "failure"));
                       (py "errorMessage", JStr (py "Temperature out of range")) ] in
  exists resp w',
    crestron_set_thermostat_setpoint (constant_remote (ok_response answer) 201)
      params scenario_world = (inr resp, w') /\
    py_get resp "status" JNull = inr (JStr (py "success")) /\
    py_get resp "details" JNull = inr answer.
Proof.
  intros params answer.
  destruct (setpoint_and_fan_report_success
              (constant_remote (ok_response answer) 201) scenario_world
              (after_request scenario_world
                 (post_request (session scenario_world) (py "/thermostats/SetPoint")
                    (Some (JObj [ (py "id", JInt 15);
                                  (py "setpoints",
                                   JList [ JObj [ (py "type", JStr (py "Heat"));
                                                  (py "temperature", JInt 72) ] ]) ])))
                 201)
              answer) as [Hset _].
  destruct (Hset params) as (resp & Hrun & Hst & _ & _ & Hd);
    [vm_compute; reflexivity|].
  exists resp. eexists. split; [exact Hrun|]. split; [exact Hst|exact Hd].
Defined.

(* ------------------------------------------------------------------ *)
(** ** Scores, sorting and the decision of the resolver *)

Lemma ltb_asym (a b : float) :
  (a <? b)%float = true -> (b <? a)%float = false.
Proof.
  rewrite !ltb_spec. unfold SFltb.
  rewrite (SFcompare_antisym (Prim2SF a) (Prim2SF b)).
  destruct (SFcompare (Prim2SF a) (Prim2SF b)) as [[ | | ]|]; simpl; congruence.
Qed.

Lemma SFcompare_some (a b : spec_float) :
  a <> S754_nan -> b <> S754_nan -> SFcompare a b <> None.
Proof.
  destruct a as [sa|sa| |sa ma ea], b as [sb|sb| |sb mb eb]; simpl;
    intros Ha Hb; try congruence;
    try (destruct sa; discriminate); try (destruct sb; discriminate).
Qed.

Lemma ltb_true_not_nan (a b : float) :
  (a <? b)%float = true -> Prim2SF a <> S754_nan /\ Prim2SF b <> S754_nan.
Proof.
  rewrite ltb_spec. unfold SFltb.
  destruct (Prim2SF a) as [sa|sa| |sa ma ea], (Prim2SF b) as [sb|sb| |sb mb eb];
    simpl; intros H; split; congruence.
Qed.

(** For numbers, [not (a < b)] is [b <= a]. *)
Lemma not_ltb_leb (a b : float) :
  Prim2SF a <> S754_nan -> Prim2SF b <> S754_nan ->
  (a <? b)%float = false -> (b <=? a)%float = true.
Proof.
  intros Ha Hb. rewrite ltb_spec, leb_spec. unfold SFltb, SFleb.
  rewrite (SFcompare_antisym (Prim2SF a) (Prim2SF b)).
  pose proof (SFcompare_some _ _ Ha Hb) as Hc.
  destruct (SFcompare (Prim2SF a) (Prim2SF b)) as [[ | | ]|]; simpl; congruence.
Qed.

Lemma clamped_score (s : float) :
  (0 <? s)%float = true ->
  (0 <? py_min s 1)%float = true /\ (py_min s 1 <=? 1)%float = true.
Proof.
  intros Hpos. unfold py_min. destruct (1 <? s)%float eqn:H1.
  - split; reflexivity.
  - split; [exact Hpos|].
    apply not_ltb_leb; [vm_compute; discriminate| |exact H1].
    exact (proj2 (ltb_true_not_nan _ _ Hpos)).
Qed.

Lemma score_devices_matches (u : str) (hint : option Z) (rm : room_dict)
    (devices : list json) (matches : list Match) :
  score_devices u hint rm devices = inr matches ->
  Forall (fun m => (0 <? m_score m)%float = true /\
                   (m_score m <=? 1)%float = true /\
                   In (m_device m) devices) matches.
Proof.
  revert matches. induction devices as [|device rest IH]; intros matches H.
  - inversion H. constructor.
  - cbn [score_devices] in H.
    destruct (signals_of u hint rm device) as [e|g]; [discriminate|].
    cbn [bind_r] in H.
    destruct (score_devices u hint rm rest) as [e|later]; [discriminate|].
    cbn [bind_r] in H. specialize (IH later eq_refl).
    assert (Hlater : Forall (fun m => (0 <? m_score m)%float = true /\
                                      (m_score m <=? 1)%float = true /\
                                      In (m_device m) (device :: rest)) later).
    { eapply Forall_impl; [|exact IH].
      intros m (H1 & H2 & H3). repeat split; auto. right. exact H3. }
    destruct (0 <? score_of g)%float eqn:Hpos; inversion H; subst; [|exact Hlater].
    constructor; [|exact Hlater].
    destruct (clamped_score _ Hpos) as [Ha Hb].
    cbn [m_score m_device]. repeat split; auto. left. reflexivity.
Qed.

(** X15.  Every entry the scoring loop keeps has a score above 0 and at
    most 1.0, and belongs to a device of the listing; devices are never
    invented and a listing of n devices yields at most n entries. *)
Theorem kept_scores_are_positive_and_clamped :
  forall (u : str) (hint : option Z) (rm : room_dict) (devices : list json)
         (matches : list Match),
    score_devices u hint rm devices = inr matches ->
    Forall (fun m => (0 <? m_score m)%float = true /\
                     (m_score m <=? 1)%float = true /\
                     In (m_device m) devices) matches /\
    len matches <= len devices.
Proof.
  intros u hint rm devices matches H. split.
  - exact (score_devices_matches u hint rm devices matches H).
  - revert matches H. unfold len.
    induction devices as [|device rest IH]; intros matches H.
    + inversion H. simpl. lia.
    + cbn [score_devices] in H.
      destruct (signals_of u hint rm device) as [e|g]; [discriminate|].
      cbn [bind_r] in H.
      destruct (score_devices u hint rm rest) as [e|later]; [discriminate|].
      cbn [bind_r] in H. specialize (IH later eq_refl).
      destruct (0 <? score_of g)%float; inversion H; subst; cbn [List.length]; lia.
Qed.

Lemma kept_scores_are_positive_and_clamped_witness :
  exists matches,
    score_devices (py "lampadario soggiorno light") (Some 1)
      [(JInt 1, py "soggiorno")]
      [ device_object 1 "Lampadario Soggiorno" "light" "Dimmer" 1;
        device_object 2 "Faretti" "shade" "Shade" 2 ] = inr matches /\
    Forall (fun m => (m_score m <=? 1)%float = true) matches /\
    len matches = 1.
Proof.
  eexists. split; [vm_compute; reflexivity|].
  destruct (kept_scores_are_positive_and_clamped
              (py "lampadario soggiorno light") (Some 1)
              [(JInt 1, py "soggiorno")]
              [ device_object 1 "Lampadario Soggiorno" "light" "Dimmer" 1;
                device_object 2 "Faretti" "shade" "Shade" 2 ]
              [ {| m_device := device_object 1 "Lampadario Soggiorno" "light" "Dimmer" 1;
                   m_score := 1 |} ]) as [Hall _]; [vm_compute; reflexivity|].
  split; [|reflexivity].
  eapply Forall_impl; [|exact Hall]. intros m (_ & H & _). exact H.
Defined.

Lemma insert_match_perm (x : Match) (l : list Match) :
  Permutation (insert_match x l) (x :: l).
Proof.
  induction l as [|y l IH]; simpl; [apply Permutation_refl|].
  destruct (m_score x <? m_score y)%float; [|apply Permutation_refl].
  apply perm_trans with (y :: x :: l); [|apply perm_swap].
  apply perm_skip. exact IH.
Qed.

Lemma sort_matches_perm (l : list Match) : Permutation (sort_matches l) l.
Proof.
  induction l as [|x l IH]; simpl; [apply perm_nil|].
  apply perm_trans with (x :: sort_matches l); [apply insert_match_perm|].
  apply perm_skip. exact IH.
Qed.

Lemma insert_match_sorted (x : Match) (l : list Match) :
  Sorted not_below l -> Sorted not_below (insert_match x l).
Proof.
  induction 1 as [|y l Hs IH Hd]; simpl.
  - repeat constructor.
  - destruct (m_score x <? m_score y)%float eqn:Hxy.
    + constructor; [exact IH|].
      destruct l as [|z l]; simpl.
      * constructor. apply ltb_asym. exact Hxy.
      * destruct (m_score x <? m_score z)%float.
        -- constructor. inversion Hd. assumption.
        -- constructor. apply ltb_asym. exact Hxy.
    + constructor; [constructor; assumption|]. constructor. exact Hxy.
Qed.

Lemma sort_matches_sorted (l : list Match) : Sorted not_below (sort_matches l).
Proof.
  induction l as [|x l IH]; simpl; [constructor|].
  apply insert_match_sorted. exact IH.
Qed.

(** The order of binary64 numbers is transitive. *)
Ltac order_cases :=
  repeat match goal with
  | H : context [Z.compare ?x ?y] |- _ =>
      destruct (Z.compare_spec x y); try subst
  | |- context [Z.compare ?x ?y] =>
      destruct (Z.compare_spec x y); try subst
  | H : context [Pos.compare ?x ?y] |- _ =>
      destruct (Pos.compare_spec x y); try subst
  | |- context [Pos.compare ?x ?y] =>
      destruct (Pos.compare_spec x y); try subst
  end.

Lemma Pos_compare_cont_Eq (p q : positive) :
  Pos.compare_cont Eq p q = Pos.compare p q.
Proof. reflexivity. Qed.

Lemma SFcompare_le_trans (a b c : spec_float) (x y : comparison) :
  SFcompare a b = Some x -> x <> Gt ->
  SFcompare b c = Some y -> y <> Gt ->
  exists z, SFcompare a c = Some z /\ z <> Gt /\ (x = Lt \/ y = Lt -> z = Lt).
Proof.
  destruct a as [sa|sa| |sa ma ea], b as [sb|sb| |sb mb eb],
           c as [sc|sc| |sc mc ec];
    cbn [SFcompare]; intros Hx Hnx Hy Hny; try discriminate;
    try destruct sa; try destruct sb; try destruct sc;
    rewrite ?Pos_compare_cont_Eq in *;
    injection Hx as <-; injection Hy as <-;
    try (exfalso; apply Hnx; reflexivity); try (exfalso; apply Hny; reflexivity);
    try (eexists; split; [reflexivity|]; split; [discriminate|];
         intros [Hlt|Hlt]; first [reflexivity | discriminate Hlt]).
  all: eexists; (split; [reflexivity|]).
  all: order_cases; cbn [CompOpp] in *; try lia; try congruence;
       (split; [discriminate|]); intros [Hlt|Hlt];
       first [reflexivity|discriminate Hlt|lia].
Qed.

Lemma ltb_trans (a b c : float) :
  (a <? b)%float = true -> (b <? c)%float = true -> (a <? c)%float = true.
Proof.
  rewrite !ltb_spec. unfold SFltb.
  destruct (SFcompare (Prim2SF a) (Prim2SF b)) as [[ | | ]|] eqn:Hab;
    try discriminate.
  destruct (SFcompare (Prim2SF b) (Prim2SF c)) as [[ | | ]|] eqn:Hbc;
    try discriminate.
  intros _ _.
  destruct (SFcompare_le_trans _ _ _ _ _ Hab ltac:(discriminate)
              Hbc ltac:(discriminate)) as (z & -> & _ & Hz).
  rewrite Hz; [reflexivity|left; reflexivity].
Qed.

(** [c <= b] and [b <= a] give [c <= a], for numbers. *)
Lemma not_ltb_trans (a b c : float) :
  Prim2SF a <> S754_nan -> Prim2SF b <> S754_nan -> Prim2SF c <> S754_nan ->
  (a <? b)%float = false -> (b <? c)%float = false -> (a <? c)%float = false.
Proof.
  intros Ha Hb Hc. rewrite !ltb_spec. unfold SFltb.
  pose proof (SFcompare_some _ _ Hb Ha) as Hba.
  pose proof (SFcompare_some _ _ Hc Hb) as Hcb.
  rewrite (SFcompare_antisym (Prim2SF b) (Prim2SF a)).
  rewrite (SFcompare_antisym (Prim2SF c) (Prim2SF b)).
  rewrite (SFcompare_antisym (Prim2SF c) (Prim2SF a)).
  destruct (SFcompare (Prim2SF b) (Prim2SF a)) as [x|] eqn:Hx; [|congruence].
  destruct (SFcompare (Prim2SF c) (Prim2SF b)) as [y|] eqn:Hy; [|congruence].
  intros H1 H2.
  assert (Hnx : x <> Gt) by (destruct x; simpl in H1; congruence).
  assert (Hny : y <> Gt) by (destruct y; simpl in H2; congruence).
  destruct (SFcompare_le_trans _ _ _ _ _ Hy Hny Hx Hnx) as (z & -> & Hz & _).
  destruct z; simpl; congruence.
Qed.

Lemma eqb_not_ltb (x y s : float) :
  (x =? s)%float = true -> (y =? s)%float = true -> (x <? y)%float = false.
Proof.
  rewrite !eqb_spec, ltb_spec. unfold SFeqb, SFltb.
  rewrite (SFcompare_antisym (Prim2SF s) (Prim2SF x)).
  rewrite (SFcompare_antisym (Prim2SF y) (Prim2SF x)).
  destruct (SFcompare (Prim2SF s) (Prim2SF x)) as [[ | | ]|] eqn:Hsx;
    try discriminate.
  destruct (SFcompare (Prim2SF y) (Prim2SF s)) as [[ | | ]|] eqn:Hys;
    try discriminate.
  intros _ _.
  destruct (SFcompare_le_trans _ _ _ _ _ Hys ltac:(discriminate)
              Hsx ltac:(discriminate)) as (z & -> & Hz & _).
  destruct z; simpl; congruence.
Qed.

Lemma insert_match_with_score (s : float) (x : Match) (l : list Match) :
  with_score s (insert_match x l) = with_score s (x :: l).
Proof.
  unfold with_score.
  induction l as [|y l IH]; [reflexivity|].
  cbn [insert_match]. destruct (m_score x <? m_score y)%float eqn:Hxy;
    [|reflexivity].
  cbn [filter] in IH |- *. rewrite IH.
  destruct (m_score x =? s)%float eqn:Hx; [|reflexivity].
  destruct (m_score y =? s)%float eqn:Hy; [|reflexivity].
  rewrite (eqb_not_ltb _ _ _ Hx Hy) in Hxy. discriminate Hxy.
Qed.

Lemma sort_matches_with_score (s : float) (l : list Match) :
  with_score s (sort_matches l) = with_score s l.
Proof.
  induction l as [|x l IH]; [reflexivity|].
  cbn [sort_matches]. rewrite insert_match_with_score.
  unfold with_score in *. cbn [filter]. rewrite IH. reflexivity.
Qed.

Lemma sort_matches_top (l : list Match) (top : Match) (rest : list Match) :
  Forall (fun m => (0 <? m_score m)%float = true) l ->
  sort_matches l = top :: rest ->
  exists before after,
    l = before ++ top :: after /\
    Forall (scores_below top) before /\
    Forall (scores_not_above top) after.
Proof.
  revert top rest. induction l as [|x l IH]; intros top rest Hpos Hs;
    [discriminate Hs|].
  inversion Hpos as [|x' l' Hx Hl]; subst.
  cbn [sort_matches] in Hs.
  destruct (sort_matches l) as [|y sorted] eqn:Hsl.
  - assert (l = []) by (apply Permutation_nil; rewrite <- Hsl;
                        apply sort_matches_perm).
    subst l. inversion Hs; subst. exists [], []. repeat split; constructor.
  - destruct (IH y sorted Hl eq_refl) as (before & after & Hl' & Hb & Ha).
    cbn [insert_match] in Hs.
    destruct (m_score x <? m_score y)%float eqn:Hxy; inversion Hs; subst.
    + exists (x :: before), after. split; [reflexivity|].
      split; [constructor; assumption|exact Ha].
    + exists [], (before ++ y :: after). split; [reflexivity|].
      split; [constructor|].
      assert (Hnan : forall m, In m (before ++ y :: after) ->
                               Prim2SF (m_score m) <> S754_nan).
      { intros m Hin. rewrite Forall_forall in Hl.
        exact (proj2 (ltb_true_not_nan _ _ (Hl m Hin))). }
      pose proof (proj2 (ltb_true_not_nan _ _ Hx)) as Hxn.
      pose proof (Hnan y (in_elt y before after)) as Hyn.
      apply Forall_app. split; [|constructor].
      * rewrite Forall_forall in Hb |- *. intros m Hin.
        unfold scores_not_above. unfold scores_below in Hb.
        destruct (m_score top <? m_score m)%float eqn:Hxm; [|reflexivity].
        rewrite (ltb_trans _ _ _ Hxm (Hb m Hin)) in Hxy. discriminate Hxy.
      * exact Hxy.
      * rewrite Forall_forall in Ha |- *. intros m Hin.
        unfold scores_not_above in *.
        apply (not_ltb_trans _ (m_score y)); auto.
        apply Hnan. apply in_or_app. right. right. exact Hin.
Qed.

(** X16.  The sort of the matches, on the entries the scoring loop keeps
    (scores above 0): the sorted list is a rearrangement of the matches
    without loss or repetition, no entry stands directly before one with a
    larger score, and the sort is stable: for every score, the entries
    with that score are in the order of the listing.  Hence the entry the
    resolver reports first is the first entry of the listing among those
    with the highest score: the entries listed before it score strictly
    less, the entries listed after it do not score more. *)
Theorem sort_matches_is_stable_and_descending :
  forall l : list Match,
    Forall (fun m => (0 <? m_score m)%float = true) l ->
    Permutation (sort_matches l) l /\
    Sorted not_below (sort_matches l) /\
    (forall s, with_score s (sort_matches l) = with_score s l) /\
    (forall top rest,
       sort_matches l = top :: rest ->
       exists before after,
         l = before ++ top :: after /\
         Forall (scores_below top) before /\
         Forall (scores_not_above top) after).
Proof.
  intros l Hpos. split; [apply sort_matches_perm|].
  split; [apply sort_matches_sorted|].
  split; [intros s; apply sort_matches_with_score|].
  intros top rest. apply sort_matches_top. exact Hpos.
Qed.

Lemma sort_matches_is_stable_and_descending_witness :
  let a := {| m_device := JInt 1; m_score := 0.3 |} in
  let b := {| m_device := JInt 2; m_score := 0.5 |} in
  let c := {| m_device := JInt 3; m_score := 0.3 |} in
  let d := {| m_device := JInt 4; m_score := 0.5 |} in
  sort_matches [a; b; c; d] = [b; d; a; c] /\
  with_score 0.3 (sort_matches [a; b; c; d]) = [a; c] /\
  with_score 0.5 (sort_matches [a; b; c; d]) = [b; d].
Proof.
  intros a b c d. split; [reflexivity|].
  destruct (sort_matches_is_stable_and_descending [a; b; c; d])
    as (_ & _ & Hstable & _); [repeat constructor|].
  split; rewrite Hstable; reflexivity.
Defined.

Lemma score_tests_agree_all :
  forallb (fun k => forallb score_tests_agree (signals_with_overlap k))
    (range 0 251) = true.
Proof. vm_compute. reflexivity. Qed.

(** X17.  For every combination of signals with at most 250 shared tokens
    (an utterance has at most 500 characters), the tests the code makes on
    the binary64 score agree with exact arithmetic in tenths: the score is
    positive exactly when some signal is present, is clamped exactly when
    the exact sum exceeds 1.0, and reaches the 0.8 threshold exactly when
    the exact sum does, with one exception.  A device matched by name and
    room with one shared token and no type match has the exact sum 0.8 but
    the computed score 0.7999999999999999, and is not resolved. *)
Theorem threshold_agrees_with_exact_sum :
  forall g : Signals,
    0 <= overlap g <= 250 ->
    (0 <? score_of g)%float = (0 <? tenths g) /\
    (1 <? score_of g)%float = (10 <? tenths g) /\
    (0.8 <=? score_of g)%float =
      ((8 <=? tenths g) && negb (name_room_one_token g)).
Proof.
  intros [a b c n] Hn. cbn [overlap] in Hn.
  pose proof score_tests_agree_all as Hall.
  rewrite forallb_forall in Hall.
  assert (Hin : In n (range 0 251)) by (apply in_range; simpl; lia).
  specialize (Hall n Hin). rewrite forallb_forall in Hall.
  assert (Hg : In {| name_match := a; type_match := b; room_match := c;
                     overlap := n |} (signals_with_overlap n)).
  { destruct a, b, c; simpl; auto 10. }
  specialize (Hall _ Hg). unfold score_tests_agree in Hall.
  apply andb_true_iff in Hall. destruct Hall as [Hall H3].
  apply andb_true_iff in Hall. destruct Hall as [H1 H2].
  apply Bool.eqb_prop in H1, H2, H3. auto.
Qed.

Lemma threshold_agrees_with_exact_sum_witness :
  let g := {| name_match := true; type_match := false; room_match := true;
              overlap := 1 |} in
  tenths g = 8 /\ (0.8 <=? score_of g)%float = false.
Proof.
  intros g. split; [reflexivity|].
  destruct (threshold_agrees_with_exact_sum g) as (_ & _ & H);
    [simpl; lia|].
  rewrite H. reflexivity.
Defined.

Lemma for_each_length {A B : Type} (f : A -> exn + B) (l : list A) (bs : list B) :
  for_each f l = inr bs -> List.length bs = List.length l.
Proof.
  revert bs. induction l as [|a l IH]; intros bs H.
  - inversion H. reflexivity.
  - cbn [for_each] in H. destruct (f a) as [e|b]; [discriminate|].
    cbn [bind_r] in H. destruct (for_each f l) as [e|bs']; [discriminate|].
    inversion H. simpl. rewrite (IH bs' eq_refl). reflexivity.
Qed.

Lemma decide_response_shapes (params : ResolveDeviceInput)
    (matches : list Match) (resp : json) :
  decide_response params matches = inr resp ->
  match matches with
  | [] =>
      py_get resp "resolved" JNull = inr (JBool false) /\
      py_get resp "confidence" JNull = inr (JFloat 0) /\
      py_get resp "candidates" JNull = inr JNull /\
      py_get resp "device_id" JNull = inr JNull
  | top :: _ =>
      if (0.8 <=? m_score top)%float then
        py_get resp "resolved" JNull = inr (JBool true) /\
        py_get resp "confidence" JNull = inr (JFloat (m_score top)) /\
        py_get resp "candidates" JNull = inr JNull /\
        py_getitem (m_device top) "id" = py_get resp "device_id" JNull
      else
        py_get resp "resolved" JNull = inr (JBool false) /\
        py_get resp "clarification_needed" JNull = inr (JBool true) /\
        py_get resp "confidence" JNull = inr (JFloat (m_score top)) /\
        py_get resp "device_id" JNull = inr JNull /\
        exists cs,
          py_get resp "candidates" JNull = inr (JList cs) /\
          len cs = Z.min 5 (len matches)
  end.
Proof.
  unfold decide_response. destruct matches as [|top rest].
  - intros H. inversion H. repeat split; reflexivity.
  - destruct (0.8 <=? m_score top)%float.
    + destruct (py_getitem (m_device top) "id") as [e|i]; [discriminate|].
      cbn [bind_r].
      destruct (py_getitem (m_device top) "name") as [e|n]; [discriminate|].
      cbn [bind_r].
      destruct (py_getitem (m_device top) "type") as [e|t]; [discriminate|].
      cbn [bind_r].
      destruct (py_get (m_device top) "roomId" JNull) as [e|r]; [discriminate|].
      cbn [bind_r]. intros H. inversion H. repeat split; reflexivity.
    + destruct (for_each candidate_of (firstn 5 (top :: rest))) as [e|cs] eqn:Hcs;
        [discriminate|].
      cbn [bind_r]. intros H. inversion H.
      split; [reflexivity|]. split; [reflexivity|]. split; [reflexivity|].
      split; [reflexivity|]. exists cs. split; [reflexivity|].
      apply for_each_length in Hcs. unfold len. rewrite Hcs, length_firstn.
      lia.
Qed.

(** X18.  Whenever the body of the resolver returns a result, it has one
    of three shapes.  With no match: unresolved, confidence 0.0, no
    candidates.  With a top score of at least 0.8: resolved, that score as
    confidence (at most 1.0), the id of a device of the listing, and no
    candidates.  Otherwise: unresolved, clarification needed, the top
    score (above 0, below the threshold) as confidence and between one and
    five candidates.  A device is never resolved below 0.8. *)
Theorem resolver_decision_policy :
  forall (params : ResolveDeviceInput) (devices rooms resp : json),
    resolve_in_listings params devices rooms = inr resp ->
    (py_get resp "resolved" JNull = inr (JBool false) /\
     py_get resp "confidence" JNull = inr (JFloat 0) /\
     py_get resp "candidates" JNull = inr JNull)
    \/ (exists c device device_list,
          py_get resp "resolved" JNull = inr (JBool true) /\
          py_get resp "confidence" JNull = inr (JFloat c) /\
          (0.8 <=? c)%float = true /\ (c <=? 1)%float = true /\
          py_get resp "candidates" JNull = inr JNull /\
          py_iter devices = inr device_list /\ In device device_list /\
          py_getitem device "id" = py_get resp "device_id" JNull)
    \/ (exists c cs,
          py_get resp "resolved" JNull = inr (JBool false) /\
          py_get resp "clarification_needed" JNull = inr (JBool true) /\
          py_get resp "confidence" JNull = inr (JFloat c) /\
          (0 <? c)%float = true /\ (0.8 <=? c)%float = false /\
          py_get resp "candidates" JNull = inr (JList cs) /\
          1 <= len cs <= 5).
Proof.
  intros params devices rooms resp. unfold resolve_in_listings.
  destruct (py_iter rooms) as [e|room_list]; [discriminate|]. cbn [bind_r].
  destruct (build_room_map room_list []) as [e|rm]; [discriminate|].
  cbn [bind_r].
  destruct (py_iter devices) as [e|device_list]; [discriminate|]. cbn [bind_r].
  destruct (score_devices (lower (utterance params)) (preferred_room_id params)
              rm device_list) as [e|matches] eqn:Hm; [discriminate|].
  cbn [bind_r]. intros H.
  pose proof (score_devices_matches _ _ _ _ _ Hm) as Hall.
  pose proof (sort_matches_perm matches) as Hperm.
  apply decide_response_shapes in H.
  destruct (sort_matches matches) as [|top rest] eqn:Hs.
  - left. destruct H as (H1 & H2 & H3 & _). auto.
  - assert (Htop : In top matches).
    { apply (Permutation_in top Hperm). left. reflexivity. }
    rewrite Forall_forall in Hall. destruct (Hall top Htop) as (Hpos & Hle & Hin).
    destruct (0.8 <=? m_score top)%float eqn:Hthr.
    + right. left. destruct H as (H1 & H2 & H3 & H4).
      exists (m_score top), (m_device top), device_list.
      repeat split; auto.
    + right. right. destruct H as (H1 & H2 & H3 & _ & cs & H5 & H6).
      exists (m_score top), cs. repeat split; auto; unfold len in *;
        cbn [List.length] in H6; lia.
Qed.

Lemma resolver_decision_policy_witness :
  exists resp c,
    resolve_in_listings
      {| utterance := py "lampadario soggiorno light"; preferred_room_id := None |}
      scenario_A_devices scenario_A_rooms = inr resp /\
    py_get resp "resolved" JNull = inr (JBool true) /\
    py_get resp "confidence" JNull = inr (JFloat c) /\
    (0.8 <=? c)%float = true /\
    py_get resp "device_id" JNull = inr (JInt 1).
Proof.
  eexists. 
  destruct (resolver_decision_policy
              {| utterance := py "lampadario soggiorno light";
                 preferred_room_id := None |}
              scenario_A_devices scenario_A_rooms
              (JObj [ (py "resolved", JBool true);
                      (py "confidence", JFloat 1);
                      (py "device_id", JInt 1);
                      (py "device_name", JStr (py "Lampadario Soggiorno"));
                      (py "device_type", JStr (py "light"));
                      (py "room_id", JInt 1);
                      (py "original_utterance", JStr (py "lampadario soggiorno light"));
                      (py "message", JStr (py "Device successfully resolved")) ]))
    as [H | [H | H]]; [vm_compute; reflexivity | | |].
  - destruct H as (H & _). vm_compute in H. discriminate H.
  - destruct H as (c & device & dl & H1 & H2 & H3 & _).
    exists c. split; [vm_compute; reflexivity|]. 
    split; [exact H1|]. split; [exact H2|]. split; [exact H3|reflexivity].
  - destruct H as (c & cs & H & _). vm_compute in H. discriminate H.
Defined.

(* ------------------------------------------------------------------ *)
(** ** Edge cases of the tools *)

(** X19.  When the answer to [/devices] has no ["devices"] entry, or an
    empty one, the resolver answers "No devices matched the description"
    with confidence 0.0 for every utterance and room hint (the room
    listing is still read and must be well formed). *)
Theorem empty_listing_has_no_matches :
  forall (remote : Remote) (w w1 w' : World) (params : ResolveDeviceInput)
         (o : list (str * json)) (rooms_data rooms : json)
         (room_list : list json) (rm : room_dict),
    api_request remote (py "/devices") (py "GET") None true w = (inr (JObj o), w1) ->
    dict_get o (py "devices") = None \/ dict_get o (py "devices") = Some (JList []) ->
    api_request remote (py "/rooms") (py "GET") None true w1 = (inr rooms_data, w') ->
    py_get rooms_data "rooms" (JList []) = inr rooms ->
    py_iter rooms = inr room_list ->
    build_room_map room_list [] = inr rm ->
    exists resp,
      crestron_resolve_device remote params w = (inr resp, w') /\
      py_get resp "resolved" JNull = inr (JBool false) /\
      py_get resp "confidence" JNull = inr (JFloat 0) /\
      py_get resp "message" JNull =
        inr (JStr (py "No devices matched the description")) /\
      py_get resp "original_utterance" JNull = inr (JStr (utterance params)).
Proof.
  intros remote w w1 w' params o rooms_data rooms room_list rm
    Hd Ho Hr Hrooms Hit Hmap.
  assert (Hdev : py_get (JObj o) "devices" (JList []) = inr (JList [])).
  { unfold py_get. destruct Ho as [-> | ->]; reflexivity. }
  eexists. split.
  - apply (crestron_resolve_device_listings remote w w' params (JList []) rooms).
    + exists (JObj o), rooms_data, w1. auto.
    + unfold resolve_in_listings. rewrite Hit. cbn [bind_r]. rewrite Hmap.
      reflexivity.
  - repeat split; reflexivity.
Qed.

Lemma empty_listing_has_no_matches_witness :
  exists resp w',
    crestron_resolve_device
      (listing_remote (JList []) scenario_B_rooms 201)
      scenario_B_params scenario_world = (inr resp, w') /\
    py_get resp "message" JNull =
      inr (JStr (py "No devices matched the description")).
Proof.
  destruct (empty_listing_has_no_matches
              (listing_remote (JList []) scenario_B_rooms 201)
              scenario_world
              (after_request scenario_world (scenario_get "/devices") 201)
              scenario_world_after scenario_B_params
              [(py "devices", JList [])]
              (JObj [(py "rooms", scenario_B_rooms)]) scenario_B_rooms
              [room_object 1 "Soggiorno"; room_object 2 "Cucina"]
              [(JInt 1, py "soggiorno"); (JInt 2, py "cucina")])
    as (resp & Hrun & _ & _ & Hmsg & _).
  - vm_compute. reflexivity.
  - right. reflexivity.
  - vm_compute. reflexivity.
  - reflexivity.
  - reflexivity.
  - reflexivity.
  - exists resp. eexists. split; [exact Hrun|exact Hmsg].
Defined.

Lemma isin_nil (u : str) : isin [] u = true.
Proof. apply isin_startswith. reflexivity. Qed.

Lemma intersection_nil (a : list str) : intersection a [] = [].
Proof. induction a as [|x a IH]; [reflexivity|exact IH]. Qed.

Lemma room_signal_returns (u : str) (hint : option Z) (rm : room_dict) (r : json) :
  hashable r = inr tt ->
  exists b, room_signal u hint rm r = inr b /\
            (preferred_room_matches hint r = true -> b = true).
Proof.
  intros Hh. unfold room_signal.
  destruct (preferred_room_matches hint r).
  - exists true. split; reflexivity.
  - rewrite Hh. cbn [bind_r].
    destruct (room_get rm r); eexists; (split; [reflexivity|discriminate]).
Qed.

(** X20.  An empty string is a substring of every string, so a device
    whose name and type are empty gets the name bonus and the type bonus
    for every utterance: alone in the listing it is resolved, whatever was
    asked and whatever the rooms are called, with confidence 0.8 or 1.0,
    and 1.0 when the room hint names its room.  When the device has no
    name and no type entry at all, the score is the same, and the resolved
    branch then fails on the missing ["name"]: the body raises
    [KeyError]. *)
Theorem nameless_device_matches_every_utterance :
  forall (params : ResolveDeviceInput) (rooms : json) (room_list : list json)
         (rm : room_dict) (o : list (str * json)) (i r : json),
    py_iter rooms = inr room_list ->
    build_room_map room_list [] = inr rm ->
    dict_get o (py "id") = Some i ->
    dict_get o (py "roomId") = Some r ->
    hashable r = inr tt ->
    (dict_get o (py "name") = Some (JStr []) ->
     dict_get o (py "type") = Some (JStr []) ->
     exists resp c,
       resolve_in_listings params (JList [JObj o]) rooms = inr resp /\
       py_get resp "resolved" JNull = inr (JBool true) /\
       py_get resp "device_id" JNull = inr i /\
       py_get resp "confidence" JNull = inr (JFloat c) /\
       (c = 0.8%float \/ c = 1%float) /\
       (preferred_room_matches (preferred_room_id params) r = true ->
        c = 1%float))
    /\ (dict_get o (py "name") = None ->
        dict_get o (py "type") = None ->
        resolve_in_listings params (JList [JObj o]) rooms =
          inl (KeyError (py "'name'"))).
Proof.
  intros params rooms room_list rm o i r Hit Hmap Hi Hr Hh.
  destruct (room_signal_returns (lower (utterance params))
              (preferred_room_id params) rm r Hh) as (b & Hroom & Hpref).
  assert (Hscore : forall g,
             g = {| name_match := true; type_match := true; room_match := b;
                    overlap := 0 |} ->
             (0 <? score_of g)%float = true /\
             py_min (score_of g) 1 = (if b then 1 else 0.8)%float /\
             (0.8 <=? (if b then 1 else 0.8))%float = true).
  { intros g ->. destruct b; repeat split; reflexivity. }
  split.
  - intros Hn Ht.
    unfold resolve_in_listings. rewrite Hit. cbn [bind_r]. rewrite Hmap.
    cbn [bind_r py_iter score_devices].
    unfold signals_of, py_get. rewrite Hn, Ht, Hr. cbn [bind_r py_lower lower map].
    rewrite Hroom. cbn [bind_r]. rewrite isin_nil. cbn [orb].
    change (set_of (split [])) with (@nil str). rewrite intersection_nil.
    change (len (@nil str)) with 0.
    destruct (Hscore _ eq_refl) as (Hpos & Hmin & Hthr).
    rewrite Hpos, Hmin. cbn [bind_r sort_matches insert_match].
    unfold decide_response. cbn [m_score m_device]. rewrite Hthr.
    unfold py_getitem, py_get. rewrite Hi, Hn, Ht, Hr. cbn [bind_r].
    eexists. exists (if b then 1 else 0.8)%float.
    split; [reflexivity|]. split; [reflexivity|]. split; [reflexivity|].
    split; [reflexivity|]. split.
    + destruct b; [right|left]; reflexivity.
    + intros Hp. rewrite (Hpref Hp). reflexivity.
  - intros Hn Ht.
    unfold resolve_in_listings. rewrite Hit. cbn [bind_r]. rewrite Hmap.
    cbn [bind_r py_iter score_devices].
    unfold signals_of, py_get. rewrite Hn, Ht, Hr. cbn [bind_r py_lower lower map].
    rewrite Hroom. cbn [bind_r]. rewrite isin_nil. cbn [orb].
    change (set_of (split [])) with (@nil str). rewrite intersection_nil.
    change (len (@nil str)) with 0.
    destruct (Hscore _ eq_refl) as (Hpos & Hmin & Hthr).
    rewrite Hpos, Hmin. cbn [bind_r sort_matches insert_match].
    unfold decide_response. cbn [m_score m_device]. rewrite Hthr.
    unfold py_getitem. rewrite Hi, Hn. reflexivity.
Qed.

Lemma nameless_device_matches_every_utterance_witness :
  exists resp,
    resolve_in_listings
      {| utterance := py "turn on the bedroom light"; preferred_room_id := Some 9 |}
      (JList [ JObj [ (py "id", JInt 7); (py "name", JStr []);
                      (py "type", JStr []); (py "roomId", JInt 9) ] ])
      scenario_B_rooms = inr resp /\
    py_get resp "resolved" JNull = inr (JBool true) /\
    py_get resp "device_id" JNull = inr (JInt 7) /\
    py_get resp "confidence" JNull = inr (JFloat 1).
Proof.
  destruct (nameless_device_matches_every_utterance
              {| utterance := py "turn on the bedroom light";
                 preferred_room_id := Some 9 |}
              scenario_B_rooms
              [room_object 1 "Soggiorno"; room_object 2 "Cucina"]
              [(JInt 1, py "soggiorno"); (JInt 2, py "cucina")]
              [ (py "id", JInt 7); (py "name", JStr []);
                (py "type", JStr []); (py "roomId", JInt 9) ]
              (JInt 7) (JInt 9)) as [Hres _];
    [reflexivity | reflexivity | reflexivity | reflexivity | reflexivity |].
  destruct Hres as (resp & c & H1 & H2 & H3 & H4 & _ & H5);
    [reflexivity | reflexivity |].
  exists resp. rewrite (H5 eq_refl) in H4. auto.
Defined.

(** X21.  Without a valid session every command and the resolver return
    the object [{"error": "Not authenticated or session expired. ..."}]
    and leave the world as it was: no request is sent, and for the shade
    command not even after the positions have been converted. *)
Theorem tools_refuse_without_a_valid_session :
  forall (remote : Remote) (w : World),
    is_valid (session w) (loop_time w) = false ->
    (forall params, accepted_SetShadeStateInput params ->
       crestron_set_shade_position remote params w = (inr not_authenticated_object, w))
    /\ (forall params,
          crestron_resolve_device remote params w = (inr not_authenticated_object, w))
    /\ (forall params,
          crestron_activate_scene remote params w = (inr not_authenticated_object, w))
    /\ (forall params,
          crestron_set_thermostat_setpoint remote params w =
          (inr not_authenticated_object, w))
    /\ (forall params,
          crestron_set_thermostat_mode remote params w =
          (inr not_authenticated_object, w))
    /\ (forall params,
          crestron_set_thermostat_fan remote params w =
          (inr not_authenticated_object, w)).
Proof.
  intros remote w Hv. repeat split; intros params.
  - intros [_ Hall].
    unfold crestron_set_shade_position, try_except, bind at 1.
    rewrite (shades_data_accepted _ Hall). unfold lift at 1. unfold bind at 1.
    rewrite (api_request_invalid remote w _ _ _ Hv). reflexivity.
  - unfold crestron_resolve_device, try_except, bind at 1.
    rewrite (api_request_invalid remote w _ _ _ Hv). reflexivity.
  - unfold crestron_activate_scene, try_except, bind at 1.
    rewrite (api_request_invalid remote w _ _ _ Hv). reflexivity.
  - unfold crestron_set_thermostat_setpoint, try_except, bind at 1.
    rewrite (api_request_invalid remote w _ _ _ Hv). reflexivity.
  - unfold crestron_set_thermostat_mode, try_except, bind at 1.
    rewrite (api_request_invalid remote w _ _ _ Hv). reflexivity.
  - unfold crestron_set_thermostat_fan, try_except, bind at 1.
    rewrite (api_request_invalid remote w _ _ _ Hv). reflexivity.
Qed.

Lemma tools_refuse_without_a_valid_session_witness :
  let w := {| session := CrestronSession_init_with_client; loop_time := 5;
              requests := [] |} in
  crestron_resolve_device scenario_B_remote scenario_B_params w =
    (inr not_authenticated_object, w) /\
  crestron_set_shade_position scenario_C_remote scenario_C_params w =
    (inr not_authenticated_object, w).
Proof.
  intros w.
  destruct (tools_refuse_without_a_valid_session scenario_B_remote w)
    as (_ & Hres & _); [reflexivity|].
  destruct (tools_refuse_without_a_valid_session scenario_C_remote w)
    as (Hshade & _); [reflexivity|].
  split; [apply Hres|]. apply Hshade.
  split; [vm_compute; split; discriminate|].
  repeat constructor; vm_compute; discriminate.
Defined.

(** X22.  Validity is checked before each of the two reads of the
    resolver.  If the session (its key a text of visible ASCII characters)
    is valid when the tool starts but has expired
    by the time the device listing arrives, the room listing is not
    requested: the tool returns the not-authenticated error, having sent
    exactly one request, and the device listing is dropped. *)
Theorem session_can_expire_between_the_reads :
  forall (remote : Remote) (w : World) (params : ResolveDeviceInput)
         (r : Response) (t : float) (o : list (str * json)),
    is_valid (session w) (loop_time w) = true ->
    client (session w) = true ->
    key_is_token (session w) = true ->
    remote (requests w) (get_request (session w) (py "/devices")) = (Answer r, t) ->
    (200 <=? status_code r) && (status_code r <? 300) = true ->
    payload r = Some (JObj o) ->
    is_valid (session w) t = false ->
    crestron_resolve_device remote params w =
      (inr not_authenticated_object,
       after_request w (get_request (session w) (py "/devices")) t).
Proof.
  intros remote w params r t o Hv Hc Hk Hr H2 Hp Hexp.
  unfold crestron_resolve_device, try_except, bind at 1.
  rewrite (api_request_get remote w _ _ Hv Hc Hk). rewrite Hr. cbn [fst snd].
  unfold reply_result. rewrite H2, Hp. unfold bind at 1. unfold lift at 1.
  cbn [py_get]. unfold bind at 1.
  rewrite (api_request_invalid remote
             (after_request w (get_request (session w) (py "/devices")) t)
             _ _ _ Hexp).
  reflexivity.
Qed.

(** Issued at loop time 100, used at 630, the listing back at 645. *)
Lemma session_can_expire_between_the_reads_witness :
  let w := {| session := live_session "192.168.1.100" "key" 100;
              loop_time := 630; requests := [] |} in
  exists w',
    crestron_resolve_device (listing_remote scenario_B_devices scenario_B_rooms 645)
      scenario_B_params w = (inr not_authenticated_object, w') /\
    requests w' = [scenario_get "/devices"].
Proof.
  intros w. eexists. split.
  - apply (session_can_expire_between_the_reads
             (listing_remote scenario_B_devices scenario_B_rooms 645) w
             scenario_B_params
             {| status_code := 200; reason := py "OK";
                payload := Some (JObj [(py "devices", scenario_B_devices)]) |}
             645%float [(py "devices", scenario_B_devices)]); reflexivity.
  - reflexivity.
Defined.

(* ------------------------------------------------------------------ *)
(** ** The size of a truncated response *)

Lemma len_app {A : Type} (a b : list A) : len (a ++ b) = len a + len b.
Proof. unfold len. rewrite length_app. lia. Qed.

(** X23.  The budget bounds the part that is kept, not the text that is
    returned: for a response over the limit the result has exactly 25,000
    characters plus the notice, whose length is 83 plus the digits and
    separators of the original length plus 98 or 75 for the advice.  The
    result is therefore at least 158 characters over the limit, and longer
    than the original whenever the original was over by less than that. *)
Theorem truncated_response_exceeds_the_limit :
  forall (response : str) (items_count : Z),
    CHARACTER_LIMIT < len response ->
    len (truncate_response response items_count) =
      CHARACTER_LIMIT + 83 + len (format_thousands (len response)) +
      (if 0 <? items_count then 98 else 75) /\
    CHARACTER_LIMIT + 158 <= len (truncate_response response items_count) /\
    (len response < CHARACTER_LIMIT + 158 ->
       len response < len (truncate_response response items_count)).
Proof.
  intros response items_count H.
  assert (Hlen : len (truncate_response response items_count) =
                 CHARACTER_LIMIT + 83 + len (format_thousands (len response)) +
                 (if 0 <? items_count then 98 else 75)).
  { unfold truncate_response. pose proof H as H'. apply Z.leb_gt in H'.
    rewrite H'. rewrite len_app, (len_firstn_limit _ H).
    unfold truncation_head.
    destruct (0 <? items_count); repeat rewrite len_app;
      set (F := len (format_thousands (len response)));
      repeat match goal with
             | |- context [len (py ?s)] =>
                 let v := eval vm_compute in (len (py s)) in
                 change (len (py s)) with v
             end;
      change (len (format_thousands CHARACTER_LIMIT)) with 6;
      change (len [10%N; 10%N; 9888%N; 65039%N]) with 4;
      change (len [10%N]) with 1;
      lia. }
  assert (Hpos : 0 <= len (format_thousands (len response)))
    by (unfold len; lia).
  split; [exact Hlen|]. rewrite Hlen.
  destruct (0 <? items_count); split; lia.
Qed.

Lemma truncated_response_exceeds_the_limit_witness :
  len (truncate_response (repeat 120%N (Z.to_nat 25001)) 3) = 25187.
Proof.
  destruct (truncated_response_exceeds_the_limit
              (repeat 120%N (Z.to_nat 25001)) 3) as [H _];
    [vm_compute; reflexivity|].
  rewrite H. vm_compute. reflexivity.
Defined.

Lemma build_room_map_bad_room (good : list json) (o : list (str * json))
    (rest : list json) (rm acc : room_dict) :
  build_room_map good acc = inr rm ->
  dict_get o (py "id") = None \/
  (dict_get o (py "id") <> None /\ dict_get o (py "name") = None) ->
  exists key, build_room_map (good ++ JObj o :: rest) acc = inl (KeyError key).
Proof.
  intros Hgood Hbad. revert rm acc Hgood.
  induction good as [|g good IH]; intros rm acc Hgood.
  - cbn [app build_room_map]. unfold py_getitem.
    destruct Hbad as [Hi | [Hi Hn]].
    + rewrite Hi. eexists. reflexivity.
    + destruct (dict_get o (py "id")) as [k|]; [|contradiction].
      rewrite Hn. eexists. reflexivity.
  - cbn [app build_room_map] in Hgood |- *.
    destruct (py_getitem g "id") as [e|k]; [discriminate|]. cbn [bind_r] in *.
    destruct (py_getitem g "name") as [e|n]; [discriminate|]. cbn [bind_r] in *.
    destruct (py_lower n) as [e|name]; [discriminate|]. cbn [bind_r] in *.
    destruct (hashable k) as [e|u]; [discriminate|]. cbn [bind_r] in *.
    exact (IH rm _ Hgood).
Qed.

(** X24.  The room map is built from every room of the listing before any
    device is scored, with [r["id"]] and [r["name"]]: a single room object
    without a ["name"] (or without an ["id"]) makes the whole resolution
    fail with [KeyError], whatever the devices and the utterance are, and
    the tool reports "Failed to resolve device". *)
Theorem malformed_room_fails_the_resolution :
  forall (remote : Remote) (w w' : World) (params : ResolveDeviceInput)
         (devices : json) (good : list json) (rm : room_dict)
         (o : list (str * json)) (rest : list json),
    listings_arrive remote w w' devices (JList (good ++ JObj o :: rest)) ->
    build_room_map good [] = inr rm ->
    dict_get o (py "id") = None \/
    (dict_get o (py "id") <> None /\ dict_get o (py "name") = None) ->
    exists key,
      resolve_in_listings params devices (JList (good ++ JObj o :: rest)) =
        inl (KeyError key) /\
      crestron_resolve_device remote params w =
        (inr (JObj [ (py "error", JStr (py "Failed to resolve device"));
                     (py "details", JStr key) ]), w').
Proof.
  intros remote w w' params devices good rm o rest
    (data & rooms_data & w1 & Hd & Hdl & Hr & Hrl) Hgood Hbad.
  destruct (build_room_map_bad_room good o rest rm [] Hgood Hbad) as [key Hmap].
  exists key.
  assert (Hres : resolve_in_listings params devices (JList (good ++ JObj o :: rest))
                 = inl (KeyError key)).
  { unfold resolve_in_listings. cbn [py_iter bind_r]. rewrite Hmap. reflexivity. }
  split; [exact Hres|].
  unfold crestron_resolve_device, try_except, bind.
  rewrite Hd. unfold lift. rewrite Hdl, Hr, Hrl, Hres. reflexivity.
Qed.

Lemma malformed_room_fails_the_resolution_witness :
  let rooms := JList ([room_object 1 "Soggiorno"] ++
                      JObj [(py "id", JInt 2)] :: [room_object 3 "Cucina"]) in
  exists w',
    crestron_resolve_device (listing_remote scenario_A_devices rooms 201)
      {| utterance := py "lampadario soggiorno light"; preferred_room_id := None |}
      scenario_world =
      (inr (JObj [ (py "error", JStr (py "Failed to resolve device"));
                   (py "details", JStr (py "'name'")) ]), w').
Proof.
  intros rooms.
  destruct (malformed_room_fails_the_resolution
              (listing_remote scenario_A_devices rooms 201)
              scenario_world scenario_world_after
              {| utterance := py "lampadario soggiorno light";
                 preferred_room_id := None |}
              scenario_A_devices [room_object 1 "Soggiorno"]
              [(JInt 1, py "soggiorno")] [(py "id", JInt 2)]
              [room_object 3 "Cucina"]) as (key & Hres & Hrun).
  - do 3 eexists. repeat split; vm_compute; reflexivity.
  - reflexivity.
  - right. split; [discriminate|reflexivity].
  - exists scenario_world_after. rewrite Hrun.
    vm_compute in Hres. inversion Hres. reflexivity.
Defined.

(* ------------------------------------------------------------------ *)
(** ** A key that is not a string *)

Lemma api_request_non_string_key (remote : Remote) (w : World)
    (endpoint method : str) (body : option json) :
  is_valid (session w) (loop_time w) = true ->
  client (session w) = true ->
  (forall k, auth_key (session w) <> JStr k) ->
  method = py "GET" \/ method = py "POST" ->
  api_request remote endpoint method body true w =
  (inl (TypeError (py "Header value must be str or bytes, not <class '" ++
                   type_name (auth_key (session w)) ++ py "'>")), w).
Proof.
  intros Hv Hc Hns Hm.
  rewrite (api_request_passes remote w endpoint method body true (fun _ => Hv) Hc).
  assert (Hk : truthy (auth_key (session w)) = true).
  { apply is_valid_iff in Hv. exact (proj1 Hv). }
  rewrite Hk. cbv zeta. cbn [andb]. unfold client_call.
  destruct (auth_key (session w)) as [| | | |k| |] eqn:Hkey;
    try (exfalso; exact (Hns k eq_refl));
    destruct Hm as [-> | ->]; reflexivity.
Qed.

(** X25.  [authenticate] stores whatever the login answer carries under
    ["AuthKey"], and [is_valid] only asks whether it is true.  With a key
    that is true but not a string (a number, say) the session counts as
    valid, yet the HTTP client refuses the header while it builds the
    request: every authenticated GET or POST raises [TypeError], nothing is
    sent and the world is unchanged, whatever the remote would have
    answered; the scene command and the resolver report their generic
    failure with that error as details. *)
Theorem non_string_key_is_never_sent :
  forall (remote : Remote) (w : World),
    is_valid (session w) (loop_time w) = true ->
    client (session w) = true ->
    (forall k, auth_key (session w) <> JStr k) ->
    exists msg,
      (forall endpoint method body,
          method = py "GET" \/ method = py "POST" ->
          api_request remote endpoint method body true w =
          (inl (TypeError msg), w)) /\
      (forall params,
          crestron_activate_scene remote params w =
          (inr (JObj [ (py "error", JStr (py "Failed to activate scene"));
                       (py "details", JStr msg) ]), w)) /\
      (forall params,
          crestron_resolve_device remote params w =
          (inr (JObj [ (py "error", JStr (py "Failed to resolve device"));
                       (py "details", JStr msg) ]), w)).
Proof.
  intros remote w Hv Hc Hns. eexists. split; [|split].
  - intros endpoint method body Hm.
    apply api_request_non_string_key; assumption.
  - intros params. unfold crestron_activate_scene, try_except, bind at 1.
    rewrite (api_request_non_string_key remote w _ (py "POST") None Hv Hc Hns
               (or_intror eq_refl)).
    reflexivity.
  - intros params. unfold crestron_resolve_device, try_except, bind at 1.
    rewrite (api_request_non_string_key remote w _ (py "GET") None Hv Hc Hns
               (or_introl eq_refl)).
    reflexivity.
Qed.

(** A login answered with the number 12345 as key is reported as a success;
    the rooms are then asked for, and the request is refused unsent. *)
Lemma non_string_key_is_never_sent_witness :
  let w := {| session := CrestronSession_init_with_client;
              loop_time := 50; requests := [] |} in
  let remote := constant_remote (ok_response (JObj [(py "AuthKey", JInt 12345)])) 51 in
  let params := {| ai_host := py "crestron.local"; ai_auth_token := py "token" |} in
  exists resp w',
    crestron_authenticate remote params w = (inr resp, w') /\
    py_get resp "status" JNull = inr (JStr (py "success")) /\
    is_valid (session w') (loop_time w') = true /\
    api_request remote (py "/rooms") (py "GET") None true w' =
    (inl (TypeError (py "Header value must be str or bytes, not <class 'int'>")), w').
Proof.
  intros w remote params. eexists. eexists.
  split; [vm_compute; reflexivity|].
  split; [reflexivity|]. split; [reflexivity|].
  match goal with
  | |- api_request _ _ _ _ _ ?w1 = _ =>
      destruct (non_string_key_is_never_sent remote w1) as (msg & Hreq & _)
  end; [reflexivity | reflexivity | intros k; discriminate |].
  rewrite (Hreq (py "/rooms") (py "GET") None (or_introl eq_refl)).
  pose proof (Hreq (py "/rooms") (py "GET") None (or_introl eq_refl)) as H.
  vm_compute in H. inversion H. reflexivity.
Defined.
